(** * Solver dispatch layer of phi.math (src/phi/math/_optimize.py)

    A shallow embedding of [Solve], [SolveInfo], [SolveTape], [minimize],
    [solve_nonlinear], [solve_linear], [_linear_solve_forward] and
    [attach_gradient_solve].

    Python objects that are mutated in place and shared ([Solve] and
    [SolveTape] instances, the global [_SOLVE_TAPES] list, the warnings that
    were emitted) live in an explicit [State]; a computation is a function
    from a state to a result (a value or a raised exception) and a new state.
    An exception never rolls the state back.

    The named-dimension tensor algebra, the tree utilities, the numerical
    backends and the differentiation machinery are not part of this file of
    the repository.  What the solver layer needs from them is taken as the
    operations of the type classes below; the few tensor operations whose
    result the solver layer inspects (slicing and stacking the [trajectory]
    dimension, [any], [all], elementwise comparison) are given a small
    concrete model. *)

From stdpp Require Import gmap strings list.
From Stdlib Require Import ZArith.

(** ** Shapes and tensors *)

Inductive DimType := BatchDim | SpatialDim | ChannelDim | InstanceDim | DualDim.

Global Instance DimType_eq_dec : EqDecision DimType.
Proof. solve_decision. Defined.

Record Dim := mkDim { dim_name : string; dim_size : nat; dim_type : DimType }.

Global Instance Dim_eq_dec : EqDecision Dim.
Proof. solve_decision. Defined.

Definition Shape := list Dim.

Definition is_batch (d : Dim) : bool := bool_decide (dim_type d = BatchDim).

(** [shape.batch], [batch(x)] and [shape.non_batch], [non_batch(x)]. *)
Definition batch_dims_of (s : Shape) : Shape := List.filter is_batch s.
Definition non_batch_dims_of (s : Shape) : Shape :=
  List.filter (fun d => negb (is_batch d)) s.

Definition names (s : Shape) : list string := dim_name <$> s.

Fixpoint volume (s : Shape) : nat :=
  match s with
  | [] => 1
  | d :: s' => dim_size d * volume s'
  end.

(** A tensor: its named shape, whether its values are concretely available
    (as opposed to traced by a jit compiler) and its values, outermost
    dimension first. *)
Record Tensor (A : Type) := mkTensor {
  shape : Shape;
  available : bool;
  values : list A
}.
Arguments mkTensor {A} _ _ _.
Arguments shape {A} _.
Arguments available {A} _.
Arguments values {A} _.

(** Modelled from the spec: [wrap] of a Python number is a tensor without
    dimensions. *)
Definition scalar_tensor {A} (a : A) : Tensor A := mkTensor [] true [a].

(** [batch('trajectory')] *)
Definition trajectory : string := "trajectory".

Definition has_dim {A} (name : string) (t : Tensor A) : bool :=
  bool_decide (name ∈ names (shape t)).

(** [all_available] of a list of tensors. *)
Definition all_available {A} (tensors : list (Tensor A)) : bool :=
  forallb available tensors.

(** [tensor.any] and [tensor.all] of a boolean tensor. *)
Definition tensor_any (t : Tensor bool) : bool := existsb (fun b => b) (values t).
Definition tensor_all (t : Tensor bool) : bool := forallb (fun b => b) (values t).

(** Python's indexing of a sequence of length [n]: negative indices count
    from the end, anything out of range is an IndexError ([None]). *)
Definition py_index (n : nat) (i : Z) : option nat :=
  if bool_decide (0 <= i < Z.of_nat n)%Z then Some (Z.to_nat i)
  else if bool_decide (- Z.of_nat n <= i < 0)%Z then Some (Z.to_nat (Z.of_nat n + i))
  else None.

Definition py_getitem {A} (l : list A) (i : Z) : option A :=
  k ← py_index (length l) i; l !! k.

(** Consecutive chunks of [k] elements. *)
Fixpoint chunks {A} (k : nat) (count : nat) (l : list A) : list (list A) :=
  match count with
  | O => []
  | S c => take k l :: chunks k c (drop k l)
  end.

(** Values of the slice [name = i] of values laid out as [s]. A dimension
    that the shape does not have is ignored, as the tensor library does. *)
Fixpoint slice_values {A} (s : Shape) (name : string) (i : nat) (l : list A) : list A :=
  match s with
  | [] => l
  | d :: s' =>
      if bool_decide (dim_name d = name) then take (volume s') (drop (i * volume s') l)
      else concat (slice_values s' name i <$> chunks (volume s') (dim_size d) l)
  end.

Fixpoint remove_dim (name : string) (s : Shape) : Shape :=
  match s with
  | [] => []
  | d :: s' => if bool_decide (dim_name d = name) then s' else d :: remove_dim name s'
  end.

Fixpoint size_of (name : string) (s : Shape) : option nat :=
  match s with
  | [] => None
  | d :: s' => if bool_decide (dim_name d = name) then Some (dim_size d) else size_of name s'
  end.

(** [tensor.<name>[i]]: [None] stands for the IndexError. *)
Definition dim_getitem {A} (name : string) (i : Z) (t : Tensor A) : option (Tensor A) :=
  match size_of name (shape t) with
  | None => Some t
  | Some n =>
      k ← py_index n i;
      Some (mkTensor (remove_dim name (shape t)) (available t)
                     (slice_values (shape t) name k (values t)))
  end.

(** [stack(tensors, batch(name))] for tensors of one shape: the new
    dimension is the outermost one.  [None] when there is nothing to stack or
    the shapes differ. *)
Definition stack_tensors {A} (name : string) (ts : list (Tensor A)) : option (Tensor A) :=
  match ts with
  | [] => None
  | t :: _ =>
      if forallb (fun t' => bool_decide (shape t' = shape t)) ts
      then Some (mkTensor (mkDim name (length ts) BatchDim :: shape t)
                          (forallb available ts)
                          (concat (values <$> ts)))
      else None
  end.

(** [shape.only(names)] and [shape.without(names)] *)
Definition only (s : Shape) (dims : list string) : Shape :=
  List.filter (fun d => bool_decide (dim_name d ∈ dims)) s.
Definition without (s : Shape) (dims : list string) : Shape :=
  List.filter (fun d => bool_decide (dim_name d ∉ dims)) s.

(** [needle in text] for two strings. *)
Fixpoint contains (needle text : string) : bool :=
  String.prefix needle text ||
  match text with
  | EmptyString => false
  | String _ rest => contains needle rest
  end.

(** *** Elementwise comparison with broadcasting by dimension name *)

Definition Index := list (string * nat).

(** All positions of a shape, the last dimension running fastest. *)
Fixpoint indices (s : Shape) : list Index :=
  match s with
  | [] => [[]]
  | d :: s' =>
      flat_map (fun i => (fun idx => (dim_name d, i) :: idx) <$> indices s')
               (seq 0 (dim_size d))
  end.

Fixpoint index_of (name : string) (idx : Index) : nat :=
  match idx with
  | [] => 0
  | (n, i) :: idx' => if bool_decide (n = name) then i else index_of name idx'
  end.

Fixpoint offset (s : Shape) (idx : Index) : nat :=
  match s with
  | [] => 0
  | d :: s' => index_of (dim_name d) idx * volume s' + offset s' idx
  end.

Definition value_at {A} (t : Tensor A) (idx : Index) : option A :=
  values t !! offset (shape t) idx.

(** [shape.is_compatible(other)]: dimensions of the same name have the same size. *)
Definition is_compatible (s1 s2 : Shape) : bool :=
  forallb (fun d => match size_of (dim_name d) s2 with
                    | Some n => bool_decide (size_of (dim_name d) s1 = Some n)
                    | None => true
                    end) s1.

Definition merge_names (s1 s2 : Shape) : Shape :=
  s1 ++ List.filter (fun d => bool_decide (dim_name d ∉ names s1)) s2.

Definition tensor_op2 {A B} (op : option A -> option A -> B) (a b : Tensor A) : Tensor B :=
  let s := merge_names (shape a) (shape b) in
  mkTensor s (available a && available b)
           ((fun idx => op (value_at a idx) (value_at b idx)) <$> indices s).


Definition tensor_eq {A} `{EqDecision A} (a b : Tensor A) : Tensor bool :=
  if is_compatible (shape a) (shape b)
  then tensor_op2 (fun x y => bool_decide (x = y)) a b
  else scalar_tensor false.

(** [tensor == c] for a Python number [c]. *)
Definition tensor_eq_scalar {A} `{EqDecision A} (a : Tensor A) (c : A) : Tensor bool :=
  mkTensor (shape a) (available a) ((fun v => bool_decide (v = c)) <$> values a).

(** ** Python values of the solver layer *)

(** Objects that are mutated in place are referred to by their address. *)
Definition loc := positive.

(** The exception classes that [Solve.suppress] may list, and any other class. *)
Inductive PyClass :=
  | ConvergenceException
  | NotConverged
  | Diverged
  | OtherClass (name : string).

Global Instance PyClass_eq_dec : EqDecision PyClass.
Proof. solve_decision. Defined.

(** [issubclass(err, ConvergenceException)] *)
Definition issubclass_ConvergenceException (c : PyClass) : bool :=
  match c with
  | OtherClass _ => false
  | _ => true
  end.

Inductive WarningCategory := RuntimeWarning | ConvergenceWarning.

Global Instance WarningCategory_eq_dec : EqDecision WarningCategory.
Proof. solve_decision. Defined.

Record Warning := mkWarning { warning_message : string; warning_category : WarningCategory }.

Global Instance Warning_eq_dec : EqDecision Warning.
Proof. solve_decision. Defined.

(** A tolerance as a caller may pass or store it: a Python number or a tensor. *)
Inductive Number (F : Type) :=
  | PyInt (z : Z)
  | PyFloat (f : F)
  | PyTensor (t : Tensor F).
Arguments PyInt {F} _.
Arguments PyFloat {F} _.
Arguments PyTensor {F} _.

Module SolveInfo.
(** The fields that [SolveInfo.__init__] sets. [solve] refers to the
    [Solve] object, which stays shared with the caller. *)
Record t (F X : Type) := mk {
  solve : loc;
  x : X;
  residual : option X;
  iterations : option (Tensor Z);
  function_evaluations : option (Tensor Z);
  converged : Tensor bool;
  diverged : Tensor bool;
  method : string;
  msg : string;
  solve_time : F
}.
Arguments mk {F X} _ _ _ _ _ _ _ _ _ _.
Arguments solve {F X} _.
Arguments x {F X} _.
Arguments residual {F X} _.
Arguments iterations {F X} _.
Arguments function_evaluations {F X} _.
Arguments converged {F X} _.
Arguments diverged {F X} _.
Arguments method {F X} _.
Arguments msg {F X} _.
Arguments solve_time {F X} _.
End SolveInfo.

(** Exceptions.  [ConvergenceError cls result] is the instance [cls(result)]
    of [NotConverged] or [Diverged]. *)
Inductive Exn (F X : Type) :=
  | AssertionError (message : string)
  | KeyError (message : string)
  | IndexError (message : string)
  | AttributeError (message : string)
  | TypeError (message : string)
  | ValueError (message : string)
  | IncompatibleShapes (message : string)
  | ConvergenceError (cls : PyClass) (result : SolveInfo.t F X).
Arguments AssertionError {F X} _.
Arguments KeyError {F X} _.
Arguments IndexError {F X} _.
Arguments AttributeError {F X} _.
Arguments TypeError {F X} _.
Arguments ValueError {F X} _.
Arguments IncompatibleShapes {F X} _.
Arguments ConvergenceError {F X} _ _.

Inductive Outcome (E A : Type) :=
  | Return (a : A)
  | Raise (e : E).
Arguments Return {E A} _.
Arguments Raise {E A} _.

(** A function: its [__name__] and what a call with positional and keyword
    arguments gives. *)
Record Callable (F X Arg : Type) := mkCallable {
  __name__ : string;
  fn_call : list X -> list Arg -> gmap string Arg -> Outcome (Exn F X) X
}.
Arguments mkCallable {F X Arg} _ _.
Arguments __name__ {F X Arg} _.
Arguments fn_call {F X Arg} _ _ _ _.

(** A function object held in an attribute: [fn_id] is its identity, which
    is what [is] compares. *)
Record FunctionObject (F X Arg : Type) := mkFunctionObject {
  fn_id : positive;
  fn : Callable F X Arg
}.
Arguments mkFunctionObject {F X Arg} _ _.
Arguments fn_id {F X Arg} _.
Arguments fn {F X Arg} _.

Module Solve.
(** The attributes of a [Solve] object.  [__init__] stores tensors in
    both tolerances; [solve_nonlinear] later stores the Python number [0]
    in [relative_tolerance] of a copy, which is why that attribute is a
    [Number]. *)
Record t (F X Arg : Type) := mk {
  method : string;
  relative_tolerance : Number F;
  absolute_tolerance : Tensor F;
  max_iterations : Tensor Z;
  x0 : option X;
  preprocess_y : option (FunctionObject F X Arg);
  preprocess_y_args : list Arg;
  suppress : list PyClass;
  _gradient_solve : option loc;
  id : string
}.
Arguments mk {F X Arg} _ _ _ _ _ _ _ _ _ _.
Arguments method {F X Arg} _.
Arguments relative_tolerance {F X Arg} _.
Arguments absolute_tolerance {F X Arg} _.
Arguments max_iterations {F X Arg} _.
Arguments x0 {F X Arg} _.
Arguments preprocess_y {F X Arg} _.
Arguments preprocess_y_args {F X Arg} _.
Arguments suppress {F X Arg} _.
Arguments _gradient_solve {F X Arg} _.
Arguments id {F X Arg} _.
End Solve.

Module SolveTape.
Record t (F X : Type) := mk {
  record_trajectories : bool;
  solves : list (SolveInfo.t F X);
  solve_ids : list string
}.
Arguments mk {F X} _ _ _.
Arguments record_trajectories {F X} _.
Arguments solves {F X} _.
Arguments solve_ids {F X} _.
End SolveTape.

(** The mutable world of a run: the [Solve] and [SolveTape] objects, the
    module-level list [_SOLVE_TAPES], the warnings emitted so far, the
    identity tokens that [uuid.uuid4()] has handed out, and the clock that
    [time.perf_counter()] reads. *)
Record State (F X Arg : Type) := mkState {
  solve_objects : gmap loc (Solve.t F X Arg);
  tape_objects : gmap loc (SolveTape.t F X);
  _SOLVE_TAPES : list loc;
  emitted : list Warning;
  issued_ids : gset string;
  clock : F
}.
Arguments mkState {F X Arg} _ _ _ _ _ _.
Arguments solve_objects {F X Arg} _.
Arguments tape_objects {F X Arg} _.
Arguments _SOLVE_TAPES {F X Arg} _.
Arguments emitted {F X Arg} _.
Arguments issued_ids {F X Arg} _.
Arguments clock {F X Arg} _.

(** A computation of the solver layer. *)
Definition M (F X Arg A : Type) : Type :=
  State F X Arg -> Outcome (Exn F X) A * State F X Arg.

(** ** What the solver layer uses from the rest of the library *)

(** Floating-point numbers are kept abstract: a type with a decidable
    equality, the conversion from a Python [int] and the subtraction of two
    clock readings. *)
Class Scalar (F : Type) := {
  #[global] scalar_eq_dec :: EqDecision F;
  float_of_int : Z -> F;
  float_sub : F -> F -> F
}.

(** What a Python comparison [a == b] can give: [True], [False] or, between
    tensors, a tensor of booleans. *)
Inductive PyTruth :=
  | PyBool (b : bool)
  | PyBoolTensor (t : Tensor bool).

(** The tree utilities and the arithmetic on solution values [X] (a tensor
    or a [PhiTreeNode]); [Nest] is the structure that [disassemble_tree]
    returns next to the tensors. *)
Class PhiTree (F X Nest : Type) := {
  disassemble_tree : option X -> Nest * list (Tensor F);
  assemble_tree : Nest -> list (Tensor F) -> X;
  (** [x.trajectory[index]] *)
  tree_trajectory : X -> Z -> Outcome (Exn F X) X;
  (** [a == b], where either side may be [None] *)
  tree_eq : option X -> option X -> PyTruth;
  (** truth value of a tensor of booleans, [bool(t)] *)
  tensor_bool : Tensor bool -> Outcome (Exn F X) bool;
  (** [a - b] *)
  tree_sub : X -> X -> X;
  (** [l2_loss(a)], a tensor, and a tensor seen as a value *)
  l2_loss : X -> Tensor F;
  of_tensor : Tensor F -> X;
  (** [zeros_like(a)] *)
  zeros_like : option X -> X;
  (** [number * tensor] *)
  number_mul : Number F -> Tensor F -> Tensor F;
  (** the elements of [x] when [isinstance(x, (tuple, list))] *)
  as_tuple : X -> option (list X);
  (** how an f-string prints tensors *)
  format_float : Number F -> string;
  format_int : Tensor Z -> string;
  format_max_residual : list (Tensor F) -> string;
  format_shape : Shape -> string
}.

Section Monad.
Context {F X Arg : Type}.

Local Abbreviation M := (M F X Arg).
Local Abbreviation State := (State F X Arg).

Definition ret {A} (a : A) : M A := fun σ => (Return a, σ).

Definition bind {A B} (m : M A) (k : A -> M B) : M B :=
  fun σ => match m σ with
           | (Return a, σ') => k a σ'
           | (Raise e, σ') => (Raise e, σ')
           end.

Definition raise {A} (e : Exn F X) : M A := fun σ => (Raise e, σ).

Definition lift {A} (o : Outcome (Exn F X) A) : M A := fun σ => (o, σ).

(** [assert cond, message] *)
Definition py_assert (cond : bool) (message : string) : M unit :=
  if cond then ret tt else raise (AssertionError message).

Definition get_state : M State := fun σ => (Return σ, σ).

(** [warnings.warn(message, category)] *)
Definition warnings_warn (message : string) (category : WarningCategory) : M unit :=
  fun σ => (Return tt,
            mkState (solve_objects σ) (tape_objects σ) (_SOLVE_TAPES σ)
                    (emitted σ ++ [mkWarning message category])
                    (issued_ids σ) (clock σ)).

(** [str(uuid.uuid4())]: a token that was never handed out before. *)
Definition uuid4 : M string :=
  fun σ => let u := fresh (issued_ids σ) in
           (Return u,
            mkState (solve_objects σ) (tape_objects σ) (_SOLVE_TAPES σ) (emitted σ)
                    ({[u]} ∪ issued_ids σ) (clock σ)).

(** [time.perf_counter()] *)
Definition perf_counter : M F := fun σ => (Return (clock σ), σ).

Definition set_solve_objects (h : gmap loc (Solve.t F X Arg)) : M unit :=
  fun σ => (Return tt,
            mkState h (tape_objects σ) (_SOLVE_TAPES σ) (emitted σ) (issued_ids σ) (clock σ)).

Definition set_tape_objects (h : gmap loc (SolveTape.t F X)) : M unit :=
  fun σ => (Return tt,
            mkState (solve_objects σ) h (_SOLVE_TAPES σ) (emitted σ) (issued_ids σ) (clock σ)).

Definition set_SOLVE_TAPES (l : list loc) : M unit :=
  fun σ => (Return tt,
            mkState (solve_objects σ) (tape_objects σ) l (emitted σ) (issued_ids σ) (clock σ)).

(** Reading the attributes of the [Solve] object at [l]. *)
Definition read_solve (l : loc) : M (Solve.t F X Arg) :=
  fun σ => match solve_objects σ !! l with
           | Some s => (Return s, σ)
           | None => (Raise (AttributeError "not a Solve object"), σ)
           end.

Definition write_solve (l : loc) (s : Solve.t F X Arg) : M unit :=
  fun σ => set_solve_objects (<[l := s]> (solve_objects σ)) σ.

(** A new [Solve] object. *)
Definition new_solve (s : Solve.t F X Arg) : M loc :=
  fun σ => let l := fresh (dom (solve_objects σ)) in
           (Return l,
            mkState (<[l := s]> (solve_objects σ)) (tape_objects σ) (_SOLVE_TAPES σ)
                    (emitted σ) (issued_ids σ) (clock σ)).

Definition read_tape (l : loc) : M (SolveTape.t F X) :=
  fun σ => match tape_objects σ !! l with
           | Some s => (Return s, σ)
           | None => (Raise (AttributeError "not a SolveTape object"), σ)
           end.

Definition write_tape (l : loc) (s : SolveTape.t F X) : M unit :=
  fun σ => set_tape_objects (<[l := s]> (tape_objects σ)) σ.

Definition new_tape (s : SolveTape.t F X) : M loc :=
  fun σ => let l := fresh (dom (tape_objects σ)) in
           (Return l,
            mkState (solve_objects σ) (<[l := s]> (tape_objects σ)) (_SOLVE_TAPES σ)
                    (emitted σ) (issued_ids σ) (clock σ)).

(** [for a in l: body(a)] *)
Fixpoint for_each {A} (l : list A) (body : A -> M unit) : M unit :=
  match l with
  | [] => ret tt
  | a :: l' => bind (body a) (fun _ => for_each l' body)
  end.

(** [[body(a) for a in l]] *)
Fixpoint for_list {A B} (l : list A) (body : A -> M B) : M (list B) :=
  match l with
  | [] => ret []
  | a :: l' => bind (body a) (fun b => bind (for_list l' body) (fun bs => ret (b :: bs)))
  end.
End Monad.

Notation "x <- c1 ;; c2" := (bind c1 (fun x => c2))
  (at level 100, c1 at next level, right associativity).
Notation "c1 ;; c2" := (bind c1 (fun _ => c2))
  (at level 100, right associativity).

(** ** Solve, SolveInfo and SolveTape *)

(** The iteration budget as a caller may pass it. *)
Inductive IntNumber :=
  | PyIntCount (z : Z)
  | PyIntTensor (t : Tensor Z).

(** The value of a 64-bit integer cast to 32 bits. *)
Definition int32 (z : Z) : Z := ((z + 2 ^ 31) mod 2 ^ 32 - 2 ^ 31)%Z.


(** What [item] in [tape[item]] may be. *)
Inductive TapeKey :=
  | IntKey (i : Z)
  | SolveKey (l : loc)
  | OtherKey.

Section Model.
Context {F X Nest Arg : Type} `{!Scalar F} `{!PhiTree F X Nest}.

Local Abbreviation M := (M F X Arg).
Local Abbreviation Solve := (Solve.t F X Arg).
Local Abbreviation SolveInfo := (SolveInfo.t F X).
Local Abbreviation SolveTape := (SolveTape.t F X).

(** [math.to_float(wrap(value))]: a number becomes a tensor without
    dimensions, a float tensor is left as it is. *)
Definition to_float_wrap (value : Number F) : Tensor F :=
  match value with
  | PyInt z => scalar_tensor (float_of_int z)
  | PyFloat f => scalar_tensor f
  | PyTensor t => t
  end.

(** [math.to_int32(wrap(value))] *)
Definition to_int32_wrap (value : IntNumber) : Tensor Z :=
  match value with
  | PyIntCount z => scalar_tensor (int32 z)
  | PyIntTensor t => mkTensor (shape t) (available t) (int32 <$> values t)
  end.

(** [Solve.__init__].  [method] is a string by its type, so
    [assert isinstance(method, str)] holds. *)
Definition Solve__init__ (method : string) (relative_tolerance absolute_tolerance : Number F)
    (max_iterations : IntNumber) (x0 : option X) (suppress : list PyClass)
    (preprocess_y : option (FunctionObject F X Arg)) (preprocess_y_args : list Arg)
    (gradient_solve : option loc) : M loc :=
  py_assert (forallb issubclass_ConvergenceException suppress) "" ;;
  id <- uuid4 ;;
  new_solve (Solve.mk method
                      (PyTensor (to_float_wrap relative_tolerance))
                      (to_float_wrap absolute_tolerance)
                      (to_int32_wrap max_iterations)
                      x0 preprocess_y preprocess_y_args suppress gradient_solve id).

(** The property [Solve.gradient_solve]. *)
Definition gradient_solve (self : loc) : M loc :=
  s <- read_solve self ;;
  match Solve._gradient_solve s with
  | None =>
      g <- Solve__init__ (Solve.method s) (Solve.relative_tolerance s)
                         (PyTensor (Solve.absolute_tolerance s))
                         (PyIntTensor (Solve.max_iterations s)) None (Solve.suppress s)
                         (Solve.preprocess_y s) (Solve.preprocess_y_args s) None ;;
      s' <- read_solve self ;;
      write_solve self
        (Solve.mk (Solve.method s') (Solve.relative_tolerance s') (Solve.absolute_tolerance s')
                  (Solve.max_iterations s') (Solve.x0 s') (Solve.preprocess_y s')
                  (Solve.preprocess_y_args s') (Solve.suppress s') (Some g) (Solve.id s')) ;;
      s'' <- read_solve self ;;
      match Solve._gradient_solve s'' with
      | Some g' => ret g'
      | None => raise (AttributeError "_gradient_solve")
      end
  | Some g => ret g
  end.

(** [Solve.__repr__] *)
Definition Solve__repr__ (s : Solve) : string :=
  Solve.method s +:+ " with tolerance " +:+ format_float (Solve.relative_tolerance s)
    +:+ " (rel), " +:+ format_float (PyTensor (Solve.absolute_tolerance s))
    +:+ " (abs), max_iterations=" +:+ format_int (Solve.max_iterations s).





(** [tensor.trajectory[index]] *)
Definition trajectory_getitem {A} (t : Tensor A) (index : Z) : M (Tensor A) :=
  match dim_getitem trajectory index t with
  | Some t' => ret t'
  | None => raise (IndexError "index out of range")
  end.

(** [value.trajectory[index]] of an attribute that may hold [None]. *)
Definition optional_trajectory_getitem {A} (value : option (Tensor A)) (index : Z)
    : M (option (Tensor A)) :=
  match value with
  | Some t => t' <- trajectory_getitem t index ;; ret (Some t')
  | None => raise (AttributeError "'NoneType' object has no attribute 'trajectory'")
  end.

(** [iterations if iterations is not None else '?'] inside an f-string. *)
Definition format_iterations (iterations : option (Tensor Z)) : string :=
  match iterations with
  | Some t => format_int t
  | None => "?"
  end.

(** [SolveInfo.__init__].  An empty [msg] is replaced by a generated one
    when both flags are available. *)
Definition SolveInfo__init__ (solve : loc) (x : X) (residual : option X)
    (iterations function_evaluations : option (Tensor Z)) (converged diverged : Tensor bool)
    (method : string) (msg : string) (solve_time : F) : M SolveInfo :=
  msg' <-
    (if bool_decide (msg = "") && all_available [diverged; converged] then
       if tensor_any diverged then
         ret ("Solve diverged within " +:+ format_iterations iterations
                +:+ " iterations using " +:+ method +:+ ".")
       else
         last <- trajectory_getitem converged (-1) ;;
         if negb (tensor_all last) then
           s <- read_solve solve ;;
           finals <- for_list (snd (disassemble_tree residual))
                              (fun t => trajectory_getitem t (-1)) ;;
           ret ("Solve did not converge to rel=" +:+ format_float (Solve.relative_tolerance s)
                  +:+ ", abs=" +:+ format_float (PyTensor (Solve.absolute_tolerance s))
                  +:+ " within " +:+ format_int (Solve.max_iterations s)
                  +:+ " iterations using " +:+ method
                  +:+ ". Max residual: " +:+ format_max_residual finals)
         else
           ret ("Converged within " +:+ format_iterations iterations +:+ " iterations.")
     else ret msg) ;;
  ret (SolveInfo.mk solve x residual iterations function_evaluations converged diverged
                    method msg' solve_time).

(** [SolveInfo.snapshot] *)
Definition snapshot (self : SolveInfo) (index : Z) : M SolveInfo :=
  x <- lift (tree_trajectory (SolveInfo.x self) index) ;;
  residual <-
    match SolveInfo.residual self with
    | Some r => r' <- lift (tree_trajectory r index) ;; ret (Some r')
    | None => raise (AttributeError "'NoneType' object has no attribute 'trajectory'")
    end ;;
  iterations <- optional_trajectory_getitem (SolveInfo.iterations self) index ;;
  function_evaluations <-
    optional_trajectory_getitem (SolveInfo.function_evaluations self) index ;;
  converged <- trajectory_getitem (SolveInfo.converged self) index ;;
  diverged <- trajectory_getitem (SolveInfo.diverged self) index ;;
  SolveInfo__init__ (SolveInfo.solve self) x residual iterations function_evaluations
                    converged diverged (SolveInfo.method self) (SolveInfo.msg self)
                    (SolveInfo.solve_time self).

(** [SolveInfo.convergence_check] *)
Definition convergence_check (self : SolveInfo) (only_warn : bool) : M unit :=
  if negb (all_available [SolveInfo.diverged self; SolveInfo.converged self]) then ret tt else
  (if tensor_any (SolveInfo.diverged self) then
     s <- read_solve (SolveInfo.solve self) ;;
     if bool_decide (Diverged ∉ Solve.suppress s) then
       if only_warn then warnings_warn (SolveInfo.msg self) ConvergenceWarning
       else raise (ConvergenceError Diverged self)
     else ret tt
   else ret tt) ;;
  last <- trajectory_getitem (SolveInfo.converged self) (-1) ;;
  if negb (tensor_all last) then
    s <- read_solve (SolveInfo.solve self) ;;
    if bool_decide (NotConverged ∉ Solve.suppress s) then
      if only_warn then warnings_warn (SolveInfo.msg self) ConvergenceWarning
      else raise (ConvergenceError NotConverged self)
    else ret tt
  else ret tt.

(** [SolveTape.__init__] *)
Definition SolveTape__init__ (record_trajectories : bool) : M loc :=
  new_tape (SolveTape.mk record_trajectories [] []).

(** [SolveTape.__enter__] *)
Definition SolveTape__enter__ (self : loc) : M loc :=
  σ <- get_state ;;
  set_SOLVE_TAPES (_SOLVE_TAPES σ ++ [self]) ;;
  ret self.

(** [list.remove]: the first occurrence goes; [None] when there is none. *)
Fixpoint list_remove (a : loc) (l : list loc) : option (list loc) :=
  match l with
  | [] => None
  | b :: l' => if bool_decide (b = a) then Some l' else cons b <$> list_remove a l'
  end.

(** [SolveTape.__exit__] *)
Definition SolveTape__exit__ (self : loc) : M unit :=
  σ <- get_state ;;
  match list_remove self (_SOLVE_TAPES σ) with
  | Some l => set_SOLVE_TAPES l
  | None => raise (ValueError "list.remove(x): x not in list")
  end.

(** [any(s.solve.id == solve.id for s in solves)] *)
Fixpoint any_same_id (solves : list SolveInfo) (solve : loc) : M bool :=
  match solves with
  | [] => ret false
  | s :: rest =>
      a <- read_solve (SolveInfo.solve s) ;;
      b <- read_solve solve ;;
      if bool_decide (Solve.id a = Solve.id b) then ret true else any_same_id rest solve
  end.

(** [self.solves.append(result)] *)
Definition solves_append (self : loc) (result : SolveInfo) : M unit :=
  t <- read_tape self ;;
  write_tape self (SolveTape.mk (SolveTape.record_trajectories t)
                                (SolveTape.solves t ++ [result]) (SolveTape.solve_ids t)).

(** [self.solve_ids.append(id)] *)
Definition solve_ids_append (self : loc) (id : string) : M unit :=
  t <- read_tape self ;;
  write_tape self (SolveTape.mk (SolveTape.record_trajectories t)
                                (SolveTape.solves t) (SolveTape.solve_ids t ++ [id])).

(** [SolveTape._add] *)
Definition _add (self : loc) (solve : loc) (trj : bool) (result : SolveInfo) : M unit :=
  t <- read_tape self ;;
  duplicate <- any_same_id (SolveTape.solves t) solve ;;
  (if duplicate : bool then
     warnings_warn "SolveTape contains two results for the same solve settings. SolveTape[solve] will return the first solve result." RuntimeWarning
   else ret tt) ;;
  (if SolveTape.record_trajectories t then
     py_assert trj "Solve did not record a trajectory." ;;
     solves_append self result
   else if trj then
     last <- snapshot result (-1) ;;
     solves_append self last
   else
     solves_append self result) ;;
  s <- read_solve solve ;;
  solve_ids_append self (Solve.id s).

(** [[s for s in solves if s.solve.id == item.id]] *)
Fixpoint with_same_id (solves : list SolveInfo) (item : loc) : M (list SolveInfo) :=
  match solves with
  | [] => ret []
  | s :: rest =>
      a <- read_solve (SolveInfo.solve s) ;;
      b <- read_solve item ;;
      found <- with_same_id rest item ;;
      ret (if bool_decide (Solve.id a = Solve.id b) then s :: found else found)
  end.

(** [SolveTape.__getitem__] *)
Definition SolveTape__getitem__ (self : loc) (item : TapeKey) : M SolveInfo :=
  t <- read_tape self ;;
  match item with
  | IntKey i =>
      match py_getitem (SolveTape.solves t) i with
      | Some r => ret r
      | None => raise (IndexError "list index out of range")
      end
  | SolveKey l =>
      solves <- with_same_id (SolveTape.solves t) l ;;
      match solves with
      | [] =>
          s <- read_solve l ;;
          raise (KeyError ("No solve recorded with key '" +:+ Solve__repr__ s +:+ "'."))
      | r :: others =>
          py_assert (bool_decide (length solves = 1)) "" ;;
          ret r
      end
  | OtherKey => raise (AssertionError "")
  end.

(** [SolveTape.__len__] *)
Definition SolveTape__len__ (self : loc) : M nat :=
  t <- read_tape self ;;
  ret (length (SolveTape.solves t)).
End Model.

(** ** Backends *)

Module SolveResult.
(** [backend._backend.SolveResult], what a backend reports; [Native] is
    the type of the backend's arrays. *)
Record t (Native : Type -> Type) (F : Type) := mk {
  method : string;
  x : Native F;
  residual : option (Native F);
  iterations : Native Z;
  function_evaluations : Native Z;
  converged : Native bool;
  diverged : Native bool;
  message : string
}.
Arguments mk {Native F} _ _ _ _ _ _ _ _.
Arguments method {Native F} _.
Arguments x {Native F} _.
Arguments residual {Native F} _.
Arguments iterations {Native F} _.
Arguments function_evaluations {Native F} _.
Arguments converged {Native F} _.
Arguments diverged {Native F} _.
Arguments message {Native F} _.
End SolveResult.

(** What [backend.minimize] and [backend.linear_solve] return: one result,
    a sequence of results, or something unexpected. *)
Inductive BackendReturn (Native : Type -> Type) (F : Type) :=
  | OneResult (r : SolveResult.t Native F)
  | ResultSequence (rs : list (SolveResult.t Native F))
  | OtherReturn.
Arguments OneResult {Native F} _.
Arguments ResultSequence {Native F} _.
Arguments OtherReturn {Native F}.

(** The linear operator handed to [backend.linear_solve]: a native matrix or
    the function [native_lin_f(native_x, batch_index=None)]. *)
Inductive LinearOperator (Native : Type -> Type) (F X Arg Matrix : Type) :=
  | MatrixOperator (m : Matrix)
  | FunctionOperator (f : Native F -> option Z -> M F X Arg (Native F)).
Arguments MatrixOperator {Native F X Arg Matrix} _.
Arguments FunctionOperator {Native F X Arg Matrix} _.

(** The methods of a [Backend] object that the solver layer calls. *)
Module Backend.
Record t (Native : Type -> Type) (F X Arg Matrix : Type) := mk {
name : string;
supports_sparse_coo_tensor : bool;
supports_csr_matrix : bool;
concat : list (Native F) -> Z -> Native F;
(** [backend.shape(x)[-1]] *)
shape_last : Native F -> nat;
ndims : Native F -> nat;
to_float : Native F -> Native F;
to_int32 : Native Z -> Native Z;
as_tensor : forall A, Native A -> Native A;
expand_dims : Native F -> Native F;
tile : Native F -> list nat -> Native F;
linear : LinearOperator Native F X Arg Matrix -> Native F -> M F X Arg (Native F);
minimize :
  string -> (Native F -> M F X Arg (Tensor F * list (Native F))) ->
  Native F -> Native F -> Native Z -> bool -> M F X Arg (BackendReturn Native F);
linear_solve :
  string -> LinearOperator Native F X Arg Matrix -> Native F -> Native F ->
  Native F -> Native F -> Native Z -> bool -> M F X Arg (BackendReturn Native F)
}.
Arguments mk {Native F X Arg Matrix} _ _ _ _ _ _ _ _ _ _ _ _ _ _.
Arguments name {Native F X Arg Matrix} _.
Arguments supports_sparse_coo_tensor {Native F X Arg Matrix} _.
Arguments supports_csr_matrix {Native F X Arg Matrix} _.
Arguments concat {Native F X Arg Matrix} _ _ _.
Arguments shape_last {Native F X Arg Matrix} _ _.
Arguments ndims {Native F X Arg Matrix} _ _.
Arguments to_float {Native F X Arg Matrix} _ _.
Arguments to_int32 {Native F X Arg Matrix} _ _.
Arguments as_tensor {Native F X Arg Matrix} _ {A} _.
Arguments expand_dims {Native F X Arg Matrix} _ _.
Arguments tile {Native F X Arg Matrix} _ _ _.
Arguments linear {Native F X Arg Matrix} _ _ _.
Arguments minimize {Native F X Arg Matrix} _ _ _ _ _ _ _.
Arguments linear_solve {Native F X Arg Matrix} _ _ _ _ _ _ _ _ _.
End Backend.

(** The shape algebra and the operations on native arrays. *)
Class ShapeAlgebra (Native : Type -> Type) (F X Arg Matrix : Type) := {
  merge_shapes : list Shape -> Outcome (Exn F X) Shape;
  reshaped_native :
    forall A, Tensor A -> list Shape -> bool -> Outcome (Exn F X) (Native A);
  reshaped_tensor :
    forall A, Native A -> list Shape -> bool -> Outcome (Exn F X) (Tensor A);
  choose_backend_t : list (Tensor F) -> bool -> Backend.t Native F X Arg Matrix;
  (** [x_flat[..., i:j]] *)
  native_slice_last : Native F -> nat -> nat -> Native F;
  (** [y_native[batch_index]] *)
  native_getitem : Native F -> Z -> Outcome (Exn F X) (Native F);
  native_sub : Native F -> Native F -> Native F;
  numpy_stack : list (Native F) -> Native F;
  (** [tensor.sum] *)
  tensor_sum : Tensor F -> Tensor F;
  (** [native_matrix(matrix)] *)
  native_matrix : Tensor F -> Matrix;
  (** [shape.untyped_dict], the names only *)
  untyped_names : Shape -> list string;
  (** [cached(f_args)] and [cached(solve)] *)
  cached_args : list Arg -> list Arg;
  cached_solve : loc -> M F X Arg loc;
  (** the elements of [value] when [isinstance(value, tuple)] *)
  arg_as_tuple : Arg -> option (list Arg)
}.
Arguments reshaped_native {Native F X Arg Matrix _ A} _ _ _.
Arguments reshaped_tensor {Native F X Arg Matrix _ A} _ _ _.

(** A linear function [f] of [solve_linear]: [sparse_matrix_and_bias] is
    there when [isinstance(f, LinearFunction)]. *)
Record LinearCallable (F X Arg : Type) := mkLinearCallable {
  linear_fn : Callable F X Arg;
  sparse_matrix_and_bias :
    option (option X -> list Arg -> gmap string Arg -> Outcome (Exn F X) (Tensor F * X))
}.
Arguments mkLinearCallable {F X Arg} _ _.
Arguments linear_fn {F X Arg} _.
Arguments sparse_matrix_and_bias {F X Arg} _.

(** The values that are passed by name between a forward solve and its
    gradient function. *)
Inductive PyVal (F X Arg : Type) :=
  | VTree (x : X)
  | VSolve (l : loc)
  | VMatrix (m : Tensor F)
  | VBool (b : bool)
  | VArgs (args : list Arg)
  | VKwargs (kwargs : gmap string Arg).
Arguments VTree {F X Arg} _.
Arguments VSolve {F X Arg} _.
Arguments VMatrix {F X Arg} _.
Arguments VBool {F X Arg} _.
Arguments VArgs {F X Arg} _.
Arguments VKwargs {F X Arg} _.

(** A function wrapped by [custom_gradient]: what calling it does, and the
    gradient function [gradient(kwargs, x, dx)] that the outer
    differentiation calls in the backward pass. *)
Record CustomGradientFunction (F X Arg : Type) := mkCustomGradientFunction {
  forward_call : list (PyVal F X Arg) -> gmap string (PyVal F X Arg) -> M F X Arg X;
  backward_call : gmap string (PyVal F X Arg) -> X -> X -> M F X Arg (gmap string X);
  auxiliary : string
}.
Arguments mkCustomGradientFunction {F X Arg} _ _ _.
Arguments forward_call {F X Arg} _ _ _.
Arguments backward_call {F X Arg} _ _ _ _.
Arguments auxiliary {F X Arg} _.

(** ** The dispatchers *)

Section Dispatch.
Context {Native : Type -> Type} {F X Nest Arg Matrix : Type}.
Context `{!Scalar F} `{!PhiTree F X Nest} `{!ShapeAlgebra Native F X Arg Matrix}.

Local Abbreviation M := (M F X Arg).
Local Abbreviation Solve := (Solve.t F X Arg).
Local Abbreviation SolveInfo := (SolveInfo.t F X).
Local Abbreviation Backend := (Backend.t Native F X Arg Matrix).
Local Abbreviation SolveResult := (SolveResult.t Native F).

(** [copy_with(solve, **updates)]: a new object with the same attributes,
    the identity token and the cached gradient solve included, but for the
    updated ones. *)
Definition copy_with (solve : loc) (updates : Solve -> Solve) : M loc :=
  s <- read_solve solve ;;
  new_solve (updates s).

(** [value is None] *)
Definition is_None {A} (value : option A) : bool :=
  match value with
  | None => true
  | Some _ => false
  end.

(** [(value == 0).all].  For a plain Python number [value == 0] is a [bool],
    which has no attribute [all]. *)
Definition number_eq_zero_all (value : Number F) : M bool :=
  match value with
  | PyTensor t => ret (tensor_all (tensor_eq_scalar t (float_of_int 0)))
  | _ => raise (AttributeError "'bool' object has no attribute 'all'")
  end.

(** [_SOLVE_TAPES and any(t.record_trajectories for t in _SOLVE_TAPES)],
    as the truth value that the callers use. *)
Fixpoint any_record_trajectories (tapes : list loc) : M bool :=
  match tapes with
  | [] => ret false
  | l :: rest =>
      t <- read_tape l ;;
      if SolveTape.record_trajectories t then ret true else any_record_trajectories rest
  end.

(** [sequence[index]] *)
Definition getitem {A} (sequence : list A) (index : Z) : M A :=
  match py_getitem sequence index with
  | Some a => ret a
  | None => raise (IndexError "list index out of range")
  end.

(** [stack(tensors, batch('trajectory'))] *)
Definition stack_trajectory {A} (tensors : list (Tensor A)) : M (Tensor A) :=
  match stack_tensors trajectory tensors with
  | Some t => ret t
  | None => raise (IncompatibleShapes "stack")
  end.

(** The loop of [unflatten_assemble] in [minimize]: [i] is the position in
    the flat vector. *)
Fixpoint unflatten (backend : Backend) (batch_dims : Shape) (x_flat : Native F)
    (additional_dims : Shape) (convert : bool) (i : nat)
    (pairs : list (Native F * Tensor F)) : M (list (Tensor F)) :=
  match pairs with
  | [] => ret []
  | (x0_native, x0_tensor) :: rest =>
      let vol := Backend.shape_last backend x0_native in
      let flat_native := native_slice_last x_flat i (i + vol) in
      t <- lift (reshaped_tensor flat_native
                   (((fun d => [d]) <$> additional_dims)
                      ++ [batch_dims; non_batch_dims_of (shape x0_tensor)]) convert) ;;
      ts <- unflatten backend batch_dims x_flat additional_dims convert (i + vol) rest ;;
      ret (t :: ts)
  end.

(** [unflatten_assemble] of [minimize]; the variables of [minimize] that the
    nested function reads come first. *)
Definition unflatten_assemble (backend : Backend) (x0_nest : Nest)
    (x0_natives : list (Native F)) (x0_tensors : list (Tensor F)) (batch_dims : Shape)
    (x_flat : Native F) (additional_dims : Shape) (convert : bool) : M X :=
  x_tensors <- unflatten backend batch_dims x_flat additional_dims convert 0
                         (zip x0_natives x0_tensors) ;;
  ret (assemble_tree x0_nest x_tensors).

(** [native_function] of [minimize], the objective handed to the backend. *)
Definition native_function (f : Callable F X Arg) (backend : Backend) (x0_nest : Nest)
    (x0_natives : list (Native F)) (x0_tensors : list (Tensor F)) (batch_dims : Shape)
    (x_flat : Native F) : M (Tensor F * list (Native F)) :=
  x <- unflatten_assemble backend x0_nest x0_natives x0_tensors batch_dims x_flat [] true ;;
  y <- lift (match as_tuple x with
             | Some xs => fn_call f xs [] ∅
             | None => fn_call f [x] [] ∅
             end) ;;
  let y_tensors := snd (disassemble_tree (Some y)) in
  y0 <- getitem y_tensors 0 ;;
  py_assert (bool_decide (non_batch_dims_of (shape y0) = []))
            ("Failed to minimize '" +:+ __name__ f
               +:+ "' because it returned a non-scalar output " +:+ format_shape (shape y0)
               +:+ ". Reduce all non-batch dimensions, e.g. using math.l2_loss()") ;;
  loss_native <-
    lift (match reshaped_native y0 [batch_dims] true with
          | Raise (AssertionError _) =>
              Raise (AssertionError
                       ("Failed to minimize '" +:+ __name__ f
                          +:+ "' because its output loss " +:+ format_shape (shape y0)
                          +:+ " has more batch dimensions than the initial guess "
                          +:+ format_shape batch_dims +:+ "."))
          | other => other
          end) ;;
  ret (tensor_sum y0, [loss_native]).

(** [reshaped_tensor(value, groups)] of an attribute that may hold [None]. *)
Definition reshaped_optional (value : option (Native F)) (groups : list Shape)
    : M (Tensor F) :=
  match value with
  | Some n => lift (reshaped_tensor n groups true)
  | None => raise (AttributeError "'NoneType' object has no attribute 'shape'")
  end.

(** The last statements of [minimize] and of [_linear_solve_forward]: the
    result goes to every active tape, the convergence check runs, and [x] is
    returned. *)
Definition record_and_check (solve : loc) (trj : bool) (result : SolveInfo)
    (only_warn : bool) (x : X) : M X :=
  σ <- get_state ;;
  for_each (_SOLVE_TAPES σ) (fun tape => _add tape solve trj result) ;;
  convergence_check result only_warn ;;
  ret x.

(** [minimize] up to the construction of [result]: the trajectory flag,
    the solution [x] and [result].  On the tensors of this model [to_float],
    [t._expand()] and the assertion [t.shape.is_uniform] have nothing to do:
    the values are floats already and every size is a number.
    [batch('trajectory')], whose size the library reads off the stacked array,
    gets the number of steps as its size. *)
Definition minimize_result (f : Callable F X Arg) (solve : loc)
    : M (bool * (X * SolveInfo)) :=
  s <- read_solve solve ;;
  zero <- number_eq_zero_all (Solve.relative_tolerance s) ;;
  py_assert zero ("relative_tolerance must be zero for minimize() but got "
                    +:+ format_float (Solve.relative_tolerance s)) ;;
  py_assert (is_None (Solve.preprocess_y s)) "minimize() does not allow preprocess_y" ;;
  let x0_nest := fst (disassemble_tree (Solve.x0 s)) in
  let x0_tensors := snd (disassemble_tree (Solve.x0 s)) in
  let backend := choose_backend_t x0_tensors true in
  merged <- lift (merge_shapes (shape <$> x0_tensors)) ;;
  let batch_dims := batch_dims_of merged in
  x0_natives <- for_list x0_tensors
      (fun t => lift (reshaped_native t [batch_dims; non_batch_dims_of (shape t)] true)) ;;
  let x0_flat := Backend.concat backend x0_natives (-1) in
  atol_native <- lift (reshaped_native (Solve.absolute_tolerance s) [batch_dims] true) ;;
  let atol := Backend.to_float backend atol_native in
  maxi_native <- lift (reshaped_native (Solve.max_iterations s) [batch_dims] true) ;;
  let maxi := Backend.to_int32 backend maxi_native in
  σ <- get_state ;;
  trj <- any_record_trajectories (_SOLVE_TAPES σ) ;;
  t0 <- perf_counter ;;
  ret_ <- Backend.minimize backend (Solve.method s)
            (native_function f backend x0_nest x0_natives x0_tensors batch_dims)
            x0_flat atol maxi trj ;;
  t1 <- perf_counter ;;
  let t := float_sub t1 t0 in
  x_result <-
    (if negb trj then
       match ret_ with
       | OneResult r =>
           converged <- lift (reshaped_tensor (SolveResult.converged r) [batch_dims] true) ;;
           diverged <- lift (reshaped_tensor (SolveResult.diverged r) [batch_dims] true) ;;
           x <- unflatten_assemble backend x0_nest x0_natives x0_tensors batch_dims
                                   (SolveResult.x r) [] true ;;
           iterations <- lift (reshaped_tensor (SolveResult.iterations r) [batch_dims] true) ;;
           function_evaluations <-
             lift (reshaped_tensor (SolveResult.function_evaluations r) [batch_dims] true) ;;
           residual <- reshaped_optional (SolveResult.residual r) [batch_dims] ;;
           result <- SolveInfo__init__ solve x (Some (of_tensor residual)) (Some iterations)
                       (Some function_evaluations) converged diverged
                       (SolveResult.method r) (SolveResult.message r) t ;;
           ret (x, result)
       | _ => raise (AssertionError "")
       end
     else
       match ret_ with
       | ResultSequence rs =>
           final <- getitem rs (-1) ;;
           converged <- lift (reshaped_tensor (SolveResult.converged final) [batch_dims] true) ;;
           final <- getitem rs (-1) ;;
           diverged <- lift (reshaped_tensor (SolveResult.diverged final) [batch_dims] true) ;;
           final <- getitem rs (-1) ;;
           x <- unflatten_assemble backend x0_nest x0_natives x0_tensors batch_dims
                                   (SolveResult.x final) [] true ;;
           x_ <- unflatten_assemble backend x0_nest x0_natives x0_tensors batch_dims
                                    (numpy_stack (SolveResult.x <$> rs))
                                    [mkDim trajectory (length rs) BatchDim] false ;;
           residuals <- for_list rs
               (fun r => reshaped_optional (SolveResult.residual r) [batch_dims]) ;;
           residual <- stack_trajectory residuals ;;
           final <- getitem rs (-1) ;;
           iterations <- lift (reshaped_tensor (SolveResult.iterations final) [batch_dims] true) ;;
           evaluations <- for_list rs
               (fun r => lift (reshaped_tensor (SolveResult.function_evaluations r)
                                               [batch_dims] true)) ;;
           function_evaluations <- stack_trajectory evaluations ;;
           final <- getitem rs (-1) ;;
           result <- SolveInfo__init__ solve x_ (Some (of_tensor residual)) (Some iterations)
                       (Some function_evaluations) converged diverged
                       (SolveResult.method final) (SolveResult.message final) t ;;
           ret (x, result)
       | _ => raise (AssertionError "")
       end) ;;
  ret (trj, x_result).

(** [minimize] *)
Definition minimize (f : Callable F X Arg) (solve : loc) : M X :=
  r <- minimize_result f solve ;;
  record_and_check solve (fst r) (snd (snd r)) false (fst (snd r)).

(** [solve_nonlinear].  [min_func] is the nested function. *)
Definition min_func (f : Callable F X Arg) (y : X) : Callable F X Arg :=
  mkCallable "min_func"
    (fun xs _ _ =>
       match xs with
       | [x] =>
           match fn_call f [x] [] ∅ with
           | Return fx =>
               let diff := tree_sub fx y in
               let l2 := l2_loss diff in
               Return (of_tensor l2)
           | Raise e => Raise e
           end
       | _ => Raise (TypeError "min_func() takes 1 positional argument")
       end).

Definition solve_nonlinear (f : Callable F X Arg) (y : X) (solve : loc) : M X :=
  s <- read_solve solve ;;
  y <- match Solve.preprocess_y s with
       | Some preprocess_y => lift (fn_call (fn preprocess_y) [y] [] ∅)
       | None => ret y
       end ;;
  s <- read_solve solve ;;
  let rel_tol_to_abs := number_mul (Solve.relative_tolerance s) (l2_loss y) in
  min_solve <- copy_with solve
    (fun s => Solve.mk (Solve.method s) (PyInt 0) rel_tol_to_abs (Solve.max_iterations s)
                       (Solve.x0 s) None (Solve.preprocess_y_args s) (Solve.suppress s)
                       (Solve._gradient_solve s) (Solve.id s)) ;;
  minimize (min_func f y) min_solve.

(** [_, (tensor,) = disassemble_tree(value)] *)
Definition single_tensor (value : option X) : M (Nest * Tensor F) :=
  match snd (disassemble_tree value) with
  | [t] => ret (fst (disassemble_tree value), t)
  | [] => raise (ValueError "not enough values to unpack (expected 1, got 0)")
  | _ => raise (ValueError "too many values to unpack (expected 1)")
  end.

(** [_linear_solve_forward] up to the construction of [result]: the
    trajectory flag, the solution [x] and [result].  The debug message of the
    first line is not modelled. *)
Definition _linear_solve_forward_result (y : X) (solve : loc)
    (native_lin_op : LinearOperator Native F X Arg Matrix)
    (pattern_dims_in pattern_dims_out : list string) (backend : Backend)
    : M (bool * (X * SolveInfo)) :=
  s <- read_solve solve ;;
  y <- match Solve.preprocess_y s with
       | Some preprocess_y => lift (fn_call (fn preprocess_y) [y] (Solve.preprocess_y_args s) ∅)
       | None => ret y
       end ;;
  y_pair <- single_tensor (Some y) ;;
  let y_nest := fst y_pair in
  let y_tensor := snd y_pair in
  s <- read_solve solve ;;
  x0_pair <- single_tensor (Solve.x0 s) ;;
  let x0_nest := fst x0_pair in
  let x0_tensor := snd x0_pair in
  let pattern_dims_in := only (shape x0_tensor) pattern_dims_in in
  let pattern_dims_out := only (shape y_tensor) pattern_dims_out in
  batch_dims <- lift (merge_shapes [without (shape y_tensor) (names pattern_dims_out);
                                    without (shape x0_tensor) (names pattern_dims_in)]) ;;
  x0_reshaped <- lift (reshaped_native x0_tensor [batch_dims; pattern_dims_in] true) ;;
  let x0_native := Backend.as_tensor backend x0_reshaped in
  y_reshaped <- lift (reshaped_native y_tensor
                        [batch_dims; only (shape y_tensor) (names pattern_dims_out)] true) ;;
  let y_native := Backend.as_tensor backend y_reshaped in
  s <- read_solve solve ;;
  rtol_reshaped <- lift (reshaped_native (to_float_wrap (Solve.relative_tolerance s))
                           [batch_dims] true) ;;
  let rtol := Backend.as_tensor backend rtol_reshaped in
  atol_reshaped <- lift (reshaped_native (Solve.absolute_tolerance s) [batch_dims] true) ;;
  let atol := Backend.as_tensor backend atol_reshaped in
  maxi_reshaped <- lift (reshaped_native (Solve.max_iterations s) [batch_dims] true) ;;
  let maxi := Backend.as_tensor backend maxi_reshaped in
  σ <- get_state ;;
  trj <- any_record_trajectories (_SOLVE_TAPES σ) ;;
  (if trj : bool then
     py_assert (all_available [y_tensor; x0_tensor]) "Cannot record linear solve in jit mode"
   else ret tt) ;;
  t0 <- perf_counter ;;
  ret_ <- Backend.linear_solve backend (Solve.method s) native_lin_op y_native x0_native
                               rtol atol maxi trj ;;
  t1 <- perf_counter ;;
  let t := float_sub t1 t0 in
  x_result <-
    (if negb trj then
       match ret_ with
       | OneResult r =>
           converged <- lift (reshaped_tensor (SolveResult.converged r) [batch_dims] true) ;;
           diverged <- lift (reshaped_tensor (SolveResult.diverged r) [batch_dims] true) ;;
           x_tensor <- lift (reshaped_tensor (SolveResult.x r) [batch_dims; pattern_dims_in] true) ;;
           let x := assemble_tree x0_nest [x_tensor] in
           iterations <- lift (reshaped_tensor (SolveResult.iterations r) [batch_dims] true) ;;
           function_evaluations <-
             lift (reshaped_tensor (SolveResult.function_evaluations r) [batch_dims] true) ;;
           residual <-
             match SolveResult.residual r with
             | Some native_residual =>
                 t <- lift (reshaped_tensor native_residual [batch_dims; pattern_dims_out] true) ;;
                 ret (Some (assemble_tree y_nest [t]))
             | None =>
                 σ <- get_state ;;
                 match _SOLVE_TAPES σ with
                 | _ :: _ =>
                     applied <- Backend.linear backend native_lin_op (SolveResult.x r) ;;
                     let residual := native_sub applied y_native in
                     t <- lift (reshaped_tensor residual [batch_dims; pattern_dims_out] true) ;;
                     ret (Some (assemble_tree y_nest [t]))
                 | [] => ret None
                 end
             end ;;
           result <- SolveInfo__init__ solve x residual (Some iterations)
                       (Some function_evaluations) converged diverged
                       (SolveResult.method r) (SolveResult.message r) t ;;
           ret (x, result)
       | _ => raise (AssertionError "")
       end
     else
       match ret_ with
       | ResultSequence rs =>
           final <- getitem rs (-1) ;;
           converged <- lift (reshaped_tensor (SolveResult.converged final) [batch_dims] true) ;;
           final <- getitem rs (-1) ;;
           diverged <- lift (reshaped_tensor (SolveResult.diverged final) [batch_dims] true) ;;
           final <- getitem rs (-1) ;;
           x_tensor <- lift (reshaped_tensor (SolveResult.x final)
                                             [batch_dims; pattern_dims_in] true) ;;
           let x := assemble_tree x0_nest [x_tensor] in
           xs <- for_list rs
               (fun r => lift (reshaped_tensor (SolveResult.x r)
                                               [batch_dims; pattern_dims_in] true)) ;;
           x_stacked <- stack_trajectory xs ;;
           let x_ := assemble_tree x0_nest [x_stacked] in
           residuals <- for_list rs
               (fun r => reshaped_optional (SolveResult.residual r)
                                           [batch_dims; pattern_dims_out]) ;;
           residual_stacked <- stack_trajectory residuals ;;
           let residual := assemble_tree y_nest [residual_stacked] in
           final <- getitem rs (-1) ;;
           iterations <- lift (reshaped_tensor (SolveResult.iterations final) [batch_dims] true) ;;
           evaluations <- for_list rs
               (fun r => lift (reshaped_tensor (SolveResult.function_evaluations r)
                                               [batch_dims] true)) ;;
           function_evaluations <- stack_trajectory evaluations ;;
           final <- getitem rs (-1) ;;
           result <- SolveInfo__init__ solve x_ (Some residual) (Some iterations)
                       (Some function_evaluations) converged diverged
                       (SolveResult.method final) (SolveResult.message final) t ;;
           ret (x, result)
       | _ => raise (AssertionError ("Trajectory recording failed"))
       end) ;;
  ret (trj, x_result).

(** [_linear_solve_forward] *)
Definition _linear_solve_forward (y : X) (solve : loc)
    (native_lin_op : LinearOperator Native F X Arg Matrix)
    (pattern_dims_in pattern_dims_out : list string) (backend : Backend)
    (is_backprop : bool) : M X :=
  r <- _linear_solve_forward_result y solve native_lin_op pattern_dims_in pattern_dims_out
                                    backend ;;
  record_and_check solve (fst r) (snd (snd r))
                   (is_backprop && contains "TensorFlow" (Backend.name backend))
                   (fst (snd r)).

Local Abbreviation PyVal := (PyVal F X Arg).

(** How a call binds its arguments to the parameter names of the wrapped
    function: positional arguments go to the parameters in order, on top of
    the keyword arguments. *)
Fixpoint bind_arguments (parameters : list string) (args : list PyVal)
    (kwargs : gmap string PyVal) : gmap string PyVal :=
  match parameters, args with
  | p :: parameters', a :: args' => <[p := a]> (bind_arguments parameters' args' kwargs)
  | _, _ => kwargs
  end.

(** Modelled from the spec: [custom_gradient] of [_functional.py], which is
    not among the sources.  Calling the wrapped function runs the forward
    function normally ([call_wrapped]); the gradient function is kept for the
    backward pass. *)
Definition call_wrapped (parameters : list string) (f : gmap string PyVal -> M X)
    (args : list PyVal) (kwargs : gmap string PyVal) : M X :=
  f (bind_arguments parameters args kwargs).

Definition custom_gradient (parameters : list string)
    (f : gmap string PyVal -> M X)
    (gradient : gmap string PyVal -> X -> X -> M (gmap string X))
    (auxiliary_args : string) : CustomGradientFunction F X Arg :=
  mkCustomGradientFunction (call_wrapped parameters f) gradient auxiliary_args.

(** [implicit_gradient_solve] of [attach_gradient_solve]; [solve_with_grad]
    is the variable of the enclosing function that it calls. *)
Definition implicit_gradient_solve
    (solve_with_grad : list PyVal -> gmap string PyVal -> M X)
    (kwargs : gmap string PyVal) (x dx : X) : M (gmap string X) :=
  solve <- match kwargs !! "solve" with
           | Some (VSolve l) => ret l
           | Some _ => raise (AttributeError "gradient_solve")
           | None => raise (KeyError "solve")
           end ;;
  let matrix := match kwargs !! "matrix" with
                | Some m => [m]
                | None => []
                end in
  grad_solve <- gradient_solve solve ;;
  g <- read_solve grad_solve ;;
  x0 <- match Solve.x0 g with
        | Some x0 => ret x0
        | None => s <- read_solve solve ;; ret (zeros_like (Solve.x0 s))
        end ;;
  grad_solve' <- gradient_solve solve ;;
  grad_solve_ <- copy_with grad_solve'
    (fun s => Solve.mk (Solve.method s) (Solve.relative_tolerance s)
                       (Solve.absolute_tolerance s) (Solve.max_iterations s) (Some x0)
                       (Solve.preprocess_y s) (Solve.preprocess_y_args s) (Solve.suppress s)
                       (Solve._gradient_solve s) (Solve.id s)) ;;
  let kwargs := match kwargs !! "is_backprop" with
                | Some _ => delete "is_backprop" kwargs
                | None => kwargs
                end in
  dy <- solve_with_grad ([VTree dx; VSolve grad_solve_] ++ matrix)
                        (<["is_backprop" := VBool true]> kwargs) ;;
  ret {["y" := dy]}.

(** [attach_gradient_solve]; the forward solve comes with the names of its
    parameters.  Inside the gradient function [solve_with_grad] is the
    wrapped function itself, and calling that runs [forward_solve]. *)
Definition attach_gradient_solve (parameters : list string)
    (forward_solve : gmap string PyVal -> M X) (auxiliary_args : string)
    : CustomGradientFunction F X Arg :=
  let solve_with_grad := call_wrapped parameters forward_solve in
  custom_gradient parameters forward_solve (implicit_gradient_solve solve_with_grad)
                  auxiliary_args.

(** [_matrix_solve_forward] of [solve_linear] *)
Definition _matrix_solve_forward (backend : Backend) (y : X) (solve : loc)
    (matrix : Tensor F) (is_backprop : bool) : M X :=
  let backend_matrix := native_matrix matrix in
  let pattern_dims_in :=
    untyped_names (List.filter (fun d => bool_decide (dim_type d = DualDim)) (shape matrix)) in
  let pattern_dims_out :=
    names (List.filter (fun d => bool_decide (dim_type d ≠ DualDim)) (shape matrix)) in
  _linear_solve_forward y solve (MatrixOperator backend_matrix) pattern_dims_in
                        pattern_dims_out backend is_backprop.

(** [native_lin_f] of [_function_solve_forward] *)
Definition native_lin_f (f : Callable F X Arg) (backend : Backend) (f_args : list Arg)
    (f_kwargs : gmap string Arg) (x0_nest : Nest) (x0_tensor : Tensor F) (batches : Shape)
    (native_x : Native F) (batch_index : option Z) : M (Native F) :=
  let one_batch := negb (is_None batch_index) && bool_decide (1 < volume batches) in
  let native_x :=
    if one_batch then Backend.tile backend (Backend.expand_dims backend native_x)
                                   [volume batches; 1]
    else native_x in
  let batched := bool_decide (2 <= Backend.ndims backend native_x) in
  x_tensor <- lift (reshaped_tensor native_x
                      (if batched then [batches; non_batch_dims_of (shape x0_tensor)]
                       else [non_batch_dims_of (shape x0_tensor)]) false) ;;
  let x := assemble_tree x0_nest [x_tensor] in
  y <- lift (fn_call f [x] f_args f_kwargs) ;;
  y_pair <- single_tensor (Some y) ;;
  let y_tensor := snd y_pair in
  y_native <- lift (reshaped_native y_tensor
                      (if batched then [batches; non_batch_dims_of (shape y_tensor)]
                       else [non_batch_dims_of (shape y_tensor)]) true) ;;
  match batch_index with
  | Some i => if one_batch then lift (native_getitem y_native i) else ret y_native
  | None => ret y_native
  end.

(** [_function_solve_forward] of [solve_linear] *)
Definition _function_solve_forward (f : Callable F X Arg) (backend : Backend) (y : X)
    (solve : loc) (f_args : list Arg) (f_kwargs : gmap string Arg) (is_backprop : bool)
    : M X :=
  y_pair <- single_tensor (Some y) ;;
  let y_tensor := snd y_pair in
  s <- read_solve solve ;;
  x0_pair <- single_tensor (Solve.x0 s) ;;
  let x0_nest := fst x0_pair in
  let x0_tensor := snd x0_pair in
  merged <- lift (merge_shapes [shape y_tensor; shape x0_tensor]) ;;
  let batches := batch_dims_of merged in
  _linear_solve_forward y solve
    (FunctionOperator (native_lin_f f backend f_args f_kwargs x0_nest x0_tensor batches))
    (names (non_batch_dims_of (shape x0_tensor)))
    (names (non_batch_dims_of (shape y_tensor))) backend is_backprop.

(** The two forward solves as the wrapped functions see them: the arguments
    arrive by name, [is_backprop] defaults to [False]. *)
Definition is_backprop_of (bound : gmap string PyVal) : bool :=
  match bound !! "is_backprop" with
  | Some (VBool b) => b
  | _ => false
  end.

Definition matrix_solve_forward_bound (backend : Backend) (bound : gmap string PyVal) : M X :=
  match bound !! "y", bound !! "solve", bound !! "matrix" with
  | Some (VTree y), Some (VSolve solve), Some (VMatrix matrix) =>
      _matrix_solve_forward backend y solve matrix (is_backprop_of bound)
  | _, _, _ => raise (TypeError "_matrix_solve_forward()")
  end.

Definition function_solve_forward_bound (f : Callable F X Arg) (backend : Backend)
    (bound : gmap string PyVal) : M X :=
  match bound !! "y", bound !! "solve", bound !! "f_args", bound !! "f_kwargs" with
  | Some (VTree y), Some (VSolve solve), Some (VArgs f_args), Some (VKwargs f_kwargs) =>
      _function_solve_forward f backend y solve f_args f_kwargs (is_backprop_of bound)
  | _, _, _, _ => raise (TypeError "_function_solve_forward()")
  end.

(** [solve_linear(f, y, solve, *f_args, f_kwargs=None, **f_kwargs_)] *)
Definition solve_linear (f : LinearCallable F X Arg) (y : X) (solve : loc)
    (f_args : list Arg) (f_kwargs : option (gmap string Arg))
    (f_kwargs_ : gmap string Arg) : M X :=
  let f_kwargs := f_kwargs_ ∪ default ∅ f_kwargs in
  let f_args := match f_args with
                | [a] => default f_args (arg_as_tuple a)
                | _ => f_args
                end in
  let y_tensors := snd (disassemble_tree (Some y)) in
  s <- read_solve solve ;;
  let x0_tensors := snd (disassemble_tree (Solve.x0 s)) in
  py_assert (bool_decide (length x0_tensors = length y_tensors)
             && bool_decide (length y_tensors = 1))
            "Only single-tensor linear solves are currently supported" ;;
  let backend := choose_backend_t (y_tensors ++ x0_tensors) false in
  let prefer_explicit :=
    Backend.supports_sparse_coo_tensor backend || Backend.supports_csr_matrix backend in
  match sparse_matrix_and_bias f, prefer_explicit with
  | Some matrix_and_bias, true =>
      s <- read_solve solve ;;
      mb <- lift (matrix_and_bias (Solve.x0 s) f_args f_kwargs) ;;
      let matrix := fst mb in
      let bias := snd mb in
      let _matrix_solve :=
        attach_gradient_solve ["y"; "solve"; "matrix"; "is_backprop"]
                              (matrix_solve_forward_bound backend) "is_backprop" in
      forward_call _matrix_solve [VTree (tree_sub y bias); VSolve solve; VMatrix matrix] ∅
  | _, _ =>
      let f_args := cached_args f_args in
      solve <- cached_solve solve ;;
      let _function_solve :=
        attach_gradient_solve ["y"; "solve"; "f_args"; "f_kwargs"; "is_backprop"]
                              (function_solve_forward_bound (linear_fn f) backend)
                              "is_backprop,f_kwargs" in
      forward_call _function_solve [VTree y; VSolve solve; VArgs f_args]
                   {["f_kwargs" := VKwargs f_kwargs]}
  end.

End Dispatch.

(** ** A small instance of the library

    Numbers are integers, a solution value is a single tensor, a native
    array is the list of its values.  The theorems below hold for every
    instance; this one is where they are tried on concrete inputs. *)

Module Example.

Definition F := Z.
Definition X := Tensor Z.
Definition Nest := unit.
Definition Arg := Z.
Definition Native (A : Type) : Type := list A.
Definition Matrix := Tensor Z.

#[export] Instance scalar : Scalar F :=
  {| float_of_int := fun z => z; float_sub := Z.sub |}.

Definition sum_Z (l : list Z) : Z := foldr Z.add 0%Z l.

#[export] Instance tree : PhiTree F X Nest := {|
  disassemble_tree := fun value => (tt, option_list value);
  assemble_tree := fun _ tensors => default (scalar_tensor 0%Z) (head tensors);
  tree_trajectory := fun x index =>
    match dim_getitem trajectory index x with
    | Some t => Return t
    | None => Raise (IndexError "index out of range")
    end;
  tree_eq := fun a b =>
    match a, b with
    | None, None => PyBool true
    | Some a', Some b' => PyBoolTensor (tensor_eq a' b')
    | _, _ => PyBool false
    end;
  tensor_bool := fun t => Return (tensor_all t);
  tree_sub := fun a b =>
    mkTensor (shape a) (available a && available b) (zip_with Z.sub (values a) (values b));
  l2_loss := fun a => scalar_tensor (sum_Z ((fun v => v * v)%Z <$> values a));
  of_tensor := fun t => t;
  zeros_like := fun value =>
    match value with
    | Some a => mkTensor (shape a) (available a) ((fun _ => 0%Z) <$> values a)
    | None => scalar_tensor 0%Z
    end;
  number_mul := fun n t =>
    match n with
    | PyInt z | PyFloat z => mkTensor (shape t) (available t) (Z.mul z <$> values t)
    | PyTensor a =>
        mkTensor (shape t) (available a && available t)
                 (Z.mul (default 0%Z (head (values a))) <$> values t)
    end;
  as_tuple := fun _ => None;
  format_float := fun _ => "<float>";
  format_int := fun _ => "<int>";
  format_max_residual := fun _ => "<max>";
  format_shape := fun _ => "<shape>"
|}.

(** A backend that reports [answer] whatever it is asked. *)
Definition backend (name : string) (answer : BackendReturn Native F)
    : Backend.t Native F X Arg Matrix :=
  Backend.mk name false false
    (fun natives _ => concat natives)
    (fun native => length native)
    (fun _ => 2)
    (fun native => native)
    (fun native => native)
    (fun _ native => native)
    (fun native => native)
    (fun native _ => native)
    (fun _ native => ret native)
    (fun _ _ _ _ _ _ => ret answer)
    (fun _ _ _ _ _ _ _ _ => ret answer).

Definition algebra (b : Backend.t Native F X Arg Matrix)
    : ShapeAlgebra Native F X Arg Matrix := {|
  merge_shapes := fun shapes => Return (foldr merge_names [] shapes);
  reshaped_native := fun A t _ _ => Return (values t);
  reshaped_tensor := fun A native groups _ => Return (mkTensor (concat groups) true native);
  choose_backend_t := fun _ _ => b;
  native_slice_last := fun native i j => take (j - i) (drop i native);
  native_getitem := fun native _ => Return native;
  native_sub := fun a b => zip_with Z.sub a b;
  numpy_stack := fun natives => concat natives;
  tensor_sum := fun t => scalar_tensor (sum_Z (values t));
  native_matrix := fun m => m;
  untyped_names := names;
  cached_args := fun args => args;
  cached_solve := fun solve => ret solve;
  arg_as_tuple := fun _ => None
|}.

Definition State := State F X Arg.

(** Nothing allocated, no tape active, no warning yet. *)
Definition empty_state : State := mkState ∅ ∅ [] [] ∅ 0%Z.

End Example.

(** ** Auxiliary definitions for the statements *)

(** What [Solve.__init__] leaves in a [Solve] object: the relative tolerance
    is a tensor, the iteration budget holds 32-bit values and every
    suppressed class is a convergence exception. *)
Definition constructed {F X Arg} (s : Solve.t F X Arg) : Prop :=
  (exists t, Solve.relative_tolerance s = PyTensor t)
  /\ int32 <$> values (Solve.max_iterations s) = values (Solve.max_iterations s)
  /\ forallb issubclass_ConvergenceException (Solve.suppress s) = true.

(** Two tensors differ: their shapes are incompatible, or some position of
    the common (broadcast) shape holds different values. *)
Definition differ {A} (a b : Tensor A) : Prop :=
  is_compatible (shape a) (shape b) = false
  \/ exists idx, idx ∈ indices (merge_names (shape a) (shape b))
                 /\ value_at a idx <> value_at b idx.


Section SolveDefinitions.
Context {F X Nest Arg : Type} `{!Scalar F} `{!PhiTree F X Nest}.

Local Abbreviation M := (M F X Arg).
Local Abbreviation Solve := (Solve.t F X Arg).



End SolveDefinitions.

(** A computation that leaves the state as it is. *)
Definition read_only {F X Arg A} (m : M F X Arg A) : Prop :=
  forall σ, snd (m σ) = σ.

(** *** Convergence failures of a result *)

(** [converged.trajectory[-1]], when the index exists. *)
Definition final_converged {F X} (result : SolveInfo.t F X) : option (Tensor bool) :=
  dim_getitem trajectory (-1) (SolveInfo.converged result).

(** The two failure conditions that [convergence_check] tests. *)
Definition has_diverged {F X} (result : SolveInfo.t F X) : bool :=
  tensor_any (SolveInfo.diverged result).

Definition has_not_converged {F X} (result : SolveInfo.t F X) : bool :=
  match final_converged result with
  | Some final => negb (tensor_all final)
  | None => false
  end.

(** The failures that hold and are not suppressed, in the order in which
    [convergence_check] tests them. *)
Definition reported {F X} (suppress : list PyClass) (result : SolveInfo.t F X)
    : list PyClass :=
  (if has_diverged result && bool_decide (Diverged ∉ suppress) then [Diverged] else [])
  ++ (if has_not_converged result && bool_decide (NotConverged ∉ suppress)
      then [NotConverged] else []).

(** The state after some more warnings. *)
Definition with_warnings {F X Arg} (σ : State F X Arg) (ws : list Warning) : State F X Arg :=
  mkState (solve_objects σ) (tape_objects σ) (_SOLVE_TAPES σ) (emitted σ ++ ws)
          (issued_ids σ) (clock σ).

(** One [ConvergenceWarning] with the message of [result] for each class. *)
Definition convergence_warnings {F X} (result : SolveInfo.t F X) (classes : list PyClass)
    : list Warning :=
  (fun _ => mkWarning (SolveInfo.msg result) ConvergenceWarning) <$> classes.

(** The state with the [Solve] object [s] at [l]. *)
Definition with_solve {F X Arg} (σ : State F X Arg) (l : loc) (s : Solve.t F X Arg)
    : State F X Arg :=
  mkState (<[l := s]> (solve_objects σ)) (tape_objects σ) (_SOLVE_TAPES σ) (emitted σ)
          (issued_ids σ) (clock σ).

(** *** The iterate that the backend reports *)

Section IterateDefinitions.
Context {Native : Type -> Type} {F X Nest Arg Matrix : Type}.
Context `{!Scalar F} `{!PhiTree F X Nest} `{!ShapeAlgebra Native F X Arg Matrix}.

(** [x] is what [minimize(f, solve)], started in [σ] without trajectory
    recording, makes of the iterate that [backend.minimize] reports: the
    reported vector cut into the tensors of [x0] and assembled like [x0].
    [σ1] is the state in which the backend returns. *)
Definition reported_by_minimize (f : Callable F X Arg) (solve : loc)
    (σ σ1 : State F X Arg) (x : X) : Prop :=
  exists (s : Solve.t F X Arg) (batch_dims : Shape) (x0_natives : list (Native F))
         (atol : Native F) (maxi : Native Z) (r : SolveResult.t Native F),
    let x0_nest := fst (disassemble_tree (Solve.x0 s)) in
    let x0_tensors := snd (disassemble_tree (Solve.x0 s)) in
    let backend := choose_backend_t x0_tensors true in
    solve_objects σ !! solve = Some s
    /\ Backend.minimize backend (Solve.method s)
         (native_function f backend x0_nest x0_natives x0_tensors batch_dims)
         (Backend.concat backend x0_natives (-1)) atol maxi false σ
       = (Return (OneResult r), σ1)
    /\ unflatten_assemble backend x0_nest x0_natives x0_tensors batch_dims
                          (SolveResult.x r) [] true σ1 = (Return x, σ1).

(** The same for [_linear_solve_forward]: the reported array as a tensor
    with the batch and pattern dimensions, assembled like [x0]. *)
Definition reported_by_linear_solve (solve : loc)
    (native_lin_op : LinearOperator Native F X Arg Matrix)
    (backend : Backend.t Native F X Arg Matrix) (σ : State F X Arg) (x : X) : Prop :=
  exists (s : Solve.t F X Arg) (groups : list Shape) (y_native x0_native rtol atol : Native F)
         (maxi : Native Z) (r : SolveResult.t Native F) (σ1 : State F X Arg)
         (x_tensor : Tensor F),
    solve_objects σ !! solve = Some s
    /\ Backend.linear_solve backend (Solve.method s) native_lin_op y_native x0_native
                            rtol atol maxi false σ
       = (Return (OneResult r), σ1)
    /\ reshaped_tensor (SolveResult.x r) groups true = Return x_tensor
    /\ x = assemble_tree (fst (disassemble_tree (Solve.x0 s))) [x_tensor].

End IterateDefinitions.

(** *** The backward pass *)

Section GradientDefinitions.
Context {F X Nest Arg : Type} `{!PhiTree F X Nest}.

(** The initial guess of the solve of the backward pass: that of the
    gradient solve [gs] when it is set, zeros shaped like the initial guess of
    the forward solve [s] otherwise. *)
Definition backward_x0 (s gs : Solve.t F X Arg) : X :=
  default (zeros_like (Solve.x0 s)) (Solve.x0 gs).

(** [copy_with(gs, x0=x0)] *)
Definition with_x0 (gs : Solve.t F X Arg) (x0 : X) : Solve.t F X Arg :=
  Solve.mk (Solve.method gs) (Solve.relative_tolerance gs) (Solve.absolute_tolerance gs)
           (Solve.max_iterations gs) (Some x0) (Solve.preprocess_y gs)
           (Solve.preprocess_y_args gs) (Solve.suppress gs) (Solve._gradient_solve gs)
           (Solve.id gs).

(** What the gradient function returns for the outcome of its solve:
    [{'y': dy}]. *)
Definition as_gradient_of_y (r : Outcome (Exn F X) X * State F X Arg)
    : Outcome (Exn F X) (gmap string X) * State F X Arg :=
  match r with
  | (Return dy, σ) => (Return {["y" := dy]}, σ)
  | (Raise e, σ) => (Raise e, σ)
  end.

End GradientDefinitions.

(** *** Tapes *)

Section TapeDefinitions.
Context {F X Arg : Type}.

Local Abbreviation State := (State F X Arg).
Local Abbreviation SolveInfo := (SolveInfo.t F X).
Local Abbreviation SolveTape := (SolveTape.t F X).

(** The [Solve] object of [r] has the identity token [id]. *)
Definition has_id (σ : State) (id : string) (r : SolveInfo) : bool :=
  match solve_objects σ !! SolveInfo.solve r with
  | Some a => bool_decide (Solve.id a = id)
  | None => false
  end.

(** All results refer to [Solve] objects that exist. *)
Definition solves_exist (σ : State) (solves : list SolveInfo) : Prop :=
  Forall (fun r => is_Some (solve_objects σ !! SolveInfo.solve r)) solves.

(** The state after [self.solves.append(result)] and
    [self.solve_ids.append(id)], with the warnings [ws] emitted before. *)
Definition recorded (σ : State) (self : loc) (t : SolveTape) (result : SolveInfo)
    (id : string) (ws : list Warning) : State :=
  mkState (solve_objects σ)
          (<[self := SolveTape.mk (SolveTape.record_trajectories t)
                                  (SolveTape.solves t ++ [result])
                                  (SolveTape.solve_ids t ++ [id])]> (tape_objects σ))
          (_SOLVE_TAPES σ) (emitted σ ++ ws) (issued_ids σ) (clock σ).

Definition duplicate_warning : Warning :=
  mkWarning "SolveTape contains two results for the same solve settings. SolveTape[solve] will return the first solve result." RuntimeWarning.

End TapeDefinitions.

(** Objects for the concrete statements. *)
Module SolveObjects.
Import Example.

(** Three calls of the constructor: twice the same arguments, then a
    different absolute tolerance. *)
Definition three_specs : State :=
  snd ((Solve__init__ "CG" (PyInt 0) (PyInt 1) (PyIntCount 1000) None [NotConverged] None [] None ;;
        Solve__init__ "CG" (PyInt 0) (PyInt 1) (PyIntCount 1000) None [NotConverged] None [] None ;;
        Solve__init__ "CG" (PyInt 0) (PyInt 2) (PyIntCount 1000) None [NotConverged] None [] None)
         empty_state).

Definition spec (absolute_tolerance : Z) (id : string) : Solve.t F X Arg :=
  Solve.mk "CG" (PyTensor (scalar_tensor 0%Z)) (scalar_tensor absolute_tolerance)
           (scalar_tensor 1000%Z) None None [] [NotConverged] None id.

(** One call of the constructor. *)
Definition one_spec : State :=
  snd (Solve__init__ "CG" (PyInt 0) (PyInt 1) (PyIntCount 1000) None [NotConverged] None [] None
         empty_state).

End SolveObjects.

(** Solves on the concrete instance: one unknown with one entry, and a
    backend that reports what it is told. *)
Module Scenario.
Import Example.

Definition x0 : X := mkTensor [mkDim "x" 1 SpatialDim] true [0%Z].
Definition y : X := mkTensor [mkDim "x" 1 SpatialDim] true [4%Z].

(** A [Solve] with [max_iterations=1] and the given suppressed classes. *)
Definition solve_state (suppress : list PyClass) : State :=
  snd (Solve__init__ "CG" (PyInt 0) (PyInt 1) (PyIntCount 1) (Some x0) suppress None [] None
         empty_state).

(** The object that this call leaves at address 1. *)
Definition solve_object (suppress : list PyClass) : Solve.t F X Arg :=
  Solve.mk "CG" (PyTensor (scalar_tensor 0%Z)) (scalar_tensor 1%Z) (scalar_tensor 1%Z)
           (Some x0) None [] suppress None "0".

(** The same after entering a tape. *)
Definition taped_state (record_trajectories : bool) (suppress : list PyClass) : State :=
  snd ((tape <- SolveTape__init__ record_trajectories ;; SolveTape__enter__ tape)
         (solve_state suppress)).

(** What the backend reports after one iteration: the iterate [7] and the
    two flags. *)
Definition report (converged diverged : bool) : SolveResult.t Native F :=
  SolveResult.mk "CG" [7%Z] (Some [3%Z]) [1%Z] [1%Z] [converged] [diverged] "".

Definition numpy (converged diverged : bool) : Backend.t Native F X Arg Matrix :=
  backend "NumPy" (OneResult (report converged diverged)).

Definition tensorflow (converged diverged : bool) : Backend.t Native F X Arg Matrix :=
  backend "TensorFlow" (OneResult (report converged diverged)).

Definition matrix : LinearOperator Native F X Arg Matrix :=
  MatrixOperator (mkTensor [mkDim "x" 1 SpatialDim; mkDim "~x" 1 DualDim] true [2%Z]).

(** A result that has diverged and has not converged. *)
Definition diverged_result : SolveInfo.t F X :=
  SolveInfo.mk 1%positive x0 None (Some (scalar_tensor 1%Z)) (Some (scalar_tensor 1%Z))
               (scalar_tensor false) (scalar_tensor true) "CG" "Solve diverged" 0%Z.

(** An objective with a scalar output. *)
Definition loss : Callable F X Arg :=
  mkCallable "loss" (fun xs _ _ => Return (scalar_tensor 0%Z)).

(** Two solves inside one tape whose [Solve] objects share their [id]: the
    second object is a copy of the first. *)
Definition duplicate_solves : State :=
  snd ((copy <- copy_with 1%positive (fun s => s) ;;
        @minimize _ _ _ _ _ _ scalar tree (algebra (numpy true false)) loss 1%positive ;;
        @minimize _ _ _ _ _ _ scalar tree (algebra (numpy true false)) loss copy)
         (taped_state false [])).

(** What the backend reports with trajectory recording: the iterate [5]
    after the first step, not converged, then the iterate [7], converged. *)
Definition step (x : Z) (iterations : Z) (converged : bool) : SolveResult.t Native F :=
  SolveResult.mk "CG" [x] (Some [3%Z]) [iterations] [iterations] [converged] [false] "".

Definition recording_backend : Backend.t Native F X Arg Matrix :=
  backend "NumPy" (ResultSequence [step 5 1 false; step 7 2 true]).

(** A linear solve inside a tape that records trajectories. *)
Definition recorded_solve : State :=
  snd (@_linear_solve_forward _ _ _ _ _ _ scalar tree (algebra recording_backend)
         y 1%positive matrix ["x"] ["x"] recording_backend false (taped_state true [])).


(** A function whose output has the non-batch dimension [x]. *)
Definition vector_output : Callable F X Arg :=
  mkCallable "vector_output" (fun xs _ _ => Return y).

(** The keyword arguments of a matrix solve, as the backward pass gets them. *)
Definition matrix_tensor : Tensor F :=
  mkTensor [mkDim "x" 1 SpatialDim; mkDim "~x" 1 DualDim] true [2%Z].

Definition forward_kwargs : gmap string (PyVal F X Arg) :=
  {["y" := VTree y; "solve" := VSolve 1%positive; "matrix" := VMatrix matrix_tensor;
    "is_backprop" := VBool false]}.

End Scenario.

(** ** More auxiliary definitions *)

Section MoreTapeDefinitions.
Context {F X Arg : Type}.

Local Abbreviation State := (State F X Arg).
Local Abbreviation SolveInfo := (SolveInfo.t F X).
Local Abbreviation SolveTape := (SolveTape.t F X).

(** The state with another list of active tapes. *)
Definition with_active_tapes (σ : State) (tapes : list loc) : State :=
  mkState (solve_objects σ) (tape_objects σ) tapes (emitted σ) (issued_ids σ) (clock σ).

(** The state with other tape objects and some more warnings. *)
Definition with_tapes (σ : State) (tapes : gmap loc SolveTape) (ws : list Warning) : State :=
  mkState (solve_objects σ) tapes (_SOLVE_TAPES σ) (emitted σ ++ ws) (issued_ids σ) (clock σ).

(** The tape [t] after [solves.append(result)] and [solve_ids.append(id)]. *)
Definition appended (t : SolveTape) (result : SolveInfo) (id : string) : SolveTape :=
  SolveTape.mk (SolveTape.record_trajectories t) (SolveTape.solves t ++ [result])
               (SolveTape.solve_ids t ++ [id]).

(** [solves] and [solve_ids] have grown together. *)
Definition aligned (t : SolveTape) : Prop :=
  length (SolveTape.solves t) = length (SolveTape.solve_ids t).

(** Two states differ in the emitted warnings at most. *)
Definition same_objects (σ σ' : State) : Prop :=
  solve_objects σ' = solve_objects σ
  /\ tape_objects σ' = tape_objects σ
  /\ _SOLVE_TAPES σ' = _SOLVE_TAPES σ
  /\ issued_ids σ' = issued_ids σ
  /\ clock σ' = clock σ.

End MoreTapeDefinitions.

Section MoreRecordingDefinitions.
Context {F X Arg : Type}.

Local Abbreviation State := (State F X Arg).
Local Abbreviation SolveInfo := (SolveInfo.t F X).
Local Abbreviation SolveTape := (SolveTape.t F X).




End MoreRecordingDefinitions.

Section MoreSolveDefinitions.
Context {Native : Type -> Type} {F X Nest Arg Matrix : Type}.
Context `{!Scalar F} `{!PhiTree F X Nest} `{!ShapeAlgebra Native F X Arg Matrix}.

Local Abbreviation State := (State F X Arg).
Local Abbreviation Solve := (Solve.t F X Arg).

(** Every [Solve] object carries an [id] that [uuid4] has handed out. *)
Definition ids_issued (σ : State) : Prop :=
  map_Forall (fun _ (s : Solve) => Solve.id s ∈ issued_ids σ) (solve_objects σ).

(** The copy that [solve_nonlinear] makes of the [Solve] object [s] for the
    right-hand side [y]. *)
Definition min_solve_of (s : Solve) (y : X) : Solve :=
  Solve.mk (Solve.method s) (PyInt 0) (number_mul (Solve.relative_tolerance s) (l2_loss y))
           (Solve.max_iterations s) (Solve.x0 s) None (Solve.preprocess_y_args s)
           (Solve.suppress s) (Solve._gradient_solve s) (Solve.id s).

(** [y] after [solve.preprocess_y], as [solve_nonlinear] calls it. *)
Definition preprocessed (s : Solve) (y : X) : Outcome (Exn F X) X :=
  match Solve.preprocess_y s with
  | Some preprocess_y => fn_call (fn preprocess_y) [y] [] ∅
  | None => Return y
  end.

(** The positional arguments of [f] as [solve_linear] takes them: one tuple
    stands for its elements. *)
Definition unpacked (f_args : list Arg) : list Arg :=
  match f_args with
  | [a] => default f_args (arg_as_tuple a)
  | _ => f_args
  end.

End MoreSolveDefinitions.

Section FlatteningDefinitions.
Context {Native : Type -> Type} {F X Arg Matrix : Type}.

(** The length of the flat vector that [minimize] builds from the native
    arrays of [x0]: the sum of their last axes. *)
Definition flat_size (backend : Backend.t Native F X Arg Matrix)
    (x0_natives : list (Native F)) : nat :=
  foldr (fun x0_native size => Backend.shape_last backend x0_native + size) 0 x0_natives.

End FlatteningDefinitions.

(** More solves on the concrete instance. *)
Module MoreScenario.
Import Example Scenario.




(** One active tape that records no trajectories, and a copy of the
    [Solve] at address 2. *)
Definition copied_solve : State :=
  snd (copy_with 1%positive (fun s => s) (taped_state false [])).

(** A backend that reports no residual. *)
Definition silent_report : SolveResult.t Native F :=
  SolveResult.mk "CG" [7%Z] None [1%Z] [1%Z] [true] [false] "".

Definition silent : Backend.t Native F X Arg Matrix :=
  backend "NumPy" (OneResult silent_report).

End MoreScenario.

(** ** Computations *)

Section MonadFacts.
Context {F X Arg : Type}.

Local Abbreviation M := (M F X Arg).
Local Abbreviation State := (State F X Arg).

Lemma bind_Return_inv {A B} (m : M A) (k : A -> M B) (σ σ' : State) (b : B) :
  bind m k σ = (Return b, σ') ->
  exists a σ1, m σ = (Return a, σ1) /\ k a σ1 = (Return b, σ').
Proof.
  unfold bind. destruct (m σ) as [[a|e] σ1]; [|discriminate]. intros H. by exists a, σ1.
Qed.

Lemma read_only_run {A} (m : M A) (σ σ' : State) (o : Outcome (Exn F X) A) :
  read_only m -> m σ = (o, σ') -> σ' = σ.
Proof. intros Hm H. specialize (Hm σ). rewrite H in Hm. exact Hm. Qed.

(** Inversion of a bind whose first computation only reads. *)
Lemma bind_read_only_inv {A B} (m : M A) (k : A -> M B) (σ σ' : State) (b : B) :
  read_only m ->
  bind m k σ = (Return b, σ') ->
  exists a, m σ = (Return a, σ) /\ k a σ = (Return b, σ').
Proof.
  intros Hm H. apply bind_Return_inv in H as (a & σ1 & H1 & H2).
  pose proof (read_only_run m σ σ1 _ Hm H1) as ->. by exists a.
Qed.

Lemma read_only_ret {A} (a : A) : read_only (F:=F) (X:=X) (Arg:=Arg) (ret a).
Proof. by intros σ. Qed.

Lemma read_only_raise {A} (e : Exn F X) : read_only (F:=F) (X:=X) (Arg:=Arg) (A:=A) (raise e).
Proof. by intros σ. Qed.

Lemma read_only_lift {A} (o : Outcome (Exn F X) A) :
  read_only (F:=F) (X:=X) (Arg:=Arg) (lift o).
Proof. by intros σ. Qed.

Lemma read_only_py_assert (cond : bool) (message : string) :
  read_only (F:=F) (X:=X) (Arg:=Arg) (py_assert cond message).
Proof. intros σ. by destruct cond. Qed.

Lemma read_only_get_state : read_only (F:=F) (X:=X) (Arg:=Arg) get_state.
Proof. by intros σ. Qed.

Lemma read_only_perf_counter : read_only (F:=F) (X:=X) (Arg:=Arg) perf_counter.
Proof. by intros σ. Qed.

Lemma read_only_read_solve (l : loc) : read_only (F:=F) (X:=X) (Arg:=Arg) (read_solve l).
Proof. intros σ. unfold read_solve. by destruct (solve_objects σ !! l). Qed.

Lemma read_only_read_tape (l : loc) : read_only (F:=F) (X:=X) (Arg:=Arg) (read_tape l).
Proof. intros σ. unfold read_tape. by destruct (tape_objects σ !! l). Qed.

Lemma read_only_bind {A B} (m : M A) (k : A -> M B) :
  read_only m -> (forall a, read_only (k a)) -> read_only (bind m k).
Proof.
  intros Hm Hk σ. unfold bind. specialize (Hm σ).
  destruct (m σ) as [[a|e] σ1]; simpl in Hm; subst σ1; [apply Hk|done].
Qed.

Lemma read_only_for_list {A B} (l : list A) (body : A -> M B) :
  (forall a, read_only (body a)) -> read_only (for_list l body).
Proof.
  intros Hbody. induction l as [|a l IH]; simpl.
  - apply read_only_ret.
  - apply read_only_bind; [apply Hbody|]. intros b.
    apply read_only_bind; [apply IH|]. intros bs. apply read_only_ret.
Qed.

Lemma read_only_if {A} (b : bool) (m1 m2 : M A) :
  read_only m1 -> read_only m2 -> read_only (if b then m1 else m2).
Proof. by destruct b. Qed.

End MonadFacts.

Create HintDb read_only.

#[export] Hint Resolve read_only_ret read_only_raise read_only_lift read_only_py_assert
  read_only_get_state read_only_perf_counter read_only_read_solve read_only_read_tape
  read_only_for_list read_only_if : read_only.

(** Proves that a computation built from reads leaves the state as it is. *)
Ltac read_only :=
  repeat first
    [ progress (intros)
    | apply read_only_bind
    | solve [auto with read_only]
    | match goal with
      | |- read_only (match ?x with _ => _ end) => destruct x
      | |- read_only (if ?b then _ else _) => destruct b
      end ].

(** ** The substring test *)

Lemma prefix_append (needle text : string) :
  String.prefix needle text = true <-> exists rest, text = needle +:+ rest.
Proof.
  revert text. induction needle as [|c needle IH]; intros [|c' text]; simpl.
  - split; [by exists ""|done].
  - split; [by exists (String c' text)|done].
  - split; [done|]. intros [rest Hrest]. discriminate Hrest.
  - destruct (Ascii.ascii_dec c c') as [->|Hne].
    + rewrite IH. split; intros [rest Hrest]; exists rest; [by rewrite Hrest|].
      by injection Hrest.
    + split; [done|]. intros [rest Hrest]. injection Hrest as ? ?. done.
Qed.

(** [contains needle text] holds exactly when [text] is some string, then
    [needle], then some string. *)
Lemma contains_spec (needle text : string) :
  contains needle text = true <-> exists before after, text = before +:+ needle +:+ after.
Proof.
  induction text as [|c text IH].
  - cbn [contains]. rewrite orb_false_r, prefix_append. split.
    + intros [rest Hrest]. by exists "", rest.
    + intros ([|c before] & after & H); [by exists after|done].
  - cbn [contains]. rewrite orb_true_iff, prefix_append, IH. split.
    + intros [[rest Hrest]|(before & after & H)].
      * by exists "", rest.
      * exists (String c before), after. simpl. by rewrite H.
    + intros ([|c' before] & after & H).
      * left. by exists after.
      * right. injection H as -> H. by exists before, after.
Qed.

(** ** Computations of the model that only read *)

Section ReadOnlyFacts.
Context {Native : Type -> Type} {F X Nest Arg Matrix : Type}.
Context `{!Scalar F} `{!PhiTree F X Nest} `{!ShapeAlgebra Native F X Arg Matrix}.

Local Abbreviation M := (M F X Arg).
Local Abbreviation State := (State F X Arg).
Local Abbreviation SolveInfo := (SolveInfo.t F X).
Local Abbreviation Backend := (Backend.t Native F X Arg Matrix).

Lemma read_only_trajectory_getitem {A} (t : Tensor A) (index : Z) :
  read_only (F:=F) (X:=X) (Arg:=Arg) (trajectory_getitem t index).
Proof. unfold trajectory_getitem. read_only. Qed.

Lemma read_only_optional_trajectory_getitem {A} (value : option (Tensor A)) (index : Z) :
  read_only (F:=F) (X:=X) (Arg:=Arg) (optional_trajectory_getitem value index).
Proof.
  unfold optional_trajectory_getitem. destruct value; [|read_only].
  apply read_only_bind; [apply read_only_trajectory_getitem|read_only].
Qed.

Lemma read_only_SolveInfo__init__ (solve : loc) (x : X) (residual : option X)
    (iterations function_evaluations : option (Tensor Z)) (converged diverged : Tensor bool)
    (method msg : string) (solve_time : F) :
  read_only (Arg:=Arg)
    (SolveInfo__init__ solve x residual iterations function_evaluations converged diverged
                       method msg solve_time).
Proof.
  unfold SolveInfo__init__. apply read_only_bind; [|read_only].
  destruct (bool_decide (msg = "") && all_available [diverged; converged]); [|read_only].
  destruct (tensor_any diverged); [read_only|].
  apply read_only_bind; [apply read_only_trajectory_getitem|]. intros final.
  destruct (negb (tensor_all final)); [|read_only].
  apply read_only_bind; [read_only|]. intros s.
  apply read_only_bind; [|read_only].
  apply read_only_for_list. intros t. apply read_only_trajectory_getitem.
Qed.

Lemma read_only_snapshot (self : SolveInfo) (index : Z) :
  read_only (Arg:=Arg) (snapshot self index).
Proof.
  unfold snapshot.
  apply read_only_bind; [read_only|]. intros x.
  apply read_only_bind; [destruct (SolveInfo.residual self); read_only|]. intros residual.
  apply read_only_bind; [apply read_only_optional_trajectory_getitem|]. intros iterations.
  apply read_only_bind; [apply read_only_optional_trajectory_getitem|]. intros evaluations.
  apply read_only_bind; [apply read_only_trajectory_getitem|]. intros converged.
  apply read_only_bind; [apply read_only_trajectory_getitem|]. intros diverged.
  apply read_only_SolveInfo__init__.
Qed.

Lemma read_only_getitem {A} (sequence : list A) (index : Z) :
  read_only (F:=F) (X:=X) (Arg:=Arg) (getitem sequence index).
Proof. unfold getitem. read_only. Qed.

Lemma read_only_stack_trajectory {A} (tensors : list (Tensor A)) :
  read_only (F:=F) (X:=X) (Arg:=Arg) (stack_trajectory tensors).
Proof. unfold stack_trajectory. read_only. Qed.

Lemma read_only_reshaped_optional (value : option (Native F)) (groups : list Shape) :
  read_only (Arg:=Arg) (reshaped_optional value groups).
Proof. unfold reshaped_optional. read_only. Qed.

Lemma read_only_any_record_trajectories (tapes : list loc) :
  read_only (F:=F) (X:=X) (Arg:=Arg) (any_record_trajectories tapes).
Proof.
  induction tapes as [|l tapes IH]; simpl; [read_only|].
  apply read_only_bind; [read_only|]. intros t.
  destruct (SolveTape.record_trajectories t); [read_only|exact IH].
Qed.

Lemma read_only_unflatten (backend : Backend) (batch_dims : Shape) (x_flat : Native F)
    (additional_dims : Shape) (convert : bool) (i : nat)
    (pairs : list (Native F * Tensor F)) :
  read_only (Arg:=Arg) (unflatten backend batch_dims x_flat additional_dims convert i pairs).
Proof.
  revert i. induction pairs as [|[x0_native x0_tensor] pairs IH]; intros i; simpl;
    [read_only|].
  apply read_only_bind; [read_only|]. intros t.
  apply read_only_bind; [apply IH|read_only].
Qed.

Lemma read_only_unflatten_assemble (backend : Backend) (x0_nest : Nest)
    (x0_natives : list (Native F)) (x0_tensors : list (Tensor F)) (batch_dims : Shape)
    (x_flat : Native F) (additional_dims : Shape) (convert : bool) :
  read_only (Arg:=Arg)
    (unflatten_assemble backend x0_nest x0_natives x0_tensors batch_dims x_flat
                        additional_dims convert).
Proof.
  unfold unflatten_assemble. apply read_only_bind; [apply read_only_unflatten|read_only].
Qed.

End ReadOnlyFacts.

#[export] Hint Resolve read_only_trajectory_getitem read_only_optional_trajectory_getitem
  read_only_SolveInfo__init__ read_only_snapshot read_only_getitem
  read_only_stack_trajectory read_only_reshaped_optional read_only_any_record_trajectories
  read_only_unflatten read_only_unflatten_assemble : read_only.

(** ** Properties of [Solve] *)

Section SolveFacts.
Context {F X Nest Arg : Type} `{!Scalar F} `{!PhiTree F X Nest}.

Local Abbreviation M := (M F X Arg).
Local Abbreviation State := (State F X Arg).
Local Abbreviation Solve := (Solve.t F X Arg).






(** Two tensors without dimensions differ when their values do. *)
Lemma differ_scalar {A} (u v : A) : u <> v -> differ (scalar_tensor u) (scalar_tensor v).
Proof.
  intros Hne. right. exists []. split; [by apply list_elem_of_here|].
  unfold value_at. simpl. by intros [=].
Qed.

Lemma offset_ignores_other_name (s : Shape) (name : string) (i : nat) (idx : Index) :
  name ∉ names s -> offset s ((name, i) :: idx) = offset s idx.
Proof.
  induction s as [|d s IH]; [done|]. intros Hn. simpl.
  apply not_elem_of_cons in Hn as [Hd Hs].
  rewrite bool_decide_eq_false_2 by done. by rewrite IH.
Qed.

Lemma blocks_of_seq (block count start : nat) :
  flat_map (fun i => (fun k => i * block + k) <$> seq 0 block) (seq start count)
  = seq (start * block) (count * block).
Proof.
  revert start. induction count as [|count IH]; intros start; [done|].
  simpl. rewrite IH. rewrite fmap_add_seq, seq_app.
  replace (start * block + 0) with (start * block) by lia.
  replace (S start * block) with (start * block + block) by lia. done.
Qed.

(** The positions of a shape with distinct names, in order, are all the
    offsets into the values. *)
Lemma offsets_of_indices (s : Shape) :
  NoDup (names s) -> offset s <$> indices s = seq 0 (volume s).
Proof.
  induction s as [|d s IH]; [done|]. intros Hnd. apply NoDup_cons in Hnd as [Hd Hnd].
  cbn [indices volume].
  trans (flat_map (fun i => (fun k => i * volume s + k) <$> seq 0 (volume s))
                  (seq 0 (dim_size d))); [|by rewrite blocks_of_seq].
  induction (seq 0 (dim_size d)) as [|i l IHl]; [done|].
  cbn [flat_map]. rewrite fmap_app, IHl. f_equal.
  rewrite <- (IH Hnd), <- !list_fmap_compose. apply list_fmap_ext. intros k idx _.
  cbn [compose offset index_of]. rewrite bool_decide_eq_true_2 by done.
  by rewrite offset_ignores_other_name.
Qed.

Lemma merge_names_same (s : Shape) : merge_names s s = s.
Proof.
  unfold merge_names.
  assert (H : forall l, l ⊆ s -> List.filter (fun d => bool_decide (dim_name d ∉ names s)) l = []).
  { induction l as [|d l IHl]; [done|]. intros Hl. simpl.
    rewrite bool_decide_eq_false_2.
    - apply IHl. intros x Hx. apply Hl. by right.
    - intros Hn. apply Hn. apply list_elem_of_fmap. exists d. split; [done|].
      apply Hl. by left. }
  by rewrite H, app_nil_r.
Qed.

Lemma lists_differ_somewhere {A} `{EqDecision A} (l1 l2 : list A) :
  length l1 = length l2 -> l1 <> l2 ->
  exists k, k < length l1 /\ l1 !! k <> l2 !! k.
Proof.
  revert l2. induction l1 as [|a l1 IH]; intros [|b l2] Hlen Hne; simplify_eq/=.
  destruct (decide (a = b)) as [->|Hab].
  - destruct (IH l2) as (k & Hk & Hd); [done|congruence|].
    exists (S k). split; [lia|done].
  - exists 0. split; [lia|]. simpl. congruence.
Qed.

(** Two tensors of one shape, with distinct dimension names and as many
    values as the shape has positions, differ when their values do. *)
Lemma differ_same_shape {A} `{EqDecision A} (a b : Tensor A) :
  shape a = shape b ->
  NoDup (names (shape a)) ->
  length (values a) = volume (shape a) ->
  length (values b) = volume (shape a) ->
  values a <> values b ->
  differ a b.
Proof.
  intros Hs Hnd Ha Hb Hne. right.
  destruct (lists_differ_somewhere (values a) (values b)) as (k & Hk & Hd);
    [congruence|done|].
  assert (Hin : k ∈ offset (shape a) <$> indices (shape a)).
  { rewrite offsets_of_indices by done. apply elem_of_seq. lia. }
  apply list_elem_of_fmap in Hin as (idx & -> & Hidx).
  exists idx. rewrite <- Hs, merge_names_same. split; [done|].
  unfold value_at. by rewrite <- Hs.
Qed.




Lemma int32_range (z : Z) : (- 2 ^ 31 <= int32 z < 2 ^ 31)%Z.
Proof. unfold int32. pose proof (Z.mod_pos_bound (z + 2 ^ 31) (2 ^ 32)). lia. Qed.

Lemma int32_small (z : Z) : (- 2 ^ 31 <= z < 2 ^ 31)%Z -> int32 z = z.
Proof. intros Hz. unfold int32. rewrite Z.mod_small by lia. lia. Qed.

Lemma int32_idempotent (z : Z) : int32 (int32 z) = int32 z.
Proof. apply int32_small, int32_range. Qed.

(** The constructor leaves a [constructed] object whose [id] it has drawn
    from [uuid4]; it fails only on a suppressed class that is no convergence
    exception. *)
Lemma Solve__init__constructs (method : string) (relative_tolerance absolute_tolerance : Number F)
    (max_iterations : IntNumber) (x0 : option X) (suppress : list PyClass)
    (preprocess_y : option (FunctionObject F X Arg)) (preprocess_y_args : list Arg)
    (gradient : option loc) (σ : State) :
  forallb issubclass_ConvergenceException suppress = true ->
  exists (l : loc) (s : Solve) (σ' : State),
    Solve__init__ method relative_tolerance absolute_tolerance max_iterations x0 suppress
                  preprocess_y preprocess_y_args gradient σ = (Return l, σ')
    /\ solve_objects σ !! l = None
    /\ solve_objects σ' !! l = Some s
    /\ constructed s
    /\ (Solve.id s ∈ issued_ids σ')
    /\ (Solve.id s ∉ issued_ids σ)
    /\ Solve._gradient_solve s = gradient
    /\ Solve.x0 s = x0.
Proof.
  intros Hsup. unfold Solve__init__, bind, py_assert. rewrite Hsup. simpl.
  eexists _, _, _. split; [reflexivity|]. simpl. split_and!.
  - apply not_elem_of_dom, is_fresh.
  - apply lookup_insert_eq.
  - split_and!; simpl.
    + by eexists.
    + destruct max_iterations as [z|t]; simpl.
      * by rewrite int32_idempotent.
      * rewrite <- list_fmap_compose. apply list_fmap_ext. intros i z _. simpl.
        apply int32_idempotent.
    + exact Hsup.
  - apply elem_of_union_l, elem_of_singleton. reflexivity.
  - apply is_fresh.
  - reflexivity.
  - reflexivity.
Qed.

(** C6: the first read of [gradient_solve] on a constructed [Solve] object
    without gradient solve builds a new object with the same method,
    tolerances, iteration budget, suppressed classes, preprocess hook and
    arguments, with [x0 = None] and a new identity token, and stores it in
    [_gradient_solve]; nothing else changes.  From then on a read returns
    that object and leaves the state as it is. *)
Theorem gradient_solve_caches_once (σ : State) (self : loc) (s : Solve) :
  solve_objects σ !! self = Some s ->
  Solve._gradient_solve s = None ->
  constructed s ->
  Solve.id s ∈ issued_ids σ ->
  exists (g : loc) (id' : string),
    (let built :=
      Solve.mk (Solve.method s) (Solve.relative_tolerance s) (Solve.absolute_tolerance s)
               (Solve.max_iterations s) None (Solve.preprocess_y s)
               (Solve.preprocess_y_args s) (Solve.suppress s) None id' in
    let cached :=
      Solve.mk (Solve.method s) (Solve.relative_tolerance s) (Solve.absolute_tolerance s)
               (Solve.max_iterations s) (Solve.x0 s) (Solve.preprocess_y s)
               (Solve.preprocess_y_args s) (Solve.suppress s) (Some g) (Solve.id s) in
    let σ' :=
      mkState (<[self := cached]> (<[g := built]> (solve_objects σ))) (tape_objects σ)
              (_SOLVE_TAPES σ) (emitted σ) ({[id']} ∪ issued_ids σ) (clock σ) in
    gradient_solve self σ = (Return g, σ')
    /\ solve_objects σ !! g = None
    /\ g <> self
    /\ id' <> Solve.id s
    /\ (id' ∉ issued_ids σ)
    /\ gradient_solve self σ' = (Return g, σ')).
Proof.
  intros Hs Hnone ([t Ht] & Hmax & Hsup) Hid.
  set (g := fresh (dom (solve_objects σ))).
  set (id' := fresh (issued_ids σ)).
  assert (Hg : solve_objects σ !! g = None).
  { apply not_elem_of_dom. apply is_fresh. }
  assert (Hne : g <> self).
  { intros ->. by rewrite Hs in Hg. }
  assert (Hid' : id' ∉ issued_ids σ) by apply is_fresh.
  exists g, id'. simpl.
  assert (Hmax' : to_int32_wrap (PyIntTensor (Solve.max_iterations s))
                  = Solve.max_iterations s).
  { unfold to_int32_wrap. rewrite Hmax. by destruct (Solve.max_iterations s). }
  split; [|split_and!; try done].
  - unfold gradient_solve, bind, read_solve. rewrite Hs, Hnone.
    unfold Solve__init__, bind, py_assert. rewrite Hsup, Hmax', Ht. simpl.
    unfold write_solve, set_solve_objects, read_solve. simpl.
    rewrite lookup_insert_ne by done. rewrite Hs. simpl.
    rewrite lookup_insert_eq. simpl. unfold ret.
    fold g id'. rewrite Ht. done.
  - intros ->. done.
  - unfold gradient_solve, bind, read_solve. simpl. rewrite lookup_insert_eq. done.
Qed.

End SolveFacts.

(** *** The statements about [Solve] on concrete objects *)

Module SolveExamples.
Import Example SolveObjects.

Example three_specs_objects :
  solve_objects three_specs !! 1%positive = Some (spec 1 "0")
  /\ solve_objects three_specs !! 2%positive = Some (spec 1 "1")
  /\ solve_objects three_specs !! 3%positive = Some (spec 2 "2").
Proof. vm_compute. done. Qed.


Lemma gradient_solve_caches_once_witness :
  exists g : loc,
    fst (gradient_solve 1%positive one_spec) = Return g
    /\ g <> 1%positive
    /\ fst (gradient_solve 1%positive (snd (gradient_solve 1%positive one_spec))) = Return g.
Proof.
  destruct (gradient_solve_caches_once one_spec 1%positive (spec 1 "0")) as (g & id' & H1 & _ & H2 & _ & _ & H3).
  - vm_compute. reflexivity.
  - reflexivity.
  - split; [by eexists|]. split; reflexivity.
  - apply (bool_decide_unpack _). vm_compute. exact I.
  - exists g. split; [by rewrite H1|]. split; [done|].
    rewrite H1. unfold snd. by rewrite H3.
Defined.

End SolveExamples.

(** ** What the dispatchers hand to the convergence check *)

Section ResultFacts.
Context {Native : Type -> Type} {F X Nest Arg Matrix : Type}.
Context `{!Scalar F} `{!PhiTree F X Nest} `{!ShapeAlgebra Native F X Arg Matrix}.

Local Abbreviation M := (M F X Arg).
Local Abbreviation State := (State F X Arg).
Local Abbreviation Solve := (Solve.t F X Arg).
Local Abbreviation SolveInfo := (SolveInfo.t F X).
Local Abbreviation Backend := (Backend.t Native F X Arg Matrix).
Local Abbreviation SolveResult := (SolveResult.t Native F).

(** Without trajectory recording, the [x] that [minimize] returns is the
    iterate that [backend.minimize] reported, cut into the tensors of [x0]
    and assembled like [x0]; the result holds the same [x]. *)
Lemma minimize_result_without_trajectory (f : Callable F X Arg) (solve : loc)
    (σ σ1 : State) (x : X) (result : SolveInfo) :
  minimize_result f solve σ = (Return (false, (x, result)), σ1) ->
  reported_by_minimize f solve σ σ1 x
  /\ SolveInfo.x result = x
  /\ SolveInfo.solve result = solve.
Proof.
  intros H. unfold minimize_result in H.
  apply bind_read_only_inv in H as (s & Hs & H); [|read_only].
  apply bind_read_only_inv in H as (zero & Hzero & H); [|unfold number_eq_zero_all; read_only].
  apply bind_read_only_inv in H as (? & _ & H); [|read_only].
  apply bind_read_only_inv in H as (? & _ & H); [|read_only].
  apply bind_read_only_inv in H as (merged & Hmerged & H); [|read_only].
  apply bind_read_only_inv in H as (x0_natives & Hnatives & H); [|read_only].
  apply bind_read_only_inv in H as (atol & Hatol & H); [|read_only].
  apply bind_read_only_inv in H as (maxi & Hmaxi & H); [|read_only].
  apply bind_read_only_inv in H as (σ' & Hσ' & H); [|read_only].
  injection Hσ' as <-.
  apply bind_read_only_inv in H as (trj & Htrj & H); [|read_only].
  apply bind_read_only_inv in H as (t0 & Ht0 & H); [|read_only].
  apply bind_Return_inv in H as (ret_ & σb & Hbackend & H).
  apply bind_read_only_inv in H as (t1 & Ht1 & H); [|read_only].
  apply bind_Return_inv in H as ([x' result'] & σc & Hres & H).
  injection H as -> -> -> ->. simpl in Hres.
  destruct ret_ as [r| |]; [|discriminate..].
  apply bind_read_only_inv in Hres as (converged & _ & Hres); [|read_only].
  apply bind_read_only_inv in Hres as (diverged & _ & Hres); [|read_only].
  apply bind_read_only_inv in Hres as (x' & Hx & Hres); [|read_only].
  apply bind_read_only_inv in Hres as (iterations & _ & Hres); [|read_only].
  apply bind_read_only_inv in Hres as (evaluations & _ & Hres); [|read_only].
  apply bind_read_only_inv in Hres as (residual & _ & Hres); [|read_only].
  apply bind_read_only_inv in Hres as (result' & Hinit & Hres); [|read_only].
  injection Hres as -> -> ->.
  split_and!.
  - exists s, (batch_dims_of merged), x0_natives,
      (Backend.to_float (choose_backend_t (snd (disassemble_tree (Solve.x0 s))) true) atol),
      (Backend.to_int32 (choose_backend_t (snd (disassemble_tree (Solve.x0 s))) true) maxi),
      r.
    simpl. split_and!; try done.
    unfold read_solve in Hs. by destruct (solve_objects σ !! solve); simplify_eq.
  - unfold SolveInfo__init__ in Hinit.
    apply bind_Return_inv in Hinit as (msg' & σd & _ & Hinit). by injection Hinit as <- _.
  - unfold SolveInfo__init__ in Hinit.
    apply bind_Return_inv in Hinit as (msg' & σd & _ & Hinit). by injection Hinit as <- _.
Qed.

Lemma read_solve_Return (l : loc) (σ σ' : State) (s : Solve) :
  read_solve l σ = (Return s, σ') -> solve_objects σ !! l = Some s.
Proof. unfold read_solve. by destruct (solve_objects σ !! l); intros; simplify_eq. Qed.

(** The same for [_linear_solve_forward]. *)
Lemma linear_solve_result_without_trajectory (y : X) (solve : loc)
    (native_lin_op : LinearOperator Native F X Arg Matrix)
    (pattern_dims_in pattern_dims_out : list string) (backend : Backend)
    (σ σ1 : State) (x : X) (result : SolveInfo) :
  _linear_solve_forward_result y solve native_lin_op pattern_dims_in pattern_dims_out
                               backend σ = (Return (false, (x, result)), σ1) ->
  reported_by_linear_solve solve native_lin_op backend σ x
  /\ SolveInfo.x result = x
  /\ SolveInfo.solve result = solve.
Proof.
  intros H. unfold _linear_solve_forward_result in H.
  apply bind_read_only_inv in H as (s & Hs & H); [|read_only].
  apply bind_read_only_inv in H as (y' & _ & H); [|read_only].
  apply bind_read_only_inv in H as (y_pair & _ & H); [|unfold single_tensor; read_only].
  apply bind_read_only_inv in H as (s' & Hs' & H); [|read_only].
  apply bind_read_only_inv in H as (x0_pair & Hx0 & H); [|unfold single_tensor; read_only].
  apply bind_read_only_inv in H as (batch_dims & _ & H); [|read_only].
  apply bind_read_only_inv in H as (x0_reshaped & _ & H); [|read_only].
  apply bind_read_only_inv in H as (y_reshaped & _ & H); [|read_only].
  apply bind_read_only_inv in H as (s'' & Hs'' & H); [|read_only].
  apply bind_read_only_inv in H as (rtol & _ & H); [|read_only].
  apply bind_read_only_inv in H as (atol & _ & H); [|read_only].
  apply bind_read_only_inv in H as (maxi & _ & H); [|read_only].
  apply bind_read_only_inv in H as (σ' & Hσ' & H); [|read_only].
  injection Hσ' as <-.
  apply bind_read_only_inv in H as (trj & _ & H); [|read_only].
  apply bind_read_only_inv in H as (? & _ & H); [|read_only].
  apply bind_read_only_inv in H as (t0 & _ & H); [|read_only].
  apply bind_Return_inv in H as (ret_ & σb & Hbackend & H).
  apply bind_read_only_inv in H as (t1 & _ & H); [|read_only].
  apply bind_Return_inv in H as ([x' result'] & σc & Hres & H).
  injection H as -> -> -> ->. simpl in Hres.
  destruct ret_ as [r| |]; [|discriminate..].
  apply bind_read_only_inv in Hres as (converged & _ & Hres); [|read_only].
  apply bind_read_only_inv in Hres as (diverged & _ & Hres); [|read_only].
  apply bind_read_only_inv in Hres as (x_tensor & Hx & Hres); [|read_only].
  apply bind_read_only_inv in Hres as (iterations & _ & Hres); [|read_only].
  apply bind_read_only_inv in Hres as (evaluations & _ & Hres); [|read_only].
  apply bind_Return_inv in Hres as (residual & σd & _ & Hres).
  apply bind_read_only_inv in Hres as (result' & Hinit & Hres); [|read_only].
  injection Hres as <- <- <-.
  apply read_solve_Return in Hs, Hs', Hs''. simplify_eq.
  assert (Hx0' : fst x0_pair = fst (disassemble_tree (Solve.x0 s))).
  { unfold single_tensor, raise, ret in Hx0.
    destruct (snd (disassemble_tree (Solve.x0 s))) as [|? [|? ?]]; by simplify_eq. }
  split_and!.
  - eexists s, _, _, _, _, _, _, r, σb, x_tensor. split_and!; [done|exact Hbackend| |].
    + unfold lift in Hx. injection Hx as Hx. exact Hx.
    + by rewrite Hx0'.
  - unfold SolveInfo__init__ in Hinit.
    apply bind_Return_inv in Hinit as (msg' & σe & _ & Hinit). by injection Hinit as <- _.
  - unfold SolveInfo__init__ in Hinit.
    apply bind_Return_inv in Hinit as (msg' & σe & _ & Hinit). by injection Hinit as <- _.
Qed.

End ResultFacts.

(** ** The convergence check *)

Section CheckFacts.
Context {Native : Type -> Type} {F X Nest Arg Matrix : Type}.
Context `{!Scalar F} `{!PhiTree F X Nest} `{!ShapeAlgebra Native F X Arg Matrix}.

Local Abbreviation M := (M F X Arg).
Local Abbreviation State := (State F X Arg).
Local Abbreviation Solve := (Solve.t F X Arg).
Local Abbreviation SolveInfo := (SolveInfo.t F X).
Local Abbreviation Backend := (Backend.t Native F X Arg Matrix).

Lemma with_warnings_nil (σ : State) : with_warnings σ [] = σ.
Proof. destruct σ. unfold with_warnings. simpl. by rewrite app_nil_r. Qed.

Lemma with_warnings_app (σ : State) (ws ws' : list Warning) :
  with_warnings (with_warnings σ ws) ws' = with_warnings σ (ws ++ ws').
Proof. unfold with_warnings. simpl. by rewrite app_assoc. Qed.

(** Without available flags the check does nothing. *)
Lemma convergence_check_unavailable (self : SolveInfo) (only_warn : bool) (σ : State) :
  all_available [SolveInfo.diverged self; SolveInfo.converged self] = false ->
  convergence_check self only_warn σ = (Return tt, σ).
Proof. intros H. unfold convergence_check. by rewrite H. Qed.

(** What the check does when the flags are available. *)
Lemma convergence_check_outcome (self : SolveInfo) (only_warn : bool) (σ : State)
    (s : Solve) (final : Tensor bool) :
  all_available [SolveInfo.diverged self; SolveInfo.converged self] = true ->
  final_converged self = Some final ->
  solve_objects σ !! SolveInfo.solve self = Some s ->
  convergence_check self only_warn σ =
    match reported (Solve.suppress s) self with
    | [] => (Return tt, σ)
    | cls :: rest =>
        if only_warn
        then (Return tt, with_warnings σ (convergence_warnings self (cls :: rest)))
        else (Raise (ConvergenceError cls self), σ)
    end.
Proof.
  intros Ha Hf Hs. unfold convergence_check, reported, has_diverged, has_not_converged.
  rewrite Ha, Hf. simpl. unfold final_converged in Hf.
  unfold bind, trajectory_getitem, read_solve, warnings_warn, ret, raise.
  destruct (tensor_any (SolveInfo.diverged self)) eqn:Hd;
    destruct (tensor_all final) eqn:Hc;
    destruct (bool_decide (Diverged ∉ Solve.suppress s)) eqn:H1;
    destruct (bool_decide (NotConverged ∉ Solve.suppress s)) eqn:H2;
    destruct only_warn; simpl; rewrite ?Hs, ?H1, ?Hf, ?Hc, ?H2; simpl;
    rewrite ?Hs, ?H1, ?Hf, ?Hc, ?H2; simpl; rewrite ?Hs, ?H2; simpl;
    try reflexivity; try (by destruct σ).
  all: unfold with_warnings; simpl; try (by rewrite <- app_assoc); by rewrite app_nil_r.
Qed.

(** Recording first, then the check. *)
Lemma record_and_check_outcome (solve : loc) (trj : bool) (result : SolveInfo)
    (only_warn : bool) (x : X) (σ σ' : State) :
  for_each (_SOLVE_TAPES σ) (fun tape => _add tape solve trj result) σ = (Return tt, σ') ->
  record_and_check solve trj result only_warn x σ =
    match convergence_check result only_warn σ' with
    | (Return _, σ'') => (Return x, σ'')
    | (Raise e, σ'') => (Raise e, σ'')
    end.
Proof.
  intros H. unfold record_and_check, bind, get_state. rewrite H.
  by destruct (convergence_check result only_warn σ') as [[]].
Qed.

(** C10: the two conditions of [convergence_check] are tested one after
    the other, not as alternatives.  For a result with available flags that
    has diverged while [Diverged] is suppressed, whose final [converged]
    flags are not all true while [NotConverged] is not suppressed, the check
    still raises [NotConverged], or warns once when it only warns; and when
    neither class is suppressed and the check only warns, it warns twice. *)
Theorem convergence_check_tests_both_in_sequence (self : SolveInfo) (only_warn : bool)
    (σ : State) (s : Solve) (final : Tensor bool) :
  all_available [SolveInfo.diverged self; SolveInfo.converged self] = true ->
  solve_objects σ !! SolveInfo.solve self = Some s ->
  tensor_any (SolveInfo.diverged self) = true ->
  dim_getitem trajectory (-1) (SolveInfo.converged self) = Some final ->
  tensor_all final = false ->
  NotConverged ∉ Solve.suppress s ->
  (Diverged ∈ Solve.suppress s ->
   convergence_check self only_warn σ =
     if only_warn
     then (Return tt, with_warnings σ [mkWarning (SolveInfo.msg self) ConvergenceWarning])
     else (Raise (ConvergenceError NotConverged self), σ))
  /\ (Diverged ∉ Solve.suppress s ->
      convergence_check self true σ =
        (Return tt, with_warnings σ [mkWarning (SolveInfo.msg self) ConvergenceWarning;
                                     mkWarning (SolveInfo.msg self) ConvergenceWarning])).
Proof.
  intros Ha Hs Hd Hf Hc Hn.
  split; intros Hdiv.
  - rewrite (convergence_check_outcome self only_warn σ s final Ha Hf Hs).
    unfold reported, has_diverged, has_not_converged, final_converged. rewrite Hd, Hf, Hc.
    rewrite (bool_decide_eq_false_2 (Diverged ∉ Solve.suppress s)) by (by intros H').
    by rewrite (bool_decide_eq_true_2 _ Hn).
  - rewrite (convergence_check_outcome self true σ s final Ha Hf Hs).
    unfold reported, has_diverged, has_not_converged, final_converged. rewrite Hd, Hf, Hc.
    by rewrite (bool_decide_eq_true_2 _ Hn), (bool_decide_eq_true_2 _ Hdiv).
Qed.

(** C2: when a linear solve has produced a result with available flags and
    some failure that holds is not suppressed, [_linear_solve_forward] raises
    the exception of the first such failure, unless the call is a backward
    pass ([is_backprop]) on a backend whose name contains [TensorFlow]: then,
    and only then, it returns [x] and emits a warning for each such failure
    instead. *)
Theorem linear_solve_raises_unless_backprop_on_TensorFlow (y : X) (solve : loc)
    (native_lin_op : LinearOperator Native F X Arg Matrix)
    (pattern_dims_in pattern_dims_out : list string) (backend : Backend)
    (is_backprop : bool) (σ σ1 σ2 : State) (trj : bool) (x : X) (result : SolveInfo)
    (s : Solve) (final : Tensor bool) (cls : PyClass) (rest : list PyClass) :
  _linear_solve_forward_result y solve native_lin_op pattern_dims_in pattern_dims_out backend σ
    = (Return (trj, (x, result)), σ1) ->
  for_each (_SOLVE_TAPES σ1) (fun tape => _add tape solve trj result) σ1 = (Return tt, σ2) ->
  all_available [SolveInfo.diverged result; SolveInfo.converged result] = true ->
  final_converged result = Some final ->
  solve_objects σ2 !! SolveInfo.solve result = Some s ->
  reported (Solve.suppress s) result = cls :: rest ->
  (cls = Diverged \/ cls = NotConverged)
  /\ _linear_solve_forward y solve native_lin_op pattern_dims_in pattern_dims_out backend
                            is_backprop σ
     = if is_backprop && contains "TensorFlow" (Backend.name backend)
       then (Return x, with_warnings σ2 (convergence_warnings result (cls :: rest)))
       else (Raise (ConvergenceError cls result), σ2).
Proof.
  intros Hrun Hrec Ha Hf Hs Hrep. split.
  - unfold reported in Hrep.
    destruct (has_diverged result && bool_decide (Diverged ∉ Solve.suppress s));
      destruct (has_not_converged result && bool_decide (NotConverged ∉ Solve.suppress s));
      simplify_eq/=; auto.
  - unfold _linear_solve_forward, bind. rewrite Hrun. simpl.
    rewrite (record_and_check_outcome _ _ _ _ _ _ _ Hrec).
    rewrite (convergence_check_outcome result _ σ2 s final Ha Hf Hs), Hrep.
    by destruct (is_backprop && contains "TensorFlow" (Backend.name backend)).
Qed.

(** C8, as amended: when the dispatcher has produced a result and either
    its flags are not available or every failure that holds is suppressed,
    [minimize] and [_linear_solve_forward] return [x] without raising and
    without a warning; and without trajectory recording this [x] is the
    iterate that the backend reported, reassembled. *)
Theorem suppressed_failures_return_x (solve : loc) (σ σ1 σ2 : State) (trj : bool) (x : X)
    (result : SolveInfo) :
  for_each (_SOLVE_TAPES σ1) (fun tape => _add tape solve trj result) σ1 = (Return tt, σ2) ->
  all_available [SolveInfo.diverged result; SolveInfo.converged result] = false
  \/ (exists (s : Solve) (final : Tensor bool),
        solve_objects σ2 !! SolveInfo.solve result = Some s
        /\ final_converged result = Some final
        /\ (has_diverged result = true -> Diverged ∈ Solve.suppress s)
        /\ (has_not_converged result = true -> NotConverged ∈ Solve.suppress s)) ->
  (forall f : Callable F X Arg,
      minimize_result f solve σ = (Return (trj, (x, result)), σ1) ->
      minimize f solve σ = (Return x, σ2)
      /\ (trj = false -> reported_by_minimize f solve σ σ1 x))
  /\ (forall (y : X) (native_lin_op : LinearOperator Native F X Arg Matrix)
             (pattern_dims_in pattern_dims_out : list string) (backend : Backend)
             (is_backprop : bool),
      _linear_solve_forward_result y solve native_lin_op pattern_dims_in pattern_dims_out
                                   backend σ = (Return (trj, (x, result)), σ1) ->
      _linear_solve_forward y solve native_lin_op pattern_dims_in pattern_dims_out backend
                            is_backprop σ = (Return x, σ2)
      /\ (trj = false -> reported_by_linear_solve solve native_lin_op backend σ x)).
Proof.
  intros Hrec Hcheck.
  assert (Hc : forall only_warn, convergence_check result only_warn σ2 = (Return tt, σ2)).
  { intros only_warn. destruct Hcheck as [Hu|(s & final & Hs & Hf & Hd & Hn)].
    - by apply convergence_check_unavailable.
    - destruct (all_available [SolveInfo.diverged result; SolveInfo.converged result]) eqn:Ha;
        [|by apply convergence_check_unavailable].
      rewrite (convergence_check_outcome result only_warn σ2 s final Ha Hf Hs).
      unfold reported.
      destruct (has_diverged result).
      + rewrite (bool_decide_eq_false_2 (Diverged ∉ Solve.suppress s))
          by (intros H'; apply H'; auto).
        destruct (has_not_converged result); [|done].
        by rewrite (bool_decide_eq_false_2 (NotConverged ∉ Solve.suppress s))
          by (intros H'; apply H'; auto).
      + destruct (has_not_converged result); [|done].
        by rewrite (bool_decide_eq_false_2 (NotConverged ∉ Solve.suppress s))
          by (intros H'; apply H'; auto). }
  split.
  - intros f Hrun. split.
    + unfold minimize, bind. rewrite Hrun. simpl.
      by rewrite (record_and_check_outcome _ _ _ _ _ _ _ Hrec), Hc.
    + intros ->. by apply minimize_result_without_trajectory in Hrun as [? _].
  - intros y op pin pout backend is_backprop Hrun. split.
    + unfold _linear_solve_forward, bind. rewrite Hrun. simpl.
      by rewrite (record_and_check_outcome _ _ _ _ _ _ _ Hrec), Hc.
    + intros ->. by apply linear_solve_result_without_trajectory in Hrun as [? _].
Qed.

End CheckFacts.

(** *** The convergence check on concrete solves *)

Module CheckExamples.
Import Example Scenario.

Lemma linear_solve_raises_unless_backprop_on_TensorFlow_witness :
  (exists x, fst (@_linear_solve_forward _ _ _ _ _ _ scalar tree
                    (algebra (tensorflow false false))
                    y 1%positive matrix ["x"] ["x"] (tensorflow false false) true
                    (solve_state [])) = Return x)
  /\ (exists result, fst (@_linear_solve_forward _ _ _ _ _ _ scalar tree
                    (algebra (tensorflow false false))
                    y 1%positive matrix ["x"] ["x"] (tensorflow false false) false
                    (solve_state [])) = Raise (ConvergenceError NotConverged result))
  /\ (exists result, fst (@_linear_solve_forward _ _ _ _ _ _ scalar tree
                    (algebra (numpy false false))
                    y 1%positive matrix ["x"] ["x"] (numpy false false) true
                    (solve_state [])) = Raise (ConvergenceError NotConverged result)).
Proof.
  split; [|split].
  - edestruct (@linear_solve_raises_unless_backprop_on_TensorFlow _ _ _ _ _ _ scalar tree
                 (algebra (tensorflow false false))
                 y 1%positive matrix ["x"] ["x"] (tensorflow false false) true
                 (solve_state [])) as [_ H].
    + vm_compute. reflexivity.
    + vm_compute. reflexivity.
    + vm_compute. reflexivity.
    + vm_compute. reflexivity.
    + vm_compute. reflexivity.
    + vm_compute. reflexivity.
    + rewrite H. eexists. reflexivity.
  - edestruct (@linear_solve_raises_unless_backprop_on_TensorFlow _ _ _ _ _ _ scalar tree
                 (algebra (tensorflow false false))
                 y 1%positive matrix ["x"] ["x"] (tensorflow false false) false
                 (solve_state [])) as [_ H].
    + vm_compute. reflexivity.
    + vm_compute. reflexivity.
    + vm_compute. reflexivity.
    + vm_compute. reflexivity.
    + vm_compute. reflexivity.
    + vm_compute. reflexivity.
    + rewrite H. eexists. reflexivity.
  - edestruct (@linear_solve_raises_unless_backprop_on_TensorFlow _ _ _ _ _ _ scalar tree
                 (algebra (numpy false false))
                 y 1%positive matrix ["x"] ["x"] (numpy false false) true
                 (solve_state [])) as [_ H].
    + vm_compute. reflexivity.
    + vm_compute. reflexivity.
    + vm_compute. reflexivity.
    + vm_compute. reflexivity.
    + vm_compute. reflexivity.
    + vm_compute. reflexivity.
    + rewrite H. eexists. reflexivity.
Defined.

Lemma convergence_check_tests_both_in_sequence_witness :
  convergence_check diverged_result false (solve_state [Diverged])
  = (Raise (ConvergenceError NotConverged diverged_result), solve_state [Diverged]).
Proof.
  refine (proj1 (convergence_check_tests_both_in_sequence diverged_result false
                   (solve_state [Diverged]) _ (scalar_tensor false) _ _ _ _ _ _) _).
  - reflexivity.
  - vm_compute. reflexivity.
  - reflexivity.
  - reflexivity.
  - reflexivity.
  - simpl. intros H. apply list_elem_of_In in H. destruct H as [H|[]]. discriminate H.
  - simpl. by left.
Defined.

(** With [NotConverged] suppressed and one iteration allowed, a solve that
    has not converged returns the iterate that the backend reports. *)
Lemma suppressed_failures_return_x_witness :
  fst (@minimize _ _ _ _ _ _ scalar tree (algebra (numpy false false))
         loss 1%positive (solve_state [NotConverged]))
  = Return (mkTensor [mkDim "x" 1 SpatialDim] true [7%Z]).
Proof.
  eassert (Hrun : @minimize_result _ _ _ _ _ _ scalar tree (algebra (numpy false false))
                    loss 1%positive (solve_state [NotConverged])
                  = (Return (_, (_, _)), _)).
  { vm_compute. reflexivity. }
  match type of Hrun with
  | _ = (Return (?trj, (?x, ?result)), ?σ1) =>
      edestruct (@suppressed_failures_return_x _ _ _ _ _ _ scalar tree
                   (algebra (numpy false false)) 1%positive
                   (solve_state [NotConverged]) σ1 σ1 trj x result) as [H _]
  end.
  - vm_compute. reflexivity.
  - right. eexists _, _. split; [vm_compute; reflexivity|].
    split; [vm_compute; reflexivity|]. split.
    + intros Hd. vm_compute in Hd. discriminate Hd.
    + intros _. simpl. by left.
  - rewrite (proj1 (H loss Hrun)). reflexivity.
Defined.

(** C8 as stated fails: with [Diverged] suppressed, a solve that has
    diverged, and so has not converged either, still raises, namely
    [NotConverged]. *)
Lemma suppressed_Diverged_still_raises :
  (exists s, solve_objects (solve_state [Diverged]) !! 1%positive = Some s
             /\ Diverged ∈ Solve.suppress s)
  /\ exists result,
       has_diverged result = true
       /\ fst (@minimize _ _ _ _ _ _ scalar tree (algebra (numpy false true))
                 loss 1%positive (solve_state [Diverged]))
          = Raise (ConvergenceError NotConverged result).
Proof.
  split.
  - eexists. split; [vm_compute; reflexivity|]. simpl. by left.
  - eexists. split; [|vm_compute; reflexivity]. reflexivity.
Qed.

End CheckExamples.

(** ** The tape *)

Section TapeFacts.
Context {F X Nest Arg : Type} `{!Scalar F} `{!PhiTree F X Nest}.

Local Abbreviation M := (M F X Arg).
Local Abbreviation State := (State F X Arg).
Local Abbreviation Solve := (Solve.t F X Arg).
Local Abbreviation SolveInfo := (SolveInfo.t F X).
Local Abbreviation SolveTape := (SolveTape.t F X).

Lemma any_same_id_outcome (σ : State) (solves : list SolveInfo) (solve : loc) (s : Solve) :
  solves_exist σ solves ->
  solve_objects σ !! solve = Some s ->
  any_same_id solves solve σ
  = (Return (existsb (has_id σ (Solve.id s))
                     solves), σ).
Proof.
  intros Hex Hs. induction Hex as [|r solves [a Ha] Hex IH]; [done|].
  simpl. unfold bind, read_solve. rewrite Ha, Hs. unfold has_id at 1. rewrite Ha.
  by destruct (bool_decide (Solve.id a = Solve.id s)).
Qed.

Lemma with_same_id_outcome (σ : State) (solves : list SolveInfo) (item : loc) (s : Solve) :
  solves_exist σ solves ->
  solve_objects σ !! item = Some s ->
  with_same_id solves item σ
  = (Return (List.filter (has_id σ (Solve.id s))
                         solves), σ).
Proof.
  intros Hex Hs. induction Hex as [|r solves [a Ha] Hex IH]; [done|].
  simpl. unfold bind, read_solve. rewrite Ha, Hs. fold (read_solve (F:=F) (X:=X) (Arg:=Arg)).
  rewrite IH. unfold ret. cbn [List.filter].
  assert (Hr : has_id σ (Solve.id s) r = bool_decide (Solve.id a = Solve.id s)).
  { unfold has_id. by rewrite Ha. }
  rewrite Hr. by destruct (bool_decide (Solve.id a = Solve.id s)).
Qed.

(** [_add] of a result without trajectory to a tape that records none. *)
Lemma _add_outcome (σ : State) (self solve : loc) (t : SolveTape) (s : Solve)
    (result : SolveInfo) :
  tape_objects σ !! self = Some t ->
  SolveTape.record_trajectories t = false ->
  solves_exist σ (SolveTape.solves t) ->
  solve_objects σ !! solve = Some s ->
  _add self solve false result σ
  = (Return tt,
     recorded σ self t result (Solve.id s)
       (if existsb (has_id σ (Solve.id s))
                   (SolveTape.solves t)
        then [duplicate_warning] else [])).
Proof.
  intros Ht Hrec Hex Hs. unfold _add, bind, read_tape. rewrite Ht.
  rewrite (any_same_id_outcome σ _ solve s Hex Hs). rewrite Hrec.
  destruct (existsb _ (SolveTape.solves t)); simpl;
    unfold solves_append, solve_ids_append, bind, read_tape, write_tape, set_tape_objects,
      read_solve; simpl; rewrite Ht; simpl; rewrite Hs; simpl; rewrite lookup_insert_eq;
    simpl; unfold recorded; rewrite insert_insert_eq; simpl; rewrite ?app_nil_r;
    reflexivity.
Qed.

(** Duplicate records, for every tape that records no trajectories:
    adding a result whose [Solve] has the [id] of an earlier
    entry raises nothing, emits exactly one warning and leaves the first entry
    at index 0; the lookup by that [Solve], however, fails the assertion
    [len(solves) == 1] instead of returning the first entry. *)
Lemma duplicate_record_then_lookup (σ : State) (self solve : loc) (t : SolveTape) (s : Solve)
    (first : SolveInfo) (others : list SolveInfo) (result : SolveInfo) :
  tape_objects σ !! self = Some t ->
  SolveTape.record_trajectories t = false ->
  SolveTape.solves t = first :: others ->
  solves_exist σ (SolveTape.solves t) ->
  solve_objects σ !! solve = Some s ->
  SolveInfo.solve result = solve ->
  (exists r, r ∈ SolveTape.solves t /\ has_id σ (Solve.id s) r = true) ->
  exists σ' : State,
    _add self solve false result σ = (Return tt, σ')
    /\ emitted σ' = emitted σ ++ [duplicate_warning]
    /\ SolveTape__getitem__ self (IntKey 0) σ' = (Return first, σ')
    /\ SolveTape__getitem__ self (SolveKey solve) σ' = (Raise (AssertionError ""), σ').
Proof.
  intros Ht Hrec Hsolves Hex Hs Hres (r & Hr & Hid).
  eexists. split; [exact (_add_outcome σ self solve t s result Ht Hrec Hex Hs)|].
  assert (Hdup : existsb (has_id σ (Solve.id s))
                         (SolveTape.solves t) = true).
  { apply existsb_exists. exists r. split; [by apply list_elem_of_In|done]. }
  rewrite Hdup. split; [done|]. split.
  - unfold SolveTape__getitem__, bind, read_tape, recorded. simpl.
    rewrite lookup_insert_eq. simpl. rewrite Hsolves. reflexivity.
  - unfold SolveTape__getitem__, bind, read_tape. unfold recorded at 1. simpl.
    rewrite lookup_insert_eq. simpl.
    erewrite (with_same_id_outcome _ _ solve s).
    + rewrite List.filter_app. simpl.
      assert (Hnew : has_id (recorded σ self t result (Solve.id s) [duplicate_warning])
                            (Solve.id s) result = true).
      { unfold has_id, recorded. simpl. rewrite Hres, Hs. by apply bool_decide_eq_true. }
      rewrite Hnew.
      assert (Hold : r ∈ List.filter
                (has_id (recorded σ self t result (Solve.id s) [duplicate_warning]) (Solve.id s))
                (SolveTape.solves t)).
      { apply list_elem_of_In, List.filter_In. split; [by apply list_elem_of_In|exact Hid]. }
      destruct (List.filter _ (SolveTape.solves t)) as [|r1 found].
      { by apply elem_of_nil in Hold. }
      simpl. unfold py_assert. rewrite bool_decide_eq_false_2; [done|].
      rewrite length_app. simpl. lia.
    + unfold solves_exist, recorded. simpl. apply Forall_app. split; [exact Hex|].
      apply Forall_singleton. rewrite Hres. by eexists.
    + done.
Qed.

End TapeFacts.

(** ** Snapshots *)

Section SnapshotFacts.
Context {F X Nest Arg : Type} `{!Scalar F} `{!PhiTree F X Nest}.

Local Abbreviation M := (M F X Arg).
Local Abbreviation State := (State F X Arg).
Local Abbreviation SolveInfo := (SolveInfo.t F X).

Lemma dim_getitem_available {A} (name : string) (i : Z) (t t' : Tensor A) :
  dim_getitem name i t = Some t' -> available t' = available t.
Proof.
  unfold dim_getitem. destruct (size_of name (shape t)) as [n|]; [|by intros [= ->]].
  destruct (py_index n i); simpl; [|done]. by intros [= <-].
Qed.

Lemma trajectory_getitem_Return {A} (t t' : Tensor A) (index : Z) (σ σ' : State) :
  trajectory_getitem t index σ = (Return t', σ') ->
  dim_getitem trajectory index t = Some t'.
Proof.
  unfold trajectory_getitem. destruct (dim_getitem trajectory index t); [|done].
  by intros [= ->].
Qed.

Lemma optional_trajectory_getitem_Return {A} (value value' : option (Tensor A)) (index : Z)
    (σ σ' : State) :
  optional_trajectory_getitem value index σ = (Return value', σ') ->
  exists t t', value = Some t /\ value' = Some t' /\ dim_getitem trajectory index t = Some t'.
Proof.
  unfold optional_trajectory_getitem. destruct value as [t|]; [|done]. intros H.
  apply bind_Return_inv in H as (t' & σ1 & H1 & H2). injection H2 as <- _.
  apply trajectory_getitem_Return in H1. by exists t, t'.
Qed.

(** What a snapshot that succeeds holds: every tensor is the slice of the
    corresponding tensor at [index] (the tensor itself when it has no
    [trajectory] dimension); the solve, the method and the solve time are
    kept, and so is the message when it is not empty or the flags are not
    available.  The state stays as it is. *)
Lemma snapshot_projects (self snap : SolveInfo) (index : Z) (σ σ' : State) :
  snapshot self index σ = (Return snap, σ') ->
  σ' = σ
  /\ SolveInfo.solve snap = SolveInfo.solve self
  /\ SolveInfo.method snap = SolveInfo.method self
  /\ SolveInfo.solve_time snap = SolveInfo.solve_time self
  /\ tree_trajectory (SolveInfo.x self) index = Return (SolveInfo.x snap)
  /\ (exists r r', SolveInfo.residual self = Some r /\ SolveInfo.residual snap = Some r'
                   /\ tree_trajectory r index = Return r')
  /\ (exists t t', SolveInfo.iterations self = Some t /\ SolveInfo.iterations snap = Some t'
                   /\ dim_getitem trajectory index t = Some t')
  /\ (exists t t', SolveInfo.function_evaluations self = Some t
                   /\ SolveInfo.function_evaluations snap = Some t'
                   /\ dim_getitem trajectory index t = Some t')
  /\ dim_getitem trajectory index (SolveInfo.converged self) = Some (SolveInfo.converged snap)
  /\ dim_getitem trajectory index (SolveInfo.diverged self) = Some (SolveInfo.diverged snap)
  /\ (SolveInfo.msg self <> ""
      \/ all_available [SolveInfo.diverged self; SolveInfo.converged self] = false ->
      SolveInfo.msg snap = SolveInfo.msg self).
Proof.
  intros H.
  pose proof (read_only_run _ _ _ _ (read_only_snapshot self index) H) as ->.
  unfold snapshot in H.
  apply bind_read_only_inv in H as (x & Hx & H); [|read_only].
  apply bind_read_only_inv in H as (residual & Hres & H);
    [|destruct (SolveInfo.residual self); read_only].
  apply bind_read_only_inv in H as (iterations & Hit & H); [|read_only].
  apply bind_read_only_inv in H as (evaluations & Hev & H); [|read_only].
  apply bind_read_only_inv in H as (converged & Hc & H); [|read_only].
  apply bind_read_only_inv in H as (diverged & Hd & H); [|read_only].
  apply optional_trajectory_getitem_Return in Hit as (it & it' & Hit1 & -> & Hit2).
  apply optional_trajectory_getitem_Return in Hev as (ev & ev' & Hev1 & -> & Hev2).
  apply trajectory_getitem_Return in Hc, Hd.
  unfold SolveInfo__init__ in H.
  apply bind_Return_inv in H as (msg' & σ1 & Hmsg & H). injection H as <- _.
  simpl. split_and!; try done.
  - unfold lift in Hx. by injection Hx.
  - destruct (SolveInfo.residual self) as [r|]; [|done].
    apply bind_Return_inv in Hres as (r' & σ2 & Hr & Hres). injection Hres as <- _.
    unfold lift in Hr. exists r, r'. split_and!; try done. by injection Hr.
  - by exists it, it'.
  - by exists ev, ev'.
  - intros Hkeep.
    assert (Hcond : bool_decide (SolveInfo.msg self = "")
                    && all_available [diverged; converged] = false).
    { unfold all_available. simpl.
      rewrite (dim_getitem_available _ _ _ _ Hc), (dim_getitem_available _ _ _ _ Hd).
      destruct Hkeep as [Hne|Hun].
      - by rewrite (bool_decide_eq_false_2 _ Hne).
      - unfold all_available in Hun. simpl in Hun. rewrite Hun. apply andb_false_r. }
    rewrite Hcond in Hmsg. by injection Hmsg.
Qed.

End SnapshotFacts.

(** *** The tape on concrete solves *)

Module TapeExamples.
Import Example Scenario.

(** C1 at a concrete input: two solves inside one tape whose [Solve]
    objects share their [id].  Recording the second result raises nothing and
    emits one warning, [tape[0]] is the first result, but [tape[solve]]
    raises an AssertionError for either [Solve] object, although the warning
    announces that it returns the first result. *)
Lemma lookup_of_duplicated_id_fails :
  emitted duplicate_solves = [duplicate_warning]
  /\ (exists first,
        fst (SolveTape__getitem__ 1%positive (IntKey 0) duplicate_solves) = Return first
        /\ SolveInfo.solve first = 1%positive)
  /\ fst (SolveTape__getitem__ 1%positive (SolveKey 1%positive) duplicate_solves)
     = Raise (AssertionError "")
  /\ fst (SolveTape__getitem__ 1%positive (SolveKey 2%positive) duplicate_solves)
     = Raise (AssertionError "").
Proof.
  split; [vm_compute; reflexivity|]. split.
  - eexists. split; vm_compute; reflexivity.
  - split; vm_compute; reflexivity.
Qed.

(** C3 at a concrete input: a linear solve inside a tape that records
    trajectories, with a backend that reports two steps.  In the recorded
    result [x], [residual] and [function_evaluations] have the [trajectory]
    dimension; [iterations], [converged] and [diverged] do not, they are those
    of the last step.  So the snapshot at index 0 holds the iterate of the
    first step next to the flag [converged] of the last one. *)
Lemma recorded_flags_have_no_trajectory_axis :
  exists result,
    fst (SolveTape__getitem__ 1%positive (IntKey 0) recorded_solve) = Return result
    /\ has_dim trajectory (SolveInfo.x result) = true
    /\ has_dim trajectory <$> SolveInfo.residual result = Some true
    /\ has_dim trajectory <$> SolveInfo.function_evaluations result = Some true
    /\ has_dim trajectory <$> SolveInfo.iterations result = Some false
    /\ has_dim trajectory (SolveInfo.converged result) = false
    /\ has_dim trajectory (SolveInfo.diverged result) = false
    /\ exists first,
         fst (snapshot result 0 recorded_solve) = Return first
         /\ values (SolveInfo.x first) = [5%Z]
         /\ values (SolveInfo.converged first) = [true].
Proof.
  eexists. split; [vm_compute; reflexivity|].
  repeat (split; [vm_compute; reflexivity|]).
  eexists. split; [vm_compute; reflexivity|]. split; reflexivity.
Qed.

End TapeExamples.

(** ** The dispatchers *)

Section DispatchFacts.
Context {Native : Type -> Type} {F X Nest Arg Matrix : Type}.
Context `{!Scalar F} `{!PhiTree F X Nest} `{!ShapeAlgebra Native F X Arg Matrix}.

Local Abbreviation M := (M F X Arg).
Local Abbreviation State := (State F X Arg).
Local Abbreviation Solve := (Solve.t F X Arg).
Local Abbreviation SolveInfo := (SolveInfo.t F X).
Local Abbreviation Backend := (Backend.t Native F X Arg Matrix).
Local Abbreviation PyVal := (PyVal F X Arg).




Lemma delete_when_present (kwargs : gmap string PyVal) (key : string) :
  match kwargs !! key with
  | Some _ => delete key kwargs
  | None => kwargs
  end = delete key kwargs.
Proof.
  destruct (kwargs !! key) eqn:Hk; [done|]. symmetry. by apply delete_id.
Qed.

(** The backward pass of any wrapped solve: the wrapped function itself is
    called with the target [dx], a copy of the gradient solve, the matrix
    when the keyword arguments hold one, [is_backprop=True] and the other
    keyword arguments without their old [is_backprop]. *)
Lemma implicit_gradient_solve_outcome (parameters : list string)
    (forward_solve : gmap string PyVal -> M X) (auxiliary_args : string)
    (kwargs : gmap string PyVal) (x dx : X) (σ σ1 : State) (solve g : loc) (s gs : Solve) :
  kwargs !! "solve" = Some (VSolve solve) ->
  gradient_solve solve σ = (Return g, σ1) ->
  solve_objects σ1 !! solve = Some s ->
  Solve._gradient_solve s = Some g ->
  solve_objects σ1 !! g = Some gs ->
  let grad_solve_ := fresh (dom (solve_objects σ1)) in
  let matrix := match kwargs !! "matrix" with Some m => [m] | None => [] end in
  backward_call (attach_gradient_solve parameters forward_solve auxiliary_args) kwargs x dx σ
  = as_gradient_of_y
      (forward_call (attach_gradient_solve parameters forward_solve auxiliary_args)
         ([VTree dx; VSolve grad_solve_] ++ matrix)
         (<["is_backprop" := VBool true]> (delete "is_backprop" kwargs))
         (with_solve σ1 grad_solve_ (with_x0 gs (backward_x0 s gs)))).
Proof.
  intros Hk Hg Hs Hcached Hgs grad_solve_ matrix.
  unfold attach_gradient_solve, custom_gradient. simpl.
  unfold implicit_gradient_solve, bind. rewrite Hk. unfold ret at 1. rewrite Hg.
  unfold read_solve at 1. rewrite Hgs.
  assert (Hagain : gradient_solve solve σ1 = (Return g, σ1)).
  { unfold gradient_solve, bind, read_solve. by rewrite Hs, Hcached. }
  rewrite (delete_when_present kwargs "is_backprop").
  unfold backward_x0, with_x0, as_gradient_of_y, with_solve.
  destruct (Solve.x0 gs) as [v|] eqn:Hx0.
  - unfold ret at 1. rewrite Hagain. unfold copy_with, bind, read_solve, new_solve.
    rewrite Hgs. fold grad_solve_. fold matrix. simpl. done.
  - unfold read_solve at 1. rewrite Hs. unfold ret at 1. rewrite Hagain.
    unfold copy_with, bind, read_solve, new_solve.
    rewrite Hgs. fold grad_solve_. fold matrix. simpl. done.
Qed.

(** C4: the backward pass of the two solves that [solve_linear] wraps.
    Given the upstream gradient [dx], it reads the gradient solve [g] of
    [solve] (building it on first use), takes the initial guess of [g] when
    that is set and zeros shaped like [solve.x0] otherwise, and runs the same
    forward solve again, the matrix solve with the same matrix or the
    matrix-free solve with the same arguments, with the target [dx], a copy of
    [g] with that initial guess, and [is_backprop=True] in place of whatever
    [is_backprop] the keyword arguments held.  Its value is returned as the
    gradient with respect to [y]. *)
Theorem backward_pass_runs_gradient_solve (backend : Backend)
    (kwargs : gmap string PyVal) (x dx : X) (σ σ1 : State) (solve g : loc) (s gs : Solve) :
  kwargs !! "solve" = Some (VSolve solve) ->
  gradient_solve solve σ = (Return g, σ1) ->
  solve_objects σ1 !! solve = Some s ->
  Solve._gradient_solve s = Some g ->
  solve_objects σ1 !! g = Some gs ->
  let grad_solve_ := fresh (dom (solve_objects σ1)) in
  let σ2 := with_solve σ1 grad_solve_ (with_x0 gs (backward_x0 s gs)) in
  (forall matrix : Tensor F,
      kwargs !! "matrix" = Some (VMatrix matrix) ->
      backward_call
        (attach_gradient_solve ["y"; "solve"; "matrix"; "is_backprop"]
                               (matrix_solve_forward_bound backend) "is_backprop")
        kwargs x dx σ
      = as_gradient_of_y (_matrix_solve_forward backend dx grad_solve_ matrix true σ2))
  /\ (forall (f : Callable F X Arg) (f_args : list Arg) (f_kwargs : gmap string Arg),
        kwargs !! "matrix" = None ->
        kwargs !! "f_args" = Some (VArgs f_args) ->
        kwargs !! "f_kwargs" = Some (VKwargs f_kwargs) ->
        backward_call
          (attach_gradient_solve ["y"; "solve"; "f_args"; "f_kwargs"; "is_backprop"]
                                 (function_solve_forward_bound f backend)
                                 "is_backprop,f_kwargs")
          kwargs x dx σ
        = as_gradient_of_y
            (_function_solve_forward f backend dx grad_solve_ f_args f_kwargs true σ2)).
Proof.
  intros Hk Hg Hs Hcached Hgs grad_solve_ σ2. split.
  - intros matrix Hm.
    rewrite (implicit_gradient_solve_outcome _ _ _ kwargs x dx σ σ1 solve g s gs
               Hk Hg Hs Hcached Hgs).
    rewrite Hm. fold grad_solve_ σ2. f_equal.
    unfold attach_gradient_solve, custom_gradient, call_wrapped. simpl.
    unfold matrix_solve_forward_bound, is_backprop_of.
    by simplify_map_eq.
  - intros f f_args f_kwargs Hm Ha Hkw.
    rewrite (implicit_gradient_solve_outcome _ _ _ kwargs x dx σ σ1 solve g s gs
               Hk Hg Hs Hcached Hgs).
    rewrite Hm. fold grad_solve_ σ2. f_equal.
    unfold attach_gradient_solve, custom_gradient, call_wrapped. simpl.
    unfold function_solve_forward_bound, is_backprop_of.
    by simplify_map_eq.
Qed.

End DispatchFacts.

(** *** The dispatchers on concrete solves *)

Module DispatchExamples.
Import Example Scenario.



Lemma backward_pass_runs_gradient_solve_witness :
  fst (backward_call
         (attach_gradient_solve
            ["y"; "solve"; "matrix"; "is_backprop"]
            (@matrix_solve_forward_bound _ _ _ _ _ _ scalar tree
               (algebra (tensorflow true false)) (tensorflow true false))
            "is_backprop")
         forward_kwargs x0 y (solve_state []))
  = Return {["y" := mkTensor [mkDim "x" 1 SpatialDim] true [7%Z]]}.
Proof.
  edestruct (@backward_pass_runs_gradient_solve _ _ _ _ _ _ scalar tree
               (algebra (tensorflow true false)) (tensorflow true false)
               forward_kwargs x0 y (solve_state [])) as [H _].
  - vm_compute. reflexivity.
  - vm_compute. reflexivity.
  - vm_compute. reflexivity.
  - reflexivity.
  - vm_compute. reflexivity.
  - erewrite H; [|vm_compute; reflexivity]. vm_compute. reflexivity.
Defined.

End DispatchExamples.

(** ** More on the tape *)

Section TapeLifeCycle.
Context {F X Nest Arg : Type} `{!Scalar F} `{!PhiTree F X Nest}.

Local Abbreviation M := (M F X Arg).
Local Abbreviation State := (State F X Arg).
Local Abbreviation Solve := (Solve.t F X Arg).
Local Abbreviation SolveInfo := (SolveInfo.t F X).
Local Abbreviation SolveTape := (SolveTape.t F X).

Lemma list_remove_first (a : loc) (before after : list loc) :
  a ∉ before -> list_remove a (before ++ a :: after) = Some (before ++ after).
Proof.
  induction before as [|b before IH]; intros Hn; simpl.
  - by rewrite bool_decide_eq_true_2.
  - apply not_elem_of_cons in Hn as [Hne Hn].
    rewrite bool_decide_eq_false_2 by done. by rewrite IH.
Qed.

Lemma list_remove_absent (a : loc) (l : list loc) :
  a ∉ l -> list_remove a l = None.
Proof.
  induction l as [|b l IH]; intros Hn; simpl; [done|].
  apply not_elem_of_cons in Hn as [Hne Hn].
  rewrite bool_decide_eq_false_2 by done. by rewrite IH.
Qed.

Lemma enter_all (tapes : list loc) (σ : State) :
  for_each tapes (fun tape => SolveTape__enter__ tape ;; ret tt) σ
  = (Return tt, with_active_tapes σ (_SOLVE_TAPES σ ++ tapes)).
Proof.
  revert σ. induction tapes as [|tape tapes IH]; intros σ; simpl.
  - unfold ret. rewrite app_nil_r. by destruct σ.
  - unfold bind at 1. unfold SolveTape__enter__, bind, get_state, set_SOLVE_TAPES, ret.
    simpl. rewrite IH. unfold with_active_tapes. simpl. by rewrite <- app_assoc.
Qed.

Lemma exit_all (tapes : list loc) (σ : State) (active : list loc) :
  NoDup tapes ->
  (forall tape, tape ∈ tapes -> tape ∉ active) ->
  for_each (reverse tapes) SolveTape__exit__ (with_active_tapes σ (active ++ tapes))
  = (Return tt, with_active_tapes σ active).
Proof.
  induction tapes as [|tape tapes IH] using rev_ind; intros Hnd Hfresh.
  - simpl. by rewrite app_nil_r.
  - apply NoDup_app in Hnd as (Hnd & Hlast & _).
    rewrite reverse_app. simpl. unfold bind at 1.
    unfold SolveTape__exit__ at 1. unfold bind, get_state. simpl.
    rewrite app_assoc, list_remove_first.
    + simpl. rewrite app_nil_r.
      apply IH; [exact Hnd|]. intros t Ht. apply Hfresh, elem_of_app. by left.
    + rewrite elem_of_app. intros [Hin|Hin].
      * apply (Hfresh tape); [apply elem_of_app; right; by left|exact Hin].
      * apply (Hlast tape Hin). by left.
Qed.

(** X4: Entering and leaving are inverse to each other: entering distinct
    tapes that are not active, one inside the other, and leaving them in the
    opposite order restores the state, whatever else is active; in between all
    of them are active, behind those that were; and leaving a tape that is not
    active raises a ValueError and changes nothing. *)
Theorem nested_tapes_restore_the_active_list (tapes : list loc) (σ : State) :
  NoDup tapes ->
  (forall tape, tape ∈ tapes -> tape ∉ _SOLVE_TAPES σ) ->
  (for_each tapes (fun tape => SolveTape__enter__ tape ;; ret tt) ;;
   for_each (reverse tapes) SolveTape__exit__) σ = (Return tt, σ)
  /\ _SOLVE_TAPES (snd (for_each tapes (fun tape => SolveTape__enter__ tape ;; ret tt) σ))
     = _SOLVE_TAPES σ ++ tapes
  /\ (forall tape, tape ∈ tapes ->
        SolveTape__exit__ tape σ
        = (Raise (ValueError "list.remove(x): x not in list"), σ)).
Proof.
  intros Hnd Hfresh. split_and!.
  - unfold bind at 1. rewrite enter_all, (exit_all tapes σ _ Hnd Hfresh). by destruct σ.
  - by rewrite enter_all.
  - intros tape Htape. unfold SolveTape__exit__, bind, get_state.
    by rewrite (list_remove_absent _ _ (Hfresh tape Htape)).
Qed.

Lemma read_only_any_same_id (solves : list SolveInfo) (solve : loc) :
  read_only (Arg:=Arg) (any_same_id solves solve).
Proof.
  induction solves as [|r solves IH]; simpl; [read_only|].
  apply read_only_bind; [read_only|]. intros a.
  apply read_only_bind; [read_only|]. intros b.
  destruct (bool_decide (Solve.id a = Solve.id b)); [read_only|exact IH].
Qed.

Lemma last_py_getitem {A} (l : list A) (a : A) :
  py_getitem (l ++ [a]) (-1) = Some a.
Proof.
  unfold py_getitem, py_index. rewrite length_app. simpl.
  rewrite bool_decide_eq_true_2 by lia. simpl.
  replace (Z.to_nat (Z.of_nat (length l + 1) + -1)) with (length l + 0) by lia.
  by rewrite lookup_app_r, Nat.add_0_r, Nat.sub_diag by lia.
Qed.

Lemma length_py_getitem {A} (l : list A) (a : A) :
  py_getitem (l ++ [a]) (Z.of_nat (length l)) = Some a.
Proof.
  unfold py_getitem, py_index. rewrite length_app. simpl.
  rewrite bool_decide_eq_true_2 by lia. simpl. rewrite Nat2Z.id.
  by rewrite lookup_app_r, Nat.sub_diag by lia.
Qed.

(** X6: Recording and looking up, for a tape that records no trajectories and
    a [Solve] whose [id] the tape does not hold yet.  Before the result is
    added, the lookup by any [Solve] object with that [id] is a KeyError with
    the settings in its message.  After it was added, the tape is one entry
    longer, no warning was emitted, and the result is what the tape returns
    for the index [-1], for the index of the new entry, and for every [Solve]
    object with that [id], the [Solve] itself or a copy of it. *)
Theorem recorded_result_is_found_by_index_and_by_solve (σ : State) (self solve key : loc)
    (t : SolveTape) (s k : Solve) (result : SolveInfo) :
  tape_objects σ !! self = Some t ->
  SolveTape.record_trajectories t = false ->
  solves_exist σ (SolveTape.solves t) ->
  solve_objects σ !! solve = Some s ->
  SolveInfo.solve result = solve ->
  existsb (has_id σ (Solve.id s)) (SolveTape.solves t) = false ->
  solve_objects σ !! key = Some k ->
  Solve.id k = Solve.id s ->
  SolveTape__getitem__ self (SolveKey key) σ
  = (Raise (KeyError ("No solve recorded with key '" +:+ Solve__repr__ k +:+ "'.")), σ)
  /\ exists σ' : State,
    _add self solve false result σ = (Return tt, σ')
    /\ emitted σ' = emitted σ
    /\ SolveTape__len__ self σ' = (Return (S (length (SolveTape.solves t))), σ')
    /\ SolveTape__getitem__ self (IntKey (-1)) σ' = (Return result, σ')
    /\ SolveTape__getitem__ self (IntKey (Z.of_nat (length (SolveTape.solves t)))) σ'
       = (Return result, σ')
    /\ SolveTape__getitem__ self (SolveKey key) σ' = (Return result, σ').
Proof.
  intros Ht Hrec Hex Hs Hres Hnew Hk Hid.
  assert (Hnone : forall σ0 : State,
            solve_objects σ0 = solve_objects σ ->
            List.filter (has_id σ0 (Solve.id s)) (SolveTape.solves t) = []).
  { intros σ0 Hσ0. clear -Hnew Hσ0. induction (SolveTape.solves t) as [|r l IH]; [done|].
    simpl in Hnew. apply orb_false_elim in Hnew as [Hr Hl].
    cbn [List.filter]. unfold has_id at 1. rewrite Hσ0.
    unfold has_id in Hr. rewrite Hr. by apply IH. }
  split.
  { unfold SolveTape__getitem__, bind, read_tape. rewrite Ht.
    rewrite (with_same_id_outcome σ _ key k Hex Hk), Hid, (Hnone σ eq_refl).
    unfold read_solve. by rewrite Hk. }
  eexists. split; [exact (_add_outcome σ self solve t s result Ht Hrec Hex Hs)|].
  rewrite Hnew. split; [unfold recorded; simpl; by rewrite app_nil_r|].
  split_and!.
  - unfold SolveTape__len__, bind, read_tape, recorded. simpl. rewrite lookup_insert_eq.
    simpl. unfold ret. rewrite length_app. simpl. by rewrite Nat.add_1_r.
  - unfold SolveTape__getitem__, bind, read_tape, recorded. simpl. rewrite lookup_insert_eq.
    simpl. by rewrite last_py_getitem.
  - unfold SolveTape__getitem__, bind, read_tape, recorded. simpl. rewrite lookup_insert_eq.
    simpl. by rewrite length_py_getitem.
  - unfold SolveTape__getitem__, bind, read_tape. unfold recorded at 1. simpl.
    rewrite lookup_insert_eq. simpl.
    erewrite (with_same_id_outcome _ _ key k).
    + rewrite Hid, List.filter_app.
      rewrite (Hnone (recorded σ self t result (Solve.id s) []) eq_refl). simpl. unfold has_id, recorded. simpl. rewrite Hres, Hs.
      by rewrite bool_decide_eq_true_2.
    + unfold solves_exist, recorded. simpl. apply Forall_app. split; [exact Hex|].
      apply Forall_singleton. rewrite Hres. by eexists.
    + exact Hk.
Qed.

End TapeLifeCycle.

(** ** Recording on the active tapes *)

Section RecordingFacts.
Context {F X Nest Arg : Type} `{!Scalar F} `{!PhiTree F X Nest}.

Local Abbreviation M := (M F X Arg).
Local Abbreviation State := (State F X Arg).
Local Abbreviation Solve := (Solve.t F X Arg).
Local Abbreviation SolveInfo := (SolveInfo.t F X).
Local Abbreviation SolveTape := (SolveTape.t F X).

Lemma bind_run_Return {A B} (m : M A) (k : A -> M B) (σ σ1 : State) (a : A) :
  m σ = (Return a, σ1) -> bind m k σ = k a σ1.
Proof. intros H. unfold bind. by rewrite H. Qed.

Lemma bind_run_Raise {A B} (m : M A) (k : A -> M B) (σ σ1 : State) (e : Exn F X) :
  m σ = (Raise e, σ1) -> bind m k σ = (Raise e, σ1).
Proof. intros H. unfold bind. by rewrite H. Qed.

(** *** Computations that depend on the [Solve] objects only *)












(** *** One tape *)

Lemma solves_append_outcome (σ : State) (self : loc) (t : SolveTape) (r : SolveInfo) :
  tape_objects σ !! self = Some t ->
  solves_append self r σ
  = (Return tt,
     with_tapes σ (<[self := SolveTape.mk (SolveTape.record_trajectories t)
                                          (SolveTape.solves t ++ [r])
                                          (SolveTape.solve_ids t)]> (tape_objects σ)) []).
Proof.
  intros Ht. unfold solves_append, bind, read_tape, write_tape, set_tape_objects, with_tapes.
  rewrite Ht. simpl. by rewrite app_nil_r.
Qed.

Lemma solve_ids_append_outcome (σ : State) (self : loc) (t : SolveTape) (id : string) :
  tape_objects σ !! self = Some t ->
  solve_ids_append self id σ
  = (Return tt,
     with_tapes σ (<[self := SolveTape.mk (SolveTape.record_trajectories t)
                                          (SolveTape.solves t)
                                          (SolveTape.solve_ids t ++ [id])]> (tape_objects σ)) []).
Proof.
  intros Ht. unfold solve_ids_append, bind, read_tape, write_tape, set_tape_objects,
    with_tapes.
  rewrite Ht. simpl. by rewrite app_nil_r.
Qed.


Lemma register_after_append (σ : State) (self solve : loc) (t : SolveTape) (s : Solve)
    (r : SolveInfo) :
  tape_objects σ !! self = Some t ->
  solve_objects σ !! solve = Some s ->
  (s' <- read_solve solve ;; solve_ids_append self (Solve.id s'))
    (with_tapes σ (<[self := SolveTape.mk (SolveTape.record_trajectories t)
                                          (SolveTape.solves t ++ [r])
                                          (SolveTape.solve_ids t)]> (tape_objects σ)) [])
  = (Return tt, recorded σ self t r (Solve.id s) []).
Proof.
  intros Ht Hs.
  erewrite bind_run_Return; [|unfold read_solve; simpl; rewrite Hs; reflexivity].
  erewrite solve_ids_append_outcome; [|simpl; apply lookup_insert_eq].
  unfold with_tapes, recorded, appended. simpl.
  by rewrite insert_insert_eq, !app_nil_r.
Qed.

(** X5: Whatever its outcome, [_add] changes one tape only, appends to it at
    most, and keeps [solves] and [solve_ids] of the same length: both grow by
    one entry when it returns, neither changes when it raises.  The [Solve]
    objects, the mode of the tape and the list of active tapes stay as they
    are. *)
Theorem add_keeps_solves_and_ids_aligned (σ σ' : State) (self solve : loc) (trj : bool)
    (result : SolveInfo) (t : SolveTape) (o : Outcome (Exn F X) unit) :
  tape_objects σ !! self = Some t ->
  aligned t ->
  is_Some (solve_objects σ !! solve) ->
  _add self solve trj result σ = (o, σ') ->
  exists t' : SolveTape,
    tape_objects σ' = <[self := t']> (tape_objects σ)
    /\ aligned t'
    /\ SolveTape.record_trajectories t' = SolveTape.record_trajectories t
    /\ solve_objects σ' = solve_objects σ
    /\ _SOLVE_TAPES σ' = _SOLVE_TAPES σ
    /\ match o with
       | Return _ => exists r id, SolveTape.solves t' = SolveTape.solves t ++ [r]
                                  /\ SolveTape.solve_ids t' = SolveTape.solve_ids t ++ [id]
       | Raise _ => t' = t
       end.
Proof.
  intros Ht Hal [s Hs] Hrun. unfold _add in Hrun.
  erewrite bind_run_Return in Hrun; [|unfold read_tape; rewrite Ht; reflexivity].
  assert (Hsame : forall (σw : State) (e : Exn F X),
            tape_objects σw = tape_objects σ -> solve_objects σw = solve_objects σ ->
            _SOLVE_TAPES σw = _SOLVE_TAPES σ ->
            (o, σ') = (Raise e, σw) ->
            exists t' : SolveTape,
              tape_objects σ' = <[self := t']> (tape_objects σ)
              /\ aligned t'
              /\ SolveTape.record_trajectories t' = SolveTape.record_trajectories t
              /\ solve_objects σ' = solve_objects σ
              /\ _SOLVE_TAPES σ' = _SOLVE_TAPES σ
              /\ match o with
                 | Return _ => exists r id, SolveTape.solves t' = SolveTape.solves t ++ [r]
                                  /\ SolveTape.solve_ids t' = SolveTape.solve_ids t ++ [id]
                 | Raise _ => t' = t
                 end).
  { intros σw e H1 H2 H3 [= -> ->]. exists t. rewrite insert_id by done. by split_and!. }
  destruct (any_same_id (SolveTape.solves t) solve σ) as [[dup|e] σa] eqn:Hdup;
    pose proof (read_only_run _ _ _ _ (read_only_any_same_id _ _) Hdup) as ->.
  2:{ erewrite bind_run_Raise in Hrun; [|exact Hdup]. symmetry in Hrun.
      by apply (Hsame σ e). }
  erewrite bind_run_Return in Hrun; [|exact Hdup].
  set (ws := if dup then [duplicate_warning] else []).
  erewrite (bind_run_Return _ _ σ (with_warnings σ ws)) in Hrun.
  2:{ subst ws. destruct dup; [reflexivity|]. unfold ret. by rewrite with_warnings_nil. }
  assert (Hdone : forall r : SolveInfo,
            (o, σ') = (Return tt, recorded (with_warnings σ ws) self t r (Solve.id s) []) ->
            exists t' : SolveTape,
              tape_objects σ' = <[self := t']> (tape_objects σ)
              /\ aligned t'
              /\ SolveTape.record_trajectories t' = SolveTape.record_trajectories t
              /\ solve_objects σ' = solve_objects σ
              /\ _SOLVE_TAPES σ' = _SOLVE_TAPES σ
              /\ match o with
                 | Return _ => exists r id, SolveTape.solves t' = SolveTape.solves t ++ [r]
                                  /\ SolveTape.solve_ids t' = SolveTape.solve_ids t ++ [id]
                 | Raise _ => t' = t
                 end).
  { intros r [= -> ->]. exists (appended t r (Solve.id s)). split_and!; try done.
    - unfold aligned, appended. simpl. rewrite !length_app. simpl. by rewrite Hal.
    - by exists r, (Solve.id s). }
  assert (Htail : forall r : SolveInfo,
            bind (solves_append self r)
                 (fun _ => s' <- read_solve solve ;; solve_ids_append self (Solve.id s'))
                 (with_warnings σ ws)
            = (Return tt, recorded (with_warnings σ ws) self t r (Solve.id s) [])).
  { intros r.
    erewrite bind_run_Return;
      [|exact (solves_append_outcome (with_warnings σ ws) self t r Ht)].
    exact (register_after_append (with_warnings σ ws) self solve t s r Ht Hs). }
  destruct (SolveTape.record_trajectories t) eqn:Hrec; [destruct trj|destruct trj].
  - apply (Hdone result). rewrite <- Hrun, <- (Htail result). reflexivity.
  - symmetry in Hrun. by apply (Hsame (with_warnings σ ws) (AssertionError "Solve did not record a trajectory.")).
  - destruct (snapshot result (-1) (with_warnings σ ws)) as [[last|e] σs] eqn:Hsnap;
      pose proof (read_only_run _ _ _ _ (read_only_snapshot _ _) Hsnap) as ->.
    + apply (Hdone last). rewrite <- Hrun, <- (Htail last).
      unfold bind at 1 3. unfold bind at 1. by rewrite Hsnap.
    + symmetry in Hrun. apply (Hsame (with_warnings σ ws) e); try done.
      rewrite Hrun. unfold bind at 1. unfold bind at 1. by rewrite Hsnap.
  - apply (Hdone result). rewrite <- Hrun, <- (Htail result). reflexivity.
Qed.

(** *** All active tapes *)




End RecordingFacts.

(** ** More on the convergence check *)

Section MoreCheckFacts.
Context {F X Nest Arg : Type} `{!Scalar F} `{!PhiTree F X Nest}.

Local Abbreviation M := (M F X Arg).
Local Abbreviation State := (State F X Arg).
Local Abbreviation Solve := (Solve.t F X Arg).
Local Abbreviation SolveInfo := (SolveInfo.t F X).
Local Abbreviation SolveTape := (SolveTape.t F X).


(** X3: What the check can do.  When it returns, it has emitted at most two
    warnings, each a [ConvergenceWarning] with the message of the result, and
    none unless it only warns.  It raises [Diverged] or [NotConverged] only
    when it does not only warn, for a failure that holds and whose class the
    [Solve] of the result does not suppress; the exception carries the result
    and the state is as before.  Nothing but the list of emitted warnings ever
    changes. *)
Theorem convergence_check_reports_unsuppressed_failures_only (self : SolveInfo)
    (only_warn : bool) (σ : State) :
  match convergence_check self only_warn σ with
  | (Return _, σ') =>
      same_objects σ σ'
      /\ exists ws : list Warning,
           emitted σ' = emitted σ ++ ws
           /\ length ws <= 2
           /\ (only_warn = false -> ws = [])
           /\ Forall (fun w => w = mkWarning (SolveInfo.msg self) ConvergenceWarning) ws
  | (Raise (ConvergenceError cls result), σ') =>
      only_warn = false
      /\ result = self
      /\ σ' = σ
      /\ exists s : Solve,
           solve_objects σ !! SolveInfo.solve self = Some s
           /\ (cls ∉ Solve.suppress s)
           /\ ((cls = Diverged /\ has_diverged self = true)
               \/ (cls = NotConverged /\ has_not_converged self = true))
  | (Raise _, σ') => same_objects σ σ'
  end.
Proof.
  unfold convergence_check.
  destruct (all_available [SolveInfo.diverged self; SolveInfo.converged self]) eqn:Ha;
    simpl.
  2:{ split; [by repeat split|]. exists []. rewrite app_nil_r.
      split_and!; [done|simpl; lia|done|constructor]. }
  unfold has_diverged, has_not_converged, final_converged.
  destruct (tensor_any (SolveInfo.diverged self)) eqn:Hd,
           (dim_getitem trajectory (-1) (SolveInfo.converged self)) as [final|] eqn:Hf,
           only_warn,
           (solve_objects σ !! SolveInfo.solve self) as [s|] eqn:Hs;
    try destruct (tensor_all final) eqn:Hc;
    try destruct (bool_decide (Diverged ∉ Solve.suppress s)) eqn:H1;
    try destruct (bool_decide (NotConverged ∉ Solve.suppress s)) eqn:H2;
    unfold bind, trajectory_getitem, read_solve, warnings_warn, ret, raise; simpl;
    rewrite ?Hs; simpl; try rewrite H1; simpl; rewrite ?Hf; simpl; try rewrite Hc; simpl;
    rewrite ?Hs; simpl; try rewrite H2; simpl;
    try (by repeat split);
    try (split; [by repeat split|];
         first [ exists []; rewrite app_nil_r;
                 split_and!; [done|simpl; lia|done|constructor]
               | exists [mkWarning (SolveInfo.msg self) ConvergenceWarning];
                 split; [done|]; split; [simpl; lia|]; split; [done|]; by repeat constructor
               | exists [mkWarning (SolveInfo.msg self) ConvergenceWarning;
                         mkWarning (SolveInfo.msg self) ConvergenceWarning];
                 split; [by rewrite <- app_assoc|]; split; [simpl; lia|];
                 split; [done|]; by repeat constructor ]);
    try (split_and!; try done; exists s; split_and!; try done;
         [ by apply (bool_decide_eq_true_1 _)
         | first [ by left | by right ] ]).
Qed.


End MoreCheckFacts.

(** ** More on [Solve] objects and the dispatchers *)

Section MoreSolveFacts.
Context {Native : Type -> Type} {F X Nest Arg Matrix : Type}.
Context `{!Scalar F} `{!PhiTree F X Nest} `{!ShapeAlgebra Native F X Arg Matrix}.

Local Abbreviation M := (M F X Arg).
Local Abbreviation State := (State F X Arg).
Local Abbreviation Solve := (Solve.t F X Arg).
Local Abbreviation SolveInfo := (SolveInfo.t F X).
Local Abbreviation Backend := (Backend.t Native F X Arg Matrix).

(** X1: The constructor either fails its assertion on [suppress], before
    anything has changed, or allocates one new object: its tolerances are
    tensors, its iteration budget holds 32-bit values, and its [id] is a new
    token, different from the [id] of every [Solve] object that existed.
    Existing objects, tapes and warnings are left alone. *)
Theorem constructor_draws_an_unused_id (method : string)
    (relative_tolerance absolute_tolerance : Number F) (max_iterations : IntNumber)
    (x0 : option X) (suppress : list PyClass)
    (preprocess_y : option (FunctionObject F X Arg)) (preprocess_y_args : list Arg)
    (gradient : option loc) (σ : State) :
  ids_issued σ ->
  match Solve__init__ method relative_tolerance absolute_tolerance max_iterations x0
                      suppress preprocess_y preprocess_y_args gradient σ with
  | (Return l, σ') =>
      forallb issubclass_ConvergenceException suppress = true
      /\ solve_objects σ !! l = None
      /\ (exists s : Solve,
            solve_objects σ' = <[l := s]> (solve_objects σ)
            /\ constructed s
            /\ (forall (l' : loc) (s' : Solve),
                  solve_objects σ !! l' = Some s' -> Solve.id s' <> Solve.id s)
            /\ Solve.relative_tolerance s = PyTensor (to_float_wrap relative_tolerance)
            /\ Solve.absolute_tolerance s = to_float_wrap absolute_tolerance
            /\ Solve.x0 s = x0
            /\ Solve._gradient_solve s = gradient)
      /\ ids_issued σ'
      /\ tape_objects σ' = tape_objects σ
      /\ _SOLVE_TAPES σ' = _SOLVE_TAPES σ
      /\ emitted σ' = emitted σ
  | (Raise e, σ') =>
      e = AssertionError ""
      /\ σ' = σ
      /\ forallb issubclass_ConvergenceException suppress = false
  end.
Proof.
  intros Hids. unfold Solve__init__, bind, py_assert.
  destruct (forallb issubclass_ConvergenceException suppress) eqn:Hsup; simpl; [|done].
  split_and!; try done.
  - apply not_elem_of_dom, is_fresh.
  - eexists. split; [reflexivity|]. split_and!; simpl; try done.
    + split_and!; simpl.
      * by eexists.
      * destruct max_iterations as [z|t]; simpl.
        -- by rewrite int32_idempotent.
        -- rewrite <- list_fmap_compose. apply list_fmap_ext. intros i z _. simpl.
           apply int32_idempotent.
      * exact Hsup.
    + intros l' s' Hl' Heq. apply (is_fresh (issued_ids σ)). rewrite <- Heq.
      exact (Hids l' s' Hl').
  - unfold ids_issued. simpl. apply map_Forall_insert_2.
    + simpl. apply elem_of_union_l, elem_of_singleton. reflexivity.
    + intros l' s' Hl'. simpl. apply elem_of_union_r. exact (Hids l' s' Hl').
Qed.

(** X11: [solve_nonlinear] cannot get past the first assertion of [minimize]:
    the copy it makes holds the Python number [0] as its relative tolerance,
    and [(0 == 0).all] is an AttributeError.  So every call raises: the
    exception of [preprocess_y] when that fails, this AttributeError
    otherwise, with the copy left allocated and the backend never called. *)
Theorem solve_nonlinear_stops_at_the_tolerance_check (f : Callable F X Arg) (y : X)
    (solve : loc) (σ : State) (s : Solve) :
  solve_objects σ !! solve = Some s ->
  solve_nonlinear f y solve σ
  = match preprocessed s y with
    | Return y' =>
        (Raise (AttributeError "'bool' object has no attribute 'all'"),
         with_solve σ (fresh (dom (solve_objects σ))) (min_solve_of s y'))
    | Raise e => (Raise e, σ)
    end.
Proof.
  intros Hs. unfold solve_nonlinear, preprocessed.
  erewrite bind_run_Return; [|unfold read_solve; rewrite Hs; reflexivity].
  destruct (Solve.preprocess_y s) as [p|] eqn:Hp.
  - destruct (fn_call (fn p) [y] [] ∅) as [y'|e] eqn:Hcall.
    + erewrite bind_run_Return; [|reflexivity].
      erewrite bind_run_Return; [|unfold read_solve; rewrite Hs; reflexivity].
      unfold copy_with.
      erewrite bind_run_Return;
        [|erewrite bind_run_Return; [reflexivity|unfold read_solve; rewrite Hs; reflexivity]].
      unfold minimize, minimize_result.
      erewrite bind_run_Raise; [reflexivity|].
      erewrite bind_run_Return;
        [|unfold read_solve; simpl; rewrite lookup_insert_eq; reflexivity].
      erewrite bind_run_Raise; reflexivity.
    + erewrite bind_run_Raise; reflexivity.
  - erewrite bind_run_Return; [|reflexivity].
    erewrite bind_run_Return; [|unfold read_solve; rewrite Hs; reflexivity].
    unfold copy_with.
    erewrite bind_run_Return;
      [|erewrite bind_run_Return; [reflexivity|unfold read_solve; rewrite Hs; reflexivity]].
    unfold minimize, minimize_result.
    erewrite bind_run_Raise; [reflexivity|].
    erewrite bind_run_Return;
      [|unfold read_solve; simpl; rewrite lookup_insert_eq; reflexivity].
    erewrite bind_run_Raise; reflexivity.
Qed.

(** X12: How [solve_linear] dispatches once its assertion has passed.  With a
    [LinearFunction] on a backend that supports sparse matrices it builds the
    matrix and runs the matrix solve for [y - bias]; otherwise it runs the
    matrix-free solve on the cached [Solve].  Either way the solve is a forward
    solve ([is_backprop] is [False]), [f] gets the keyword arguments given
    directly on top of those of [f_kwargs], and a single tuple of positional
    arguments stands for its elements. *)
Theorem solve_linear_dispatch (f : LinearCallable F X Arg) (y : X) (solve : loc)
    (f_args : list Arg) (f_kwargs : option (gmap string Arg)) (f_kwargs_ : gmap string Arg)
    (σ : State) (s : Solve) :
  solve_objects σ !! solve = Some s ->
  length (snd (disassemble_tree (Solve.x0 s))) = 1 ->
  length (snd (disassemble_tree (Some y))) = 1 ->
  let backend := choose_backend_t (snd (disassemble_tree (Some y))
                                     ++ snd (disassemble_tree (Solve.x0 s))) false in
  let kwargs := f_kwargs_ ∪ default ∅ f_kwargs in
  solve_linear f y solve f_args f_kwargs f_kwargs_ σ
  = match sparse_matrix_and_bias f,
          Backend.supports_sparse_coo_tensor backend || Backend.supports_csr_matrix backend
    with
    | Some matrix_and_bias, true =>
        match matrix_and_bias (Solve.x0 s) (unpacked f_args) kwargs with
        | Return (matrix, bias) =>
            _matrix_solve_forward backend (tree_sub y bias) solve matrix false σ
        | Raise e => (Raise e, σ)
        end
    | _, _ =>
        (solve' <- cached_solve solve ;;
         _function_solve_forward (linear_fn f) backend y solve' (cached_args (unpacked f_args))
                                 kwargs false) σ
    end.
Proof.
  intros Hs Hx0 Hy backend kwargs. unfold solve_linear.
  erewrite bind_run_Return; [|unfold read_solve; rewrite Hs; reflexivity].
  rewrite Hx0, Hy. simpl.
  erewrite bind_run_Return; [|reflexivity].
  fold backend. fold kwargs. fold (unpacked f_args).
  destruct (sparse_matrix_and_bias f) as [matrix_and_bias|];
    destruct (Backend.supports_sparse_coo_tensor backend || Backend.supports_csr_matrix backend)
      eqn:Hexplicit.
  - erewrite bind_run_Return; [|unfold read_solve; rewrite Hs; reflexivity].
    destruct (matrix_and_bias (Solve.x0 s) (unpacked f_args) kwargs) as [[matrix bias]|e].
    + erewrite bind_run_Return; [|reflexivity]. simpl.
      unfold call_wrapped, matrix_solve_forward_bound, is_backprop_of. simpl.
      rewrite lookup_insert_eq.
      rewrite lookup_insert_ne by done. rewrite lookup_insert_eq.
      rewrite !(lookup_insert_ne _ "y") by done.
      rewrite !(lookup_insert_ne _ "solve") by done. rewrite lookup_insert_eq.
      rewrite !(lookup_insert_ne _ "matrix") by done.
      by rewrite lookup_empty.
    + erewrite bind_run_Raise; reflexivity.
  - unfold bind. destruct (cached_solve solve σ) as [[solve'|e] σ1]; [|done]. simpl.
    unfold call_wrapped, function_solve_forward_bound, is_backprop_of. simpl.
    rewrite lookup_insert_eq.
    rewrite lookup_insert_ne by done. rewrite lookup_insert_eq.
    rewrite !(lookup_insert_ne _ "y") by done.
    rewrite !(lookup_insert_ne _ "solve") by done. rewrite lookup_insert_eq.
    rewrite !(lookup_insert_ne _ "f_args") by done.
    rewrite lookup_singleton_eq, lookup_singleton_ne by done. reflexivity.
  - unfold bind. destruct (cached_solve solve σ) as [[solve'|e] σ1]; [|done]. simpl.
    unfold call_wrapped, function_solve_forward_bound, is_backprop_of. simpl.
    rewrite lookup_insert_eq.
    rewrite lookup_insert_ne by done. rewrite lookup_insert_eq.
    rewrite !(lookup_insert_ne _ "y") by done.
    rewrite !(lookup_insert_ne _ "solve") by done. rewrite lookup_insert_eq.
    rewrite !(lookup_insert_ne _ "f_args") by done.
    rewrite lookup_singleton_eq, lookup_singleton_ne by done. reflexivity.
  - unfold bind. destruct (cached_solve solve σ) as [[solve'|e] σ1]; [|done]. simpl.
    unfold call_wrapped, function_solve_forward_bound, is_backprop_of. simpl.
    rewrite lookup_insert_eq.
    rewrite lookup_insert_ne by done. rewrite lookup_insert_eq.
    rewrite !(lookup_insert_ne _ "y") by done.
    rewrite !(lookup_insert_ne _ "solve") by done. rewrite lookup_insert_eq.
    rewrite !(lookup_insert_ne _ "f_args") by done.
    rewrite lookup_singleton_eq, lookup_singleton_ne by done. reflexivity.
Qed.

End MoreSolveFacts.

(** ** Flattening and unflattening the unknowns of [minimize] *)

Section FlatteningFacts.
Context {Native : Type -> Type} {F X Nest Arg Matrix : Type}.
Context `{!Scalar F} `{!PhiTree F X Nest} `{!ShapeAlgebra Native F X Arg Matrix}.

Local Abbreviation M := (M F X Arg).
Local Abbreviation State := (State F X Arg).
Local Abbreviation Backend := (Backend.t Native F X Arg Matrix).

Lemma flat_size_app (backend : Backend) (l1 l2 : list (Native F)) :
  flat_size backend (l1 ++ l2) = flat_size backend l1 + flat_size backend l2.
Proof. induction l1 as [|n l1 IH]; simpl; [done|]. rewrite IH. lia. Qed.

Lemma for_list_lift_Forall2 {A B} (g : A -> Outcome (Exn F X) B) (l : list A) (bs : list B)
    (σ σ' : State) :
  for_list l (fun a => lift (g a)) σ = (Return bs, σ') ->
  Forall2 (fun a b => g a = Return b) l bs.
Proof.
  revert bs σ'. induction l as [|a l IH]; intros bs σ' H; simpl in H.
  - unfold ret in H. injection H as <- _. constructor.
  - apply bind_read_only_inv in H as (b & Hb & H); [|read_only].
    apply bind_read_only_inv in H as (bs' & Hbs & H); [|read_only].
    unfold ret in H. injection H as <- _. constructor; [|by eapply IH].
    unfold lift in Hb. by injection Hb.
Qed.

Lemma unflatten_concat (backend : Backend) (batch_dims : Shape) (x_flat : Native F)
    (all_natives : list (Native F)) (σ : State) (tensors : list (Tensor F))
    (natives before : list (Native F)) :
  Forall2 (fun t n => reshaped_tensor n [batch_dims; non_batch_dims_of (shape t)] true
                      = Return t) tensors natives ->
  all_natives = before ++ natives ->
  (forall (pre : list (Native F)) (n : Native F) (post : list (Native F)),
      all_natives = pre ++ n :: post ->
      native_slice_last x_flat (flat_size backend pre)
                        (flat_size backend pre + Backend.shape_last backend n) = n) ->
  unflatten backend batch_dims x_flat [] true (flat_size backend before) (zip natives tensors) σ
  = (Return tensors, σ).
Proof.
  intros Hall. revert before.
  induction Hall as [|t n tensors natives Ht Hall IH]; intros before Heq Hslice; [done|].
  simpl. rewrite (Hslice before n natives Heq).
  erewrite bind_run_Return; [|unfold lift; rewrite Ht; reflexivity].
  replace (flat_size backend before + Backend.shape_last backend n)
    with (flat_size backend (before ++ [n]))
    by (rewrite flat_size_app; simpl; lia).
  erewrite bind_run_Return; [reflexivity|].
  apply IH; [|exact Hslice]. by rewrite <- app_assoc.
Qed.

(** X9: Flattening and unflattening are inverse to each other, given that the
    tensor library is: when slicing the concatenated vector at the sizes of
    its parts gives the parts back, when [reshaped_tensor] undoes
    [reshaped_native] on the tensors of [x0], and when assembling the tensors
    of [x0] gives [x0], then [unflatten_assemble] applied to the flat initial
    guess returns [x0].  The pieces are cut in the order and at the positions
    at which [concat] has put them. *)
Theorem unflatten_assemble_undoes_flattening (backend : Backend) (x0_nest : Nest)
    (x0_tensors : list (Tensor F)) (batch_dims : Shape) (x0_natives : list (Native F))
    (x0 : X) (σ : State) :
  for_list x0_tensors
    (fun t => lift (reshaped_native t [batch_dims; non_batch_dims_of (shape t)] true)) σ
    = (Return x0_natives, σ) ->
  (forall (pre : list (Native F)) (n : Native F) (post : list (Native F)),
      x0_natives = pre ++ n :: post ->
      native_slice_last (Backend.concat backend x0_natives (-1)) (flat_size backend pre)
                        (flat_size backend pre + Backend.shape_last backend n) = n) ->
  (forall (t : Tensor F) (n : Native F),
      t ∈ x0_tensors ->
      reshaped_native t [batch_dims; non_batch_dims_of (shape t)] true = Return n ->
      reshaped_tensor n [batch_dims; non_batch_dims_of (shape t)] true = Return t) ->
  assemble_tree x0_nest x0_tensors = x0 ->
  unflatten_assemble backend x0_nest x0_natives x0_tensors batch_dims
                     (Backend.concat backend x0_natives (-1)) [] true σ
  = (Return x0, σ).
Proof.
  intros Hnatives Hslice Hreshape Htree.
  apply for_list_lift_Forall2 in Hnatives.
  assert (Hback : Forall2 (fun t n => reshaped_tensor n [batch_dims;
                                        non_batch_dims_of (shape t)] true = Return t)
                          x0_tensors x0_natives).
  { clear Hslice Htree. induction Hnatives as [|t n ts ns Ht Hall IH]; constructor.
    - apply Hreshape; [by left|exact Ht].
    - apply IH. intros t' n' Hin. apply Hreshape. by right. }
  unfold unflatten_assemble.
  erewrite bind_run_Return;
    [|exact (unflatten_concat backend batch_dims _ x0_natives σ x0_tensors x0_natives []
               Hback eq_refl Hslice)].
  unfold ret. by rewrite Htree.
Qed.

End FlatteningFacts.

(** ** What the dispatchers put into a result *)

Section MoreResultFacts.
Context {Native : Type -> Type} {F X Nest Arg Matrix : Type}.
Context `{!Scalar F} `{!PhiTree F X Nest} `{!ShapeAlgebra Native F X Arg Matrix}.

Local Abbreviation M := (M F X Arg).
Local Abbreviation State := (State F X Arg).
Local Abbreviation Solve := (Solve.t F X Arg).
Local Abbreviation SolveInfo := (SolveInfo.t F X).
Local Abbreviation Backend := (Backend.t Native F X Arg Matrix).
Local Abbreviation SolveResult := (SolveResult.t Native F).

Lemma SolveInfo__init__fields (solve : loc) (x : X) (residual : option X)
    (iterations function_evaluations : option (Tensor Z)) (converged diverged : Tensor bool)
    (method msg : string) (solve_time : F) (σ σ' : State) (info : SolveInfo) :
  SolveInfo__init__ solve x residual iterations function_evaluations converged diverged
                    method msg solve_time σ = (Return info, σ') ->
  σ' = σ
  /\ info = SolveInfo.mk solve x residual iterations function_evaluations converged diverged
                         method (SolveInfo.msg info) solve_time.
Proof.
  intros H.
  pose proof (read_only_run _ _ _ _ (read_only_SolveInfo__init__ _ _ _ _ _ _ _ _ _ _) H) as ->.
  split; [done|]. unfold SolveInfo__init__ in H.
  apply bind_Return_inv in H as (msg' & σ1 & _ & H). unfold ret in H. by injection H as <- _.
Qed.


Lemma getitem_last {A} (l : list A) (a : A) (σ σ' : State) :
  getitem l (-1) σ = (Return a, σ') -> last l = Some a /\ σ' = σ.
Proof.
  unfold getitem, py_getitem, py_index. rewrite last_lookup.
  rewrite bool_decide_eq_false_2 by lia.
  destruct (bool_decide (- Z.of_nat (length l) <= -1 < 0)%Z) eqn:Hn; simpl; [|done].
  replace (Z.to_nat (Z.of_nat (length l) + -1)) with (pred (length l)) by lia.
  destruct (l !! pred (length l)); [|done]. unfold ret. by intros [= -> ->].
Qed.

(** X13: The residual of a linear solve without trajectory.  When the backend
    reports one, that is the residual of the result.  When it reports none,
    the residual is rebuilt as [linear(x) - y] if some tape is active when the
    backend returns, and is [None] otherwise; a result without residual has
    no snapshot. *)
Theorem linear_residual_is_rebuilt_only_under_a_tape (y : X) (solve : loc)
    (native_lin_op : LinearOperator Native F X Arg Matrix)
    (pattern_dims_in pattern_dims_out : list string) (backend : Backend)
    (σ σ1 : State) (x : X) (result : SolveInfo) :
  _linear_solve_forward_result y solve native_lin_op pattern_dims_in pattern_dims_out
                               backend σ = (Return (false, (x, result)), σ1) ->
  exists (method : string) (y_native x0_native rtol atol : Native F) (maxi : Native Z)
         (r : SolveResult) (σb : State) (groups : list Shape) (y_nest : Nest),
    Backend.linear_solve backend method native_lin_op y_native x0_native rtol atol maxi
                         false σ = (Return (OneResult r), σb)
    /\ match SolveResult.residual r, _SOLVE_TAPES σb with
       | Some native_residual, _ =>
           σ1 = σb
           /\ exists t : Tensor F,
                reshaped_tensor native_residual groups true = Return t
                /\ SolveInfo.residual result = Some (assemble_tree y_nest [t])
       | None, _ :: _ =>
           exists (applied : Native F) (t : Tensor F),
             Backend.linear backend native_lin_op (SolveResult.x r) σb = (Return applied, σ1)
             /\ reshaped_tensor (native_sub applied y_native) groups true = Return t
             /\ SolveInfo.residual result = Some (assemble_tree y_nest [t])
       | None, [] =>
           σ1 = σb
           /\ SolveInfo.residual result = None
           /\ forall (index : Z) (σ' : State),
                exists e : Exn F X, snapshot result index σ' = (Raise e, σ')
       end.
Proof.
  intros H. unfold _linear_solve_forward_result in H.
  apply bind_read_only_inv in H as (s & Hs & H); [|read_only].
  apply bind_read_only_inv in H as (y' & _ & H); [|read_only].
  apply bind_read_only_inv in H as (y_pair & _ & H); [|unfold single_tensor; read_only].
  apply bind_read_only_inv in H as (s' & Hs' & H); [|read_only].
  apply bind_read_only_inv in H as (x0_pair & Hx0 & H); [|unfold single_tensor; read_only].
  apply bind_read_only_inv in H as (batch_dims & _ & H); [|read_only].
  apply bind_read_only_inv in H as (x0_reshaped & _ & H); [|read_only].
  apply bind_read_only_inv in H as (y_reshaped & _ & H); [|read_only].
  apply bind_read_only_inv in H as (s'' & Hs'' & H); [|read_only].
  apply bind_read_only_inv in H as (rtol & _ & H); [|read_only].
  apply bind_read_only_inv in H as (atol & _ & H); [|read_only].
  apply bind_read_only_inv in H as (maxi & _ & H); [|read_only].
  apply bind_read_only_inv in H as (σ' & Hσ' & H); [|read_only].
  injection Hσ' as <-.
  apply bind_read_only_inv in H as (trj & _ & H); [|read_only].
  apply bind_read_only_inv in H as (? & _ & H); [|read_only].
  apply bind_read_only_inv in H as (t0 & _ & H); [|read_only].
  apply bind_Return_inv in H as (ret_ & σb & Hbackend & H).
  apply bind_read_only_inv in H as (t1 & _ & H); [|read_only].
  apply bind_Return_inv in H as ([x' result'] & σc & Hres & H).
  injection H as -> -> -> ->. simpl in Hres.
  destruct ret_ as [r| |]; [|discriminate..].
  apply bind_read_only_inv in Hres as (converged & _ & Hres); [|read_only].
  apply bind_read_only_inv in Hres as (diverged & _ & Hres); [|read_only].
  apply bind_read_only_inv in Hres as (x_tensor & Hx & Hres); [|read_only].
  apply bind_read_only_inv in Hres as (iterations & _ & Hres); [|read_only].
  apply bind_read_only_inv in Hres as (evaluations & _ & Hres); [|read_only].
  apply bind_Return_inv in Hres as (residual & σd & Hresidual & Hres).
  apply bind_read_only_inv in Hres as (result' & Hinit & Hres); [|read_only].
  injection Hres as <- <- <-.
  apply SolveInfo__init__fields in Hinit as [_ Hinit].
  eexists _, _, _, _, _, _, r, σb, _, _. split; [exact Hbackend|].
  destruct (SolveResult.residual r) as [native_residual|].
  - apply bind_read_only_inv in Hresidual as (t & Ht & Hresidual); [|read_only].
    unfold ret in Hresidual. injection Hresidual as <- <-. split; [done|].
    exists t. unfold lift in Ht. injection Ht as Ht. split; [exact Ht|].
    by rewrite Hinit.
  - apply bind_read_only_inv in Hresidual as (σe & Hσe & Hresidual); [|read_only].
    injection Hσe as <-.
    destruct (_SOLVE_TAPES σb) as [|tape tapes].
    + unfold ret in Hresidual. injection Hresidual as <- <-.
      split; [done|]. split; [by rewrite Hinit|].
      intros index σ'. unfold snapshot. rewrite Hinit. simpl.
      unfold bind, lift, raise.
      destruct (tree_trajectory _ index) as [xi|e]; by eexists.
    + apply bind_Return_inv in Hresidual as (applied & σf & Happlied & Hresidual).
      apply bind_read_only_inv in Hresidual as (t & Ht & Hresidual); [|read_only].
      unfold ret in Hresidual. injection Hresidual as <- <-.
      exists applied, t. split; [exact Happlied|].
      unfold lift in Ht. injection Ht as Ht. split; [exact Ht|]. by rewrite Hinit.
Qed.

Lemma stack_trajectory_Return {A} (tensors : list (Tensor A)) (t : Tensor A)
    (σ σ' : State) :
  stack_trajectory tensors σ = (Return t, σ') -> stack_tensors trajectory tensors = Some t.
Proof.
  unfold stack_trajectory. destruct (stack_tensors trajectory tensors); [|done].
  unfold ret. by intros [= ->].
Qed.

Lemma lift_Return {A} (o : Outcome (Exn F X) A) (a : A) (σ σ' : State) :
  lift o σ = (Return a, σ') -> o = Return a.
Proof. unfold lift. by intros [= ->]. Qed.

(** X14: A linear solve that records a trajectory.  The backend has reported a
    non-empty sequence of steps and has been given a concrete initial guess.
    The [x] that is returned, and the flags [converged] and [diverged], the
    iteration count and the method of the result are those of the last step
    alone; only [x] of the result (like its residual and its count of
    function evaluations) is stacked from all steps along [trajectory]. *)
Theorem recorded_linear_solve_reports_the_last_step (y : X) (solve : loc)
    (native_lin_op : LinearOperator Native F X Arg Matrix)
    (pattern_dims_in pattern_dims_out : list string) (backend : Backend)
    (σ σ1 : State) (x : X) (result : SolveInfo) :
  _linear_solve_forward_result y solve native_lin_op pattern_dims_in pattern_dims_out
                               backend σ = (Return (true, (x, result)), σ1) ->
  exists (s : Solve) (x0_tensor : Tensor F) (y_native x0_native rtol atol : Native F)
         (maxi : Native Z) (rs : list SolveResult) (final : SolveResult)
         (batch_dims : Shape),
    let x0_nest := fst (disassemble_tree (Solve.x0 s)) in
    let pattern_in := only (shape x0_tensor) pattern_dims_in in
    solve_objects σ !! solve = Some s
    /\ snd (disassemble_tree (Solve.x0 s)) = [x0_tensor]
    /\ available x0_tensor = true
    /\ Backend.linear_solve backend (Solve.method s) native_lin_op y_native x0_native rtol
                            atol maxi true σ = (Return (ResultSequence rs), σ1)
    /\ last rs = Some final
    /\ reshaped_tensor (SolveResult.converged final) [batch_dims] true
       = Return (SolveInfo.converged result)
    /\ reshaped_tensor (SolveResult.diverged final) [batch_dims] true
       = Return (SolveInfo.diverged result)
    /\ (exists iterations : Tensor Z,
          reshaped_tensor (SolveResult.iterations final) [batch_dims] true = Return iterations
          /\ SolveInfo.iterations result = Some iterations)
    /\ SolveInfo.method result = SolveResult.method final
    /\ (exists x_tensor : Tensor F,
          reshaped_tensor (SolveResult.x final) [batch_dims; pattern_in] true = Return x_tensor
          /\ x = assemble_tree x0_nest [x_tensor])
    /\ (exists (xs : list (Tensor F)) (x_stacked : Tensor F),
          Forall2 (fun r t => reshaped_tensor (SolveResult.x r) [batch_dims; pattern_in] true
                              = Return t) rs xs
          /\ stack_tensors trajectory xs = Some x_stacked
          /\ SolveInfo.x result = assemble_tree x0_nest [x_stacked]).
Proof.
  intros H. unfold _linear_solve_forward_result in H.
  apply bind_read_only_inv in H as (s & Hs & H); [|read_only].
  apply bind_read_only_inv in H as (y' & _ & H); [|read_only].
  apply bind_read_only_inv in H as (y_pair & _ & H); [|unfold single_tensor; read_only].
  apply bind_read_only_inv in H as (s' & Hs' & H); [|read_only].
  apply bind_read_only_inv in H as (x0_pair & Hx0 & H); [|unfold single_tensor; read_only].
  apply bind_read_only_inv in H as (batch_dims & _ & H); [|read_only].
  apply bind_read_only_inv in H as (x0_reshaped & _ & H); [|read_only].
  apply bind_read_only_inv in H as (y_reshaped & _ & H); [|read_only].
  apply bind_read_only_inv in H as (s'' & Hs'' & H); [|read_only].
  apply bind_read_only_inv in H as (rtol & _ & H); [|read_only].
  apply bind_read_only_inv in H as (atol & _ & H); [|read_only].
  apply bind_read_only_inv in H as (maxi & _ & H); [|read_only].
  apply bind_read_only_inv in H as (σ' & Hσ' & H); [|read_only].
  injection Hσ' as <-.
  apply bind_read_only_inv in H as (trj & _ & H); [|read_only].
  apply bind_read_only_inv in H as (? & Hassert & H); [|read_only].
  apply bind_read_only_inv in H as (t0 & _ & H); [|read_only].
  apply bind_Return_inv in H as (ret_ & σb & Hbackend & H).
  apply bind_read_only_inv in H as (t1 & _ & H); [|read_only].
  apply bind_Return_inv in H as ([x' result'] & σc & Hres & H).
  injection H as -> -> -> ->. simpl in Hres.
  destruct ret_ as [|rs|]; [discriminate| |discriminate].
  apply bind_read_only_inv in Hres as (final & Hfinal & Hres); [|read_only].
  apply bind_read_only_inv in Hres as (converged & Hconverged & Hres); [|read_only].
  apply bind_read_only_inv in Hres as (final2 & Hfinal2 & Hres); [|read_only].
  apply bind_read_only_inv in Hres as (diverged & Hdiverged & Hres); [|read_only].
  apply bind_read_only_inv in Hres as (final3 & Hfinal3 & Hres); [|read_only].
  apply bind_read_only_inv in Hres as (x_tensor & Hx & Hres); [|read_only].
  apply bind_read_only_inv in Hres as (xs & Hxs & Hres); [|read_only].
  apply bind_read_only_inv in Hres as (x_stacked & Hstack & Hres); [|read_only].
  apply bind_read_only_inv in Hres as (residuals & _ & Hres); [|read_only].
  apply bind_read_only_inv in Hres as (residual_stacked & _ & Hres); [|read_only].
  apply bind_read_only_inv in Hres as (final4 & Hfinal4 & Hres); [|read_only].
  apply bind_read_only_inv in Hres as (iterations & Hiterations & Hres); [|read_only].
  apply bind_read_only_inv in Hres as (evaluations & _ & Hres); [|read_only].
  apply bind_read_only_inv in Hres as (evaluations_stacked & _ & Hres); [|read_only].
  apply bind_read_only_inv in Hres as (final5 & Hfinal5 & Hres); [|read_only].
  apply bind_read_only_inv in Hres as (result' & Hinit & Hres); [|read_only].
  unfold ret in Hres. injection Hres as <- <- <-.
  apply SolveInfo__init__fields in Hinit as [_ Hinit].
  apply getitem_last in Hfinal as [Hfinal _], Hfinal2 as [Hfinal2 _],
    Hfinal3 as [Hfinal3 _], Hfinal4 as [Hfinal4 _], Hfinal5 as [Hfinal5 _].
  rewrite Hfinal in Hfinal2, Hfinal3, Hfinal4, Hfinal5.
  injection Hfinal2 as <-. injection Hfinal3 as <-. injection Hfinal4 as <-.
  injection Hfinal5 as <-.
  apply lift_Return in Hconverged, Hdiverged, Hx, Hiterations.
  apply for_list_lift_Forall2 in Hxs. apply stack_trajectory_Return in Hstack.
  apply read_solve_Return in Hs, Hs', Hs''. simplify_eq.
  unfold single_tensor, raise, ret in Hx0.
  destruct (snd (disassemble_tree (Solve.x0 s))) as [|x0_tensor [|? ?]] eqn:Hx0_tensors;
    [discriminate| |discriminate].
  injection Hx0 as <-. simpl in *.
  exists s, x0_tensor. eexists _, _, _, _, _, rs, final, batch_dims. simpl.
  split_and!.
  - done.
  - done.
  - unfold py_assert, all_available in Hassert. simpl in Hassert.
    destruct (available (snd y_pair)); simpl in Hassert; [|discriminate].
    by destruct (available x0_tensor).
  - exact Hbackend.
  - done.
  - by rewrite Hinit.
  - by rewrite Hinit.
  - exists iterations. by rewrite Hinit.
  - by rewrite Hinit.
  - by exists x_tensor.
  - exists xs, x_stacked. split_and!; try done. by rewrite Hinit.
Qed.

(** X10: A [minimize] that records a trajectory.  The backend has reported a
    non-empty sequence of steps.  The flags, the iteration count and the
    method of the result, and the [x] that is returned, are those of the last
    step alone; [x] of the result is cut out of the stack of all steps, with
    [trajectory] as an additional dimension whose size is the number of
    steps. *)
Theorem recorded_minimize_reports_the_last_step (f : Callable F X Arg) (solve : loc)
    (σ σ1 : State) (x : X) (result : SolveInfo) :
  minimize_result f solve σ = (Return (true, (x, result)), σ1) ->
  exists (s : Solve) (batch_dims : Shape) (x0_natives : list (Native F))
         (atol : Native F) (maxi : Native Z) (rs : list SolveResult) (final : SolveResult),
    let x0_nest := fst (disassemble_tree (Solve.x0 s)) in
    let x0_tensors := snd (disassemble_tree (Solve.x0 s)) in
    let backend := choose_backend_t x0_tensors true in
    solve_objects σ !! solve = Some s
    /\ Backend.minimize backend (Solve.method s)
         (native_function f backend x0_nest x0_natives x0_tensors batch_dims)
         (Backend.concat backend x0_natives (-1)) atol maxi true σ
       = (Return (ResultSequence rs), σ1)
    /\ last rs = Some final
    /\ reshaped_tensor (SolveResult.converged final) [batch_dims] true
       = Return (SolveInfo.converged result)
    /\ reshaped_tensor (SolveResult.diverged final) [batch_dims] true
       = Return (SolveInfo.diverged result)
    /\ (exists iterations : Tensor Z,
          reshaped_tensor (SolveResult.iterations final) [batch_dims] true = Return iterations
          /\ SolveInfo.iterations result = Some iterations)
    /\ SolveInfo.method result = SolveResult.method final
    /\ unflatten_assemble backend x0_nest x0_natives x0_tensors batch_dims
                          (SolveResult.x final) [] true σ1 = (Return x, σ1)
    /\ unflatten_assemble backend x0_nest x0_natives x0_tensors batch_dims
                          (numpy_stack (SolveResult.x <$> rs))
                          [mkDim trajectory (length rs) BatchDim] false σ1
       = (Return (SolveInfo.x result), σ1).
Proof.
  intros H. unfold minimize_result in H.
  apply bind_read_only_inv in H as (s & Hs & H); [|read_only].
  apply bind_read_only_inv in H as (zero & Hzero & H); [|unfold number_eq_zero_all; read_only].
  apply bind_read_only_inv in H as (? & _ & H); [|read_only].
  apply bind_read_only_inv in H as (? & _ & H); [|read_only].
  apply bind_read_only_inv in H as (merged & Hmerged & H); [|read_only].
  apply bind_read_only_inv in H as (x0_natives & Hnatives & H); [|read_only].
  apply bind_read_only_inv in H as (atol & Hatol & H); [|read_only].
  apply bind_read_only_inv in H as (maxi & Hmaxi & H); [|read_only].
  apply bind_read_only_inv in H as (σ' & Hσ' & H); [|read_only].
  injection Hσ' as <-.
  apply bind_read_only_inv in H as (trj & Htrj & H); [|read_only].
  apply bind_read_only_inv in H as (t0 & Ht0 & H); [|read_only].
  apply bind_Return_inv in H as (ret_ & σb & Hbackend & H).
  apply bind_read_only_inv in H as (t1 & Ht1 & H); [|read_only].
  apply bind_Return_inv in H as ([x' result'] & σc & Hres & H).
  injection H as -> -> -> ->. simpl in Hres.
  destruct ret_ as [|rs|]; [discriminate| |discriminate].
  apply bind_read_only_inv in Hres as (final & Hfinal & Hres); [|read_only].
  apply bind_read_only_inv in Hres as (converged & Hconverged & Hres); [|read_only].
  apply bind_read_only_inv in Hres as (final2 & Hfinal2 & Hres); [|read_only].
  apply bind_read_only_inv in Hres as (diverged & Hdiverged & Hres); [|read_only].
  apply bind_read_only_inv in Hres as (final3 & Hfinal3 & Hres); [|read_only].
  apply bind_read_only_inv in Hres as (x_last & Hx & Hres); [|read_only].
  apply bind_read_only_inv in Hres as (x_all & Hx_all & Hres); [|read_only].
  apply bind_read_only_inv in Hres as (residuals & _ & Hres); [|read_only].
  apply bind_read_only_inv in Hres as (residual_stacked & _ & Hres); [|read_only].
  apply bind_read_only_inv in Hres as (final4 & Hfinal4 & Hres); [|read_only].
  apply bind_read_only_inv in Hres as (iterations & Hiterations & Hres); [|read_only].
  apply bind_read_only_inv in Hres as (evaluations & _ & Hres); [|read_only].
  apply bind_read_only_inv in Hres as (evaluations_stacked & _ & Hres); [|read_only].
  apply bind_read_only_inv in Hres as (final5 & Hfinal5 & Hres); [|read_only].
  apply bind_read_only_inv in Hres as (result' & Hinit & Hres); [|read_only].
  unfold ret in Hres. injection Hres as <- <- <-.
  apply SolveInfo__init__fields in Hinit as [_ Hinit].
  apply getitem_last in Hfinal as [Hfinal _], Hfinal2 as [Hfinal2 _],
    Hfinal3 as [Hfinal3 _], Hfinal4 as [Hfinal4 _], Hfinal5 as [Hfinal5 _].
  rewrite Hfinal in Hfinal2, Hfinal3, Hfinal4, Hfinal5.
  injection Hfinal2 as <-. injection Hfinal3 as <-. injection Hfinal4 as <-.
  injection Hfinal5 as <-.
  apply lift_Return in Hconverged, Hdiverged, Hiterations.
  apply read_solve_Return in Hs.
  exists s, (batch_dims_of merged), x0_natives. eexists _, _, rs, final. simpl.
  split_and!.
  - done.
  - exact Hbackend.
  - done.
  - by rewrite Hinit.
  - by rewrite Hinit.
  - exists iterations. by rewrite Hinit.
  - by rewrite Hinit.
  - exact Hx.
  - by rewrite Hinit.
Qed.

End MoreResultFacts.

(** *** More concrete solves *)

Module MoreExamples.
Import Example Scenario MoreScenario.

(** Two tapes entered and left around the one that is active. *)
Lemma nested_tapes_restore_the_active_list_witness :
  (for_each [2%positive; 3%positive] (fun tape => SolveTape__enter__ tape ;; ret tt) ;;
   for_each [3%positive; 2%positive] SolveTape__exit__) (taped_state false [])
  = (Return tt, taped_state false []).
Proof.
  refine (proj1 (nested_tapes_restore_the_active_list [2%positive; 3%positive]
                   (taped_state false []) _ _)).
  - apply (bool_decide_unpack _). vm_compute. exact I.
  - intros tape Htape Hactive. apply list_elem_of_singleton in Hactive as ->.
    apply elem_of_cons in Htape as [Htape|Htape]; [discriminate Htape|].
    apply list_elem_of_singleton in Htape. discriminate Htape.
Defined.

(** A result recorded for the [Solve] at address 1 is found by its copy at
    address 2. *)
Lemma recorded_result_is_found_by_index_and_by_solve_witness :
  exists σ' : State,
    _add 1%positive 1%positive false diverged_result copied_solve = (Return tt, σ')
    /\ SolveTape__getitem__ 1%positive (SolveKey 2%positive) σ' = (Return diverged_result, σ').
Proof.
  destruct (recorded_result_is_found_by_index_and_by_solve copied_solve 1%positive
              1%positive 2%positive (SolveTape.mk false [] []) (solve_object [])
              (solve_object []) diverged_result)
    as (_ & σ' & Hadd & _ & _ & _ & _ & Hkey).
  - vm_compute. reflexivity.
  - reflexivity.
  - constructor.
  - vm_compute. reflexivity.
  - reflexivity.
  - reflexivity.
  - vm_compute. reflexivity.
  - reflexivity.
  - by exists σ'.
Defined.

(** A tape that records trajectories refuses a result without one and stays
    as it was. *)
Lemma add_keeps_solves_and_ids_aligned_witness :
  exists t' : SolveTape.t F X,
    tape_objects (snd (_add 1%positive 1%positive false diverged_result (taped_state true [])))
    = <[1%positive := t']> (tape_objects (taped_state true []))
    /\ aligned t'.
Proof.
  edestruct (add_keeps_solves_and_ids_aligned (taped_state true [])
               (snd (_add 1%positive 1%positive false diverged_result (taped_state true [])))
               1%positive 1%positive false diverged_result (SolveTape.mk true [] [])
               (fst (_add 1%positive 1%positive false diverged_result (taped_state true []))))
    as (t' & Htapes & Haligned & _).
  - vm_compute. reflexivity.
  - reflexivity.
  - eexists. vm_compute. reflexivity.
  - by destruct (_add 1%positive 1%positive false diverged_result (taped_state true [])).
  - by exists t'.
Defined.





Lemma constructor_draws_an_unused_id_witness :
  exists (l : loc) (σ' : State),
    Solve__init__ "CG" (PyInt 0) (PyInt 1) (PyIntCount 1000) None [NotConverged] None []
                  None (solve_state []) = (Return l, σ')
    /\ ids_issued σ'.
Proof.
  pose proof (constructor_draws_an_unused_id "CG" (PyInt 0) (PyInt 1) (PyIntCount 1000) None
                [NotConverged] None [] None (solve_state [])) as H.
  destruct (Solve__init__ "CG" (PyInt 0) (PyInt 1) (PyIntCount 1000) None [NotConverged]
              None [] None (solve_state [])) as [[l|e] σ'] eqn:Hrun.
  - exists l, σ'. split; [reflexivity|]. apply H.
    apply (bool_decide_unpack _). vm_compute. exact I.
  - vm_compute in Hrun. discriminate Hrun.
Defined.

Lemma solve_nonlinear_stops_at_the_tolerance_check_witness :
  fst (@solve_nonlinear _ _ _ _ _ _ scalar tree (algebra (numpy true false))
         vector_output y 1%positive (solve_state []))
  = Raise (AttributeError "'bool' object has no attribute 'all'").
Proof.
  rewrite (@solve_nonlinear_stops_at_the_tolerance_check _ _ _ _ _ _ scalar tree
             (algebra (numpy true false)) vector_output y 1%positive (solve_state [])
             (solve_object [])).
  - reflexivity.
  - vm_compute. reflexivity.
Defined.

(** A function that is no [LinearFunction] is solved without a matrix. *)
Lemma solve_linear_dispatch_witness :
  @solve_linear _ _ _ _ _ _ scalar tree (algebra (numpy true false))
    (mkLinearCallable vector_output None) y 1%positive [] None ∅ (solve_state [])
  = @_function_solve_forward _ _ _ _ _ _ scalar tree (algebra (numpy true false))
      vector_output (numpy true false) y 1%positive [] ∅ false (solve_state []).
Proof.
  rewrite (@solve_linear_dispatch _ _ _ _ _ _ scalar tree (algebra (numpy true false))
             (mkLinearCallable vector_output None) y 1%positive [] None ∅ (solve_state [])
             (solve_object [])).
  - reflexivity.
  - vm_compute. reflexivity.
  - reflexivity.
  - reflexivity.
Defined.

(** The initial guess [x0], flattened and cut again. *)
Lemma unflatten_assemble_undoes_flattening_witness :
  @unflatten_assemble _ _ _ _ _ _ tree (algebra (numpy true false))
    (numpy true false) tt [[0%Z]] [x0] [] [0%Z] [] true (solve_state [])
  = (Return x0, solve_state []).
Proof.
  apply (@unflatten_assemble_undoes_flattening _ _ _ _ _ _ tree
           (algebra (numpy true false)) (numpy true false) tt [x0] [] [[0%Z]] x0
           (solve_state [])).
  - reflexivity.
  - intros pre n post Heq. destruct pre as [|n' pre].
    + injection Heq as <- <-. reflexivity.
    + injection Heq as _ Heq. by destruct pre.
  - intros t n Ht Hn. apply list_elem_of_singleton in Ht as ->.
    simpl in Hn. injection Hn as <-. reflexivity.
  - reflexivity.
Defined.

(** Without a tape and without a residual from the backend, the result has
    no residual. *)
Lemma linear_residual_is_rebuilt_only_under_a_tape_witness :
  exists (x : X) (result : SolveInfo.t F X) (σ1 : State),
    @_linear_solve_forward_result _ _ _ _ _ _ scalar tree (algebra silent)
      y 1%positive matrix ["x"] ["x"] silent (solve_state [])
    = (Return (false, (x, result)), σ1)
    /\ SolveInfo.residual result = None.
Proof.
  eassert (Hrun : @_linear_solve_forward_result _ _ _ _ _ _ scalar tree (algebra silent)
                    y 1%positive matrix ["x"] ["x"] silent (solve_state [])
                  = (Return (false, (_, _)), _)).
  { vm_compute. reflexivity. }
  destruct (@linear_residual_is_rebuilt_only_under_a_tape _ _ _ _ _ _ scalar tree
              (algebra silent) _ _ _ _ _ _ _ _ _ _ Hrun)
    as (method & y_native & x0_native & rtol & atol & maxi & r & σb & groups & y_nest
        & Hbackend & Hresidual).
  eexists _, _, _. split; [exact Hrun|].
  vm_compute in Hbackend. injection Hbackend as <- <-.
  exact (proj1 (proj2 Hresidual)).
Defined.

(** The recorded linear solve of [recorded_solve]: the flag [converged] of
    the result is that of the second and last step. *)
Lemma recorded_linear_solve_reports_the_last_step_witness :
  exists (x : X) (result : SolveInfo.t F X) (σ1 : State),
    @_linear_solve_forward_result _ _ _ _ _ _ scalar tree (algebra recording_backend)
      y 1%positive matrix ["x"] ["x"] recording_backend (taped_state true [])
    = (Return (true, (x, result)), σ1)
    /\ values (SolveInfo.converged result) = [true].
Proof.
  eassert (Hrun : @_linear_solve_forward_result _ _ _ _ _ _ scalar tree
                    (algebra recording_backend)
                    y 1%positive matrix ["x"] ["x"] recording_backend (taped_state true [])
                  = (Return (true, (_, _)), _)).
  { vm_compute. reflexivity. }
  destruct (@recorded_linear_solve_reports_the_last_step _ _ _ _ _ _ scalar tree
              (algebra recording_backend) _ _ _ _ _ _ _ _ _ _ Hrun)
    as (s & x0_tensor & y_native & x0_native & rtol & atol & maxi & rs & final & batch_dims
        & _ & _ & _ & Hbackend & Hlast & Hconverged & _).
  eexists _, _, _. split; [exact Hrun|].
  vm_compute in Hbackend. injection Hbackend as <-.
  vm_compute in Hlast. injection Hlast as <-.
  apply (f_equal (fun o => match o with Return t => values t | Raise _ => [] end))
    in Hconverged.
  symmetry. exact Hconverged.
Defined.

Lemma recorded_minimize_reports_the_last_step_witness :
  exists (x : X) (result : SolveInfo.t F X) (σ1 : State),
    @minimize_result _ _ _ _ _ _ scalar tree (algebra recording_backend)
      loss 1%positive (taped_state true [])
    = (Return (true, (x, result)), σ1)
    /\ values (SolveInfo.converged result) = [true].
Proof.
  eassert (Hrun : @minimize_result _ _ _ _ _ _ scalar tree (algebra recording_backend)
                    loss 1%positive (taped_state true [])
                  = (Return (true, (_, _)), _)).
  { vm_compute. reflexivity. }
  destruct (@recorded_minimize_reports_the_last_step _ _ _ _ _ _ scalar tree
              (algebra recording_backend) _ _ _ _ _ _ Hrun)
    as (s & batch_dims & x0_natives & atol & maxi & rs & final & _ & Hbackend & Hlast
        & Hconverged & _).
  eexists _, _, _. split; [exact Hrun|].
  vm_compute in Hbackend. injection Hbackend as <-.
  vm_compute in Hlast. injection Hlast as <-.
  apply (f_equal (fun o => match o with Return t => values t | Raise _ => [] end))
    in Hconverged.
  symmetry. exact Hconverged.
Defined.

End MoreExamples.
